(** * TBM inventory tracker: the day-bucketed store and its stock transactions

    A shallow embedding of [app.py]: the text helpers the handlers rely on,
    the table store, the order sequence, the product-code generator, the
    product, raw-item, stock-adjustment, branch, purchase, sale, delete,
    alert and report handlers, the day-snapshot manager with the start-up
    configuration and reset, and the CSV layer with the import, followed by
    the properties of each.

    Modelling conventions.
    - Text is [string].  Python's [str] methods know Unicode; [strip],
      [lower], [upper], [isdigit] and [isalpha] here are those methods on
      ASCII text and leave every other character alone.  The statements on
      product codes and on branch names say which text they take to be
      ASCII ([Text.is_ascii]).
    - Numbers come twice.  In the tables and handlers of the first part a
      Python [float] is an exact rational ([Q]) and a numeric CSV cell the
      number it denotes, [f"{x:.3f}"] storing [x] rounded to a multiple of
      1/1000; this serves the statements that do not depend on how a sum, a
      difference or a product is rounded.  The purchase, the sale and the
      stock adjustment are given again in double precision ([Double]), with
      the rounding of every operation, the infinities and NaN, and the
      statements on stock arithmetic are made there.
    - A table is the list of its rows, a row a record with one field per
      column of [HEADERS], so every row is a complete record.  The CSV text
      itself is modelled, as the list of the records of each file, for the
      day-snapshot manager, the reader and the writer of a table, and the
      import; [RawRows] has [add_branch] on rows as they are read, where a
      cell can be missing.
    - In the reports a date is the number of its day; [parse_date] and the
      first day of a month are given.
    - [gen_id()] and [today_str()] are inputs of the handler that calls
      them: the fresh identifiers and the current date.
    - A handler is a computation over the tables of the active snapshot and
      the sequence file that returns a value or raises [HTTPException]; what
      was written before the exception stays written.  The one loop that
      need not end, in [_generate_ready_code], is given fuel. *)

From Stdlib Require Import ZArith QArith Qround Qabs Qpower String Ascii List Lia.
From Stdlib Require Import DecimalString DecimalPos.
From stdpp Require Import gmap strings list sorting.

Local Open Scope string_scope.

(** ** Text helpers (Python [str] methods on ASCII text) *)

Module Text.

Definition code (c : ascii) : N := N_of_ascii c.

Definition between (lo hi : N) (c : ascii) : bool :=
  (lo <=? code c)%N && (code c <=? hi)%N.

(** [str.isspace] on ASCII: TAB..CR, FS..US and the space. *)
Definition is_space (c : ascii) : bool := between 9 13 c || between 28 32 c.
Definition is_upper (c : ascii) : bool := between 65 90 c.
Definition is_lower (c : ascii) : bool := between 97 122 c.
Definition is_digit (c : ascii) : bool := between 48 57 c.
Definition is_alpha (c : ascii) : bool := is_upper c || is_lower c.

Definition lower_char (c : ascii) : ascii :=
  if is_upper c then ascii_of_N (code c + 32) else c.
Definition upper_char (c : ascii) : ascii :=
  if is_lower c then ascii_of_N (code c - 32) else c.

Fixpoint map_chars (f : ascii -> ascii) (s : string) : string :=
  match s with
  | EmptyString => EmptyString
  | String c s' => String (f c) (map_chars f s')
  end.

Definition lower : string -> string := map_chars lower_char.
Definition upper : string -> string := map_chars upper_char.

Fixpoint lstrip (s : string) : string :=
  match s with
  | EmptyString => EmptyString
  | String c s' => if is_space c then lstrip s' else s
  end.

Fixpoint rstrip (s : string) : string :=
  match s with
  | EmptyString => EmptyString
  | String c s' =>
      match rstrip s' with
      | EmptyString => if is_space c then EmptyString else String c EmptyString
      | t => String c t
      end
  end.

Definition strip (s : string) : string := rstrip (lstrip s).

(** [s[:1]] *)
Definition first1 (s : string) : string :=
  match s with
  | EmptyString => EmptyString
  | String c _ => String c EmptyString
  end.

(** [s.isalpha()]: non-empty and every character a letter. *)
Fixpoint all_chars (p : ascii -> bool) (s : string) : bool :=
  match s with
  | EmptyString => true
  | String c s' => p c && all_chars p s'
  end.

Definition isalpha (s : string) : bool :=
  negb (String.eqb s "") && all_chars is_alpha s.
Definition isdigit (s : string) : bool :=
  negb (String.eqb s "") && all_chars is_digit s.

(** [x or d] for a string [x]. *)
Definition or_else (x d : string) : string :=
  if String.eqb x "" then d else x.

(** [s.isascii()]: every code point is below 128.  On such text the
    functions above are Python's. *)
Definition is_ascii (s : string) : bool := all_chars (fun c => (code c <? 128)%N) s.

End Text.

(** ** Numbers: rationals for [float], fixed-precision cells *)

Module Num.

(** Round to the nearest integer, ties to even: what [format] does with the
    digit it cuts at. *)
Definition round_half_even (x : Q) : Z :=
  let f := Qfloor x in
  match Qcompare (x - inject_Z f) (1 # 2) with
  | Lt => f
  | Gt => (f + 1)%Z
  | Eq => if Z.even f then f else (f + 1)%Z
  end.

(** The number denoted by [f"{x:.2f}"] and by [f"{x:.3f}"]. *)
Definition fmt2 (x : Q) : Q := round_half_even (x * 100) # 100.
Definition fmt3 (x : Q) : Q := round_half_even (x * 1000) # 1000.

Definition Qltb (x y : Q) : bool := negb (Qle_bool y x).

(** [max(0.0, x)] *)
Definition max0 (x : Q) : Q := if Qltb 0 x then x else 0.

(** [str(n)] for an [int]. *)
Definition str_of_Z (n : Z) : string := NilZero.string_of_int (Z.to_int n).

(** [int(s)] on ASCII text: surrounding whitespace, an optional sign, then
    decimal digits that single underscores may separate.  [None] stands
    for [ValueError]. *)
Definition digit_value (c : ascii) : Z := Z.of_N (Text.code c) - 48.

Inductive scan_state := AtStart | AfterDigit | AfterUnderscore.

Fixpoint scan_digits (st : scan_state) (acc : Z) (s : string) : option Z :=
  match s with
  | EmptyString => match st with AfterDigit => Some acc | _ => None end
  | String c s' =>
      if Text.is_digit c then scan_digits AfterDigit (10 * acc + digit_value c) s'
      else if Ascii.eqb c "_" then
        match st with
        | AfterDigit => scan_digits AfterUnderscore acc s'
        | _ => None
        end
      else None
  end.

Definition int_of_str (s : string) : option Z :=
  match Text.strip s with
  | String "-" s' => Z.opp <$> scan_digits AtStart 0 s'
  | String "+" s' => scan_digits AtStart 0 s'
  | s' => scan_digits AtStart 0 s'
  end.

End Num.

(** ** Handler results

    [OutOfFuel] is the outcome of a handler whose code generator was still
    looping when its fuel ran out. *)

Inductive result (A : Type) : Type :=
| Ok (a : A)
| HTTPException (status_code : Z)
| OutOfFuel.
Arguments Ok {A} a.
Arguments HTTPException {A} status_code.
Arguments OutOfFuel {A}.

(** ** Fixed enumerations *)

Definition CATEGORIES : list string := ["Home Delivery"; "Frozen Products"; "SFH"].
Definition UNITS : list string := ["KG"; "GM"; "Pieces"; "Batch"; "Plates"; "Portion"].
Definition SUBCATEGORIES : list string :=
  ["Infrastructure"; "Meat and Fish"; "Veggies"; "Grocery"; "Dairy"; "Bakery";
   "Kitchen Tool"; "Fuel"; "Serving Dish"; "Operating Supplies"; "Packaging"].
Definition PAYMENT_STATUSES : list string := ["Live"; "Due"; "Paid"].
Definition PAYMENT_MODES : list string :=
  ["CurrentUPI"; "Cash"; "Card"; "PersonalUPI"; "PersonalCash"].

Definition HEADERS : list (string * list string) :=
  [("ready_products",
    ["id"; "name"; "category"; "item_category"; "code";
     "unit"; "unit_cost"; "price"; "quantity"; "threshold"]);
   ("raw_inventory",
    ["id"; "name"; "category"; "subcategory"; "unit";
     "unit_cost"; "stock"; "threshold"]);
   ("purchases",
    ["id"; "date"; "category"; "subcategory"; "item";
     "unit"; "qty"; "unit_cost"; "total_cost"; "notes"]);
   ("sales",
    ["id"; "date"; "category"; "branch"; "order_id"; "item"; "unit"; "qty"; "unit_price";
     "discount"; "total_price"; "customer_name"; "customer_phone"; "table_no";
     "payment_status"; "payment_mode"; "payment_note"; "notes"]);
   ("branches", ["id"; "name"; "is_active"])].

(** ** Rows of the five tables (one field per header column) *)

Record ReadyProduct := {
  rp_id : string; rp_name : string; rp_category : string;
  rp_item_category : string; rp_code : string; rp_unit : string;
  rp_unit_cost : Q; rp_price : Q; rp_quantity : Q; rp_threshold : Q
}.

Record RawItem := {
  raw_id : string; raw_name : string; raw_category : string;
  raw_subcategory : string; raw_unit : string;
  raw_unit_cost : Q; raw_stock : Q; raw_threshold : Q
}.

Record Purchase := {
  pur_id : string; pur_date : string; pur_category : string;
  pur_subcategory : string; pur_item : string; pur_unit : string;
  pur_qty : Q; pur_unit_cost : Q; pur_total_cost : Q; pur_notes : string
}.

Record Sale := {
  sale_id : string; sale_date : string; sale_category : string;
  sale_branch : string; sale_order_id : string; sale_item : string;
  sale_unit : string; sale_qty : Q; sale_unit_price : Q; sale_discount : Q;
  sale_total_price : Q; sale_customer_name : string;
  sale_customer_phone : string; sale_table_no : string;
  sale_payment_status : string; sale_payment_mode : string;
  sale_payment_note : string; sale_notes : string
}.

Record Branch := {
  branch_id : string; branch_name : string; branch_is_active : string
}.

(** ** The store: the active snapshot's tables and the sequence file

    [order_seq] is [None] while [conf/order_seq.txt] does not exist and
    [Some n] when it holds the decimal text of [n]. *)

Record Store := {
  ready_products : list ReadyProduct;
  raw_inventory : list RawItem;
  purchases : list Purchase;
  sales : list Sale;
  branches : list Branch;
  order_seq : option Z
}.

Definition empty_store : Store :=
  {| ready_products := []; raw_inventory := []; purchases := []; sales := [];
     branches := []; order_seq := None |}.

(** A table of the store: how [read_csv(name)] and [write_csv(name, rows)]
    reach it. *)
Record Table (R : Type) := {
  tbl_rows : Store -> list R;
  tbl_put : list R -> Store -> Store
}.
Arguments tbl_rows {R} _ _.
Arguments tbl_put {R} _ _ _.

Definition ready_products_tbl : Table ReadyProduct :=
  {| tbl_rows := ready_products;
     tbl_put rows st :=
       {| ready_products := rows; raw_inventory := raw_inventory st;
          purchases := purchases st; sales := sales st; branches := branches st;
          order_seq := order_seq st |} |}.

Definition raw_inventory_tbl : Table RawItem :=
  {| tbl_rows := raw_inventory;
     tbl_put rows st :=
       {| ready_products := ready_products st; raw_inventory := rows;
          purchases := purchases st; sales := sales st; branches := branches st;
          order_seq := order_seq st |} |}.

Definition purchases_tbl : Table Purchase :=
  {| tbl_rows := purchases;
     tbl_put rows st :=
       {| ready_products := ready_products st; raw_inventory := raw_inventory st;
          purchases := rows; sales := sales st; branches := branches st;
          order_seq := order_seq st |} |}.

Definition sales_tbl : Table Sale :=
  {| tbl_rows := sales;
     tbl_put rows st :=
       {| ready_products := ready_products st; raw_inventory := raw_inventory st;
          purchases := purchases st; sales := rows; branches := branches st;
          order_seq := order_seq st |} |}.

Definition branches_tbl : Table Branch :=
  {| tbl_rows := branches;
     tbl_put rows st :=
       {| ready_products := ready_products st; raw_inventory := raw_inventory st;
          purchases := purchases st; sales := sales st; branches := rows;
          order_seq := order_seq st |} |}.

Definition put_order_seq (v : option Z) (st : Store) : Store :=
  {| ready_products := ready_products st; raw_inventory := raw_inventory st;
     purchases := purchases st; sales := sales st; branches := branches st;
     order_seq := v |}.

(** ** The handler monad: state, then a value or an exception *)

Definition M (A : Type) : Type := Store -> result A * Store.

Global Instance M_ret : MRet M := fun A a st => (Ok a, st).

Global Instance M_bind : MBind M := fun A B f m st =>
  match m st with
  | (Ok a, st') => f a st'
  | (HTTPException c, st') => (HTTPException c, st')
  | (OutOfFuel, st') => (OutOfFuel, st')
  end.

Definition raise {A} (status_code : Z) : M A := fun st => (HTTPException status_code, st).
Definition out_of_fuel {A} : M A := fun st => (OutOfFuel, st).

Definition read_csv {R} (t : Table R) : M (list R) := fun st => (Ok (tbl_rows t st), st).
Definition write_csv {R} (t : Table R) (rows : list R) : M unit :=
  fun st => (Ok tt, tbl_put t rows st).
Definition append_row {R} (t : Table R) (row : R) : M unit :=
  rows ← read_csv t; write_csv t (rows ++ [row])%list.

(** [x or d] for an optional string field. *)
Definition opt_or (x : option string) (d : string) : string :=
  match x with
  | Some s => Text.or_else s d
  | None => d
  end.

(** ** Unit conversion *)

(** [None] stands for the [ValueError] of an undefined conversion. *)
Definition convert_qty (qty : Q) (from_unit to_unit : string) : option Q :=
  if decide (from_unit = to_unit) then Some qty
  else if decide (from_unit = "KG" ∧ to_unit = "GM") then Some (qty * 1000)%Q
  else if decide (from_unit = "GM" ∧ to_unit = "KG") then Some (qty / 1000)%Q
  else None.

(** ** Order sequence *)

(** [m = max(m, int(r.get("order_id") or 0))], a row that does not parse
    being skipped. *)
Definition scan_step (m : Z) (r : Sale) : Z :=
  match Num.int_of_str (Text.or_else (sale_order_id r) "0") with
  | Some n => Z.max m n
  | None => m
  end.

Definition _scan_max_order_id : M Z :=
  rows ← read_csv sales_tbl;
  mret (foldl scan_step 0%Z rows).

(** Whether the sequence file exists, its content and its overwriting. *)
Definition read_order_seq : M (option Z) := fun st => (Ok (order_seq st), st).
Definition write_order_seq (n : Z) : M unit :=
  fun st => (Ok tt, put_order_seq (Some n) st).

Definition next_order_id (peek : bool) : M Z :=
  file ← read_order_seq;
  _ ← match file with
      | None => m ← _scan_max_order_id; write_order_seq m
      | Some _ => mret tt
      end;
  file ← read_order_seq;
  let current := default 0%Z file in
  let nxt := (current + 1)%Z in
  _ ← (if peek then mret tt else write_order_seq nxt);
  mret nxt.

(** ** Validation helpers *)

Definition _ensure_unit (u : string) : M unit :=
  if decide (u ∈ UNITS) then mret tt else raise 400.

Definition _ensure_subcategory (s : string) : M unit :=
  if decide (s ∈ SUBCATEGORIES) then mret tt else raise 400.

(** ** Ready-product codes *)

(** [f"{d}"] for a digit [d]. *)
Definition digit_str (d : nat) : string := String (ascii_of_nat (48 + d)) "".

(** [chr(ord("A") + (idx % 26))] *)
Definition extra_letter (idx : nat) : string := String (ascii_of_nat (65 + idx mod 26)) "".

(** [{(r.get("code") or "").upper() for r in rows}] *)
Definition existing_codes (rows : list ReadyProduct) : gset string :=
  list_to_set ((fun r => Text.upper (rp_code r)) <$> rows).

(** The first candidate, in order, that is not in [existing]. *)
Definition first_free (existing : gset string) (cands : list string) : option string :=
  snd <$> list_find (fun c => c ∉ existing) cands.

(** The candidates of the first loop, [f"{d}{suffix}"] for [d] in
    [range(1, 10)], and those of one turn of the fallback loop,
    [f"{d}{l2}{extra}"]. *)
Definition primary_candidates (suffix : string) : list string :=
  (fun d => digit_str d +:+ suffix) <$> seq 1 9.

Definition fallback_candidates (l2 : string) (idx : nat) : list string :=
  (fun d => digit_str d +:+ l2 +:+ extra_letter idx) <$> seq 1 9.

(** The [while True] loop; [fuel] bounds the number of values of [idx]
    tried, [None] meaning that the loop is still running. *)
Fixpoint fallback_search (fuel idx : nat) (l2 : string) (existing : gset string)
  : option string :=
  match fuel with
  | O => None
  | S fuel' =>
      match first_free existing (fallback_candidates l2 idx) with
      | Some code => Some code
      | None => fallback_search fuel' (S idx) l2 existing
      end
  end.

Definition code_letters (name item_category : string) : string * string :=
  let base_cat := Text.strip item_category in
  let base_name := Text.strip name in
  let base_cat := if decide (base_cat = "") then base_name else base_cat in
  (Text.upper (Text.or_else (Text.first1 base_cat) "X"),
   Text.upper (Text.or_else (Text.first1 base_name) "X")).

Definition _generate_ready_code (fuel : nat) (name item_category : string)
    (rows : list ReadyProduct) : option string :=
  let '(l2, l3) := code_letters name item_category in
  let suffix := l2 +:+ l3 in
  let existing := existing_codes rows in
  match first_free existing (primary_candidates suffix) with
  | Some code => Some code
  | None => fallback_search fuel 0 l2 existing
  end.

(** Every code the two loops can ever test. *)
Definition all_candidates (l2 l3 : string) : list string :=
  (primary_candidates (l2 +:+ l3)
   ++ flat_map (fallback_candidates l2) (seq 0 26))%list.

(** The shape [^[1-9][A-Z]{2}$]. *)
Definition matches_code_pattern (s : string) : bool :=
  match s with
  | String d (String a (String b EmptyString)) =>
      Text.between 49 57 d && Text.is_upper a && Text.is_upper b
  | _ => false
  end.

(** The check both product handlers apply to an explicit code:
    [len(c) != 3 or not (c[0].isdigit() and c[1:].isalpha())]. *)
Definition code_malformed (c : string) : bool :=
  negb (String.length c =? 3)%nat
  || negb (Text.isdigit (String.substring 0 1 c)
           && Text.isalpha (String.substring 1 (String.length c - 1) c)).

(** ** Ready products *)

Record ReadyProductIn := {
  rpi_name : string; rpi_category : string; rpi_unit : string;
  rpi_unit_cost : Q; rpi_price : Q; rpi_quantity : Q; rpi_threshold : Q;
  rpi_item_category : option string; rpi_code : option string
}.

(** A patch: [None] for a field left out ([exclude_none]). *)
Record ReadyProductUpdate := {
  rpu_name : option string; rpu_category : option string; rpu_unit : option string;
  rpu_unit_cost : option Q; rpu_price : option Q; rpu_quantity : option Q;
  rpu_threshold : option Q; rpu_item_category : option string;
  rpu_code : option string
}.

(** [(code or "").strip().upper()] *)
Definition normalised_code (code : option string) : string :=
  Text.upper (Text.strip (opt_or code "")).

(** The shape the explicit-code check lets through: [^[0-9][A-Z]{2}$]. *)
Definition matches_explicit_pattern (s : string) : bool :=
  match s with
  | String d (String a (String b EmptyString)) =>
      Text.is_digit d && Text.is_upper a && Text.is_upper b
  | _ => false
  end.

(** The code is on a row of the table, on a row other than [item_id]. *)
Definition code_taken (c : string) (rows : list ReadyProduct) : Prop :=
  Exists (fun r => Text.upper (rp_code r) = c) rows.

Definition code_taken_by_other (item_id c : string) (rows : list ReadyProduct) : Prop :=
  Exists (fun r => rp_id r ≠ item_id ∧ Text.upper (rp_code r) = c) rows.

Global Instance code_taken_dec c rows : Decision (code_taken c rows).
Proof. unfold code_taken. apply _. Defined.

Global Instance code_taken_by_other_dec item_id c rows :
  Decision (code_taken_by_other item_id c rows).
Proof. unfold code_taken_by_other. apply _. Defined.

Definition add_ready_product_api (fuel : nat) (new_id : string) (item : ReadyProductIn)
  : M (string * string) :=
  if decide (rpi_category item ∉ CATEGORIES) then raise 400 else
  _ ← _ensure_unit (rpi_unit item);
  rows ← read_csv ready_products_tbl;
  let item_category := Text.strip (opt_or (rpi_item_category item) "") in
  let incoming_code := normalised_code (rpi_code item) in
  code ← (if decide (incoming_code ≠ "") then
            if code_malformed incoming_code then raise 400
            else match list_find (fun r => Text.upper (rp_code r) = incoming_code) rows with
                 | Some _ => raise 400
                 | None => mret incoming_code
                 end
          else match _generate_ready_code fuel (rpi_name item) item_category rows with
               | Some code => mret code
               | None => out_of_fuel
               end);
  let row :=
    {| rp_id := new_id; rp_name := Text.strip (rpi_name item);
       rp_category := rpi_category item; rp_item_category := item_category;
       rp_code := code; rp_unit := rpi_unit item;
       rp_unit_cost := Num.fmt2 (rpi_unit_cost item);
       rp_price := Num.fmt2 (rpi_price item);
       rp_quantity := Num.fmt3 (rpi_quantity item);
       rp_threshold := Num.fmt3 (rpi_threshold item) |} in
  _ ← append_row ready_products_tbl row;
  mret (rp_id row, code).

(** [for k, v in data.items(): r[k] = str(v)] *)
Definition apply_ready_patch (data : ReadyProductUpdate) (r : ReadyProduct) : ReadyProduct :=
  {| rp_id := rp_id r;
     rp_name := default (rp_name r) (rpu_name data);
     rp_category := default (rp_category r) (rpu_category data);
     rp_item_category := default (rp_item_category r) (rpu_item_category data);
     rp_code := default (rp_code r) (rpu_code data);
     rp_unit := default (rp_unit r) (rpu_unit data);
     rp_unit_cost := default (rp_unit_cost r) (rpu_unit_cost data);
     rp_price := default (rp_price r) (rpu_price data);
     rp_quantity := default (rp_quantity r) (rpu_quantity data);
     rp_threshold := default (rp_threshold r) (rpu_threshold data) |}.

Definition with_code (data : ReadyProductUpdate) (c : string) : ReadyProductUpdate :=
  {| rpu_name := rpu_name data; rpu_category := rpu_category data;
     rpu_unit := rpu_unit data; rpu_unit_cost := rpu_unit_cost data;
     rpu_price := rpu_price data; rpu_quantity := rpu_quantity data;
     rpu_threshold := rpu_threshold data;
     rpu_item_category := rpu_item_category data; rpu_code := Some c |}.

(** The category and the unit of a patch, when present, are in their
    enumerations. *)
Definition patch_fields_valid (patch : ReadyProductUpdate) : Prop :=
  match rpu_category patch with Some c => c ∈ CATEGORIES | None => True end
  ∧ match rpu_unit patch with Some u => u ∈ UNITS | None => True end.

Global Instance patch_fields_valid_dec patch : Decision (patch_fields_valid patch).
Proof.
  unfold patch_fields_valid.
  destruct (rpu_category patch), (rpu_unit patch); apply _.
Defined.

Definition update_ready_product_api (item_id : string) (patch : ReadyProductUpdate)
  : M unit :=
  rows ← read_csv ready_products_tbl;
  let data := patch in
  _ ← match rpu_category data with
      | Some c => if decide (c ∉ CATEGORIES) then raise 400 else mret tt
      | None => mret tt
      end;
  _ ← match rpu_unit data with
      | Some u => _ensure_unit u
      | None => mret tt
      end;
  data ← match rpu_code data with
         | Some c =>
             let raw := normalised_code (Some c) in
             if decide (raw ≠ "") then
               if code_malformed raw then raise 400
               else match list_find
                            (fun r => rp_id r ≠ item_id ∧ Text.upper (rp_code r) = raw)
                            rows with
                    | Some _ => raise 400
                    | None => mret (with_code data raw)
                    end
             else mret (with_code data "")
         | None => mret data
         end;
  match list_find (fun r => rp_id r = item_id) rows with
  | Some (i, r) => write_csv ready_products_tbl (<[i := apply_ready_patch data r]> rows)
  | None => raise 404
  end.

(** [r["quantity"] = ...] *)
Definition with_quantity (q : Q) (r : ReadyProduct) : ReadyProduct :=
  {| rp_id := rp_id r; rp_name := rp_name r; rp_category := rp_category r;
     rp_item_category := rp_item_category r; rp_code := rp_code r;
     rp_unit := rp_unit r; rp_unit_cost := rp_unit_cost r; rp_price := rp_price r;
     rp_quantity := q; rp_threshold := rp_threshold r |}.

Definition adjust_ready_stock_api (item_id : string) (delta : Q) : M Q :=
  rows ← read_csv ready_products_tbl;
  match list_find (fun r => rp_id r = item_id) rows with
  | Some (i, r) =>
      let q := (rp_quantity r + delta)%Q in
      if Num.Qltb q 0 then raise 400
      else _ ← write_csv ready_products_tbl (<[i := with_quantity (Num.fmt3 q) r]> rows);
           mret q
  | None => raise 404
  end.

(** ** Branches *)

Record BranchIn := { bi_name : string; bi_is_active : bool }.

Definition same_branch_name (b : BranchIn) (r : Branch) : Prop :=
  Text.lower (Text.strip (branch_name r)) = Text.lower (Text.strip (bi_name b)).

Global Instance same_branch_name_dec b r : Decision (same_branch_name b r).
Proof. unfold same_branch_name. apply _. Defined.

Definition add_branch (new_id : string) (b : BranchIn) : M string :=
  rows ← read_csv branches_tbl;
  match list_find (same_branch_name b) rows with
  | Some (_, r) => mret (branch_id r)
  | None =>
      let row := {| branch_id := new_id; branch_name := Text.strip (bi_name b);
                    branch_is_active := if bi_is_active b then "1" else "0" |} in
      _ ← append_row branches_tbl row;
      mret (branch_id row)
  end.

(** ** Purchases *)

Record PurchaseIn := {
  pin_date : option string; pin_category : string; pin_subcategory : string;
  pin_item : string; pin_unit : string; pin_qty : Q; pin_unit_cost : Q;
  pin_notes : option string
}.

Record PurchaseResp := {
  resp_id : string; resp_new_stock : Q; resp_unit : string
}.

(** [target["stock"] = ...; target["unit_cost"] = ...] *)
Definition with_stock_and_cost (stock unit_cost : Q) (r : RawItem) : RawItem :=
  {| raw_id := raw_id r; raw_name := raw_name r; raw_category := raw_category r;
     raw_subcategory := raw_subcategory r; raw_unit := raw_unit r;
     raw_unit_cost := unit_cost; raw_stock := stock;
     raw_threshold := raw_threshold r |}.

Definition purchase_match (p : PurchaseIn) (r : RawItem) : Prop :=
  Text.lower (Text.strip (raw_name r)) = Text.lower (Text.strip (pin_item p))
  ∧ raw_category r = pin_category p
  ∧ raw_subcategory r = pin_subcategory p.

Global Instance purchase_match_dec p r : Decision (purchase_match p r).
Proof. unfold purchase_match. apply _. Defined.

(** The row created for an item bought for the first time. *)
Definition new_raw_item (item_id : string) (p : PurchaseIn) : RawItem :=
  {| raw_id := item_id; raw_name := Text.strip (pin_item p);
     raw_category := pin_category p; raw_subcategory := pin_subcategory p;
     raw_unit := pin_unit p; raw_unit_cost := Num.fmt2 (pin_unit_cost p);
     raw_stock := 0; raw_threshold := 0 |}.

(** [add_qty]: the quantity in the unit of the target row; [None] for the
    [ValueError] of [convert_qty]. *)
Definition converted_qty (p : PurchaseIn) (target : RawItem) : option Q :=
  if decide (raw_unit target ≠ pin_unit p)
  then convert_qty (pin_qty p) (pin_unit p) (raw_unit target)
  else Some (pin_qty p).

(** The ledger row of a purchase. *)
Definition purchase_row (d purchase_id : string) (p : PurchaseIn) : Purchase :=
  let total := (pin_qty p * pin_unit_cost p)%Q in
  {| pur_id := purchase_id; pur_date := d; pur_category := pin_category p;
     pur_subcategory := pin_subcategory p; pur_item := Text.strip (pin_item p);
     pur_unit := pin_unit p; pur_qty := Num.fmt3 (pin_qty p);
     pur_unit_cost := Num.fmt2 (pin_unit_cost p);
     pur_total_cost := Num.fmt2 total;
     pur_notes := opt_or (pin_notes p) "" |}.

(** The target of a purchase: the first matching row and its index, or a
    new row appended to the table. *)
Definition purchase_target (item_id : string) (p : PurchaseIn) (inv : list RawItem)
  : nat * RawItem * list RawItem :=
  match list_find (purchase_match p) inv with
  | Some (i, r) => (i, r, inv)
  | None => (length inv, new_raw_item item_id p, (inv ++ [new_raw_item item_id p])%list)
  end.

Definition add_purchase_api (today item_id purchase_id : string) (p : PurchaseIn)
  : M PurchaseResp :=
  if decide (pin_category p ∉ CATEGORIES) then raise 400 else
  _ ← _ensure_subcategory (pin_subcategory p);
  _ ← _ensure_unit (pin_unit p);
  let d := opt_or (pin_date p) today in
  inv ← read_csv raw_inventory_tbl;
  let '(i, target, inv) := purchase_target item_id p inv in
  match converted_qty p target with
  | None => raise 400
  | Some add_qty =>
      let stock := (raw_stock target + add_qty)%Q in
      _ ← write_csv raw_inventory_tbl
            (<[i := with_stock_and_cost (Num.fmt3 stock) (Num.fmt2 (pin_unit_cost p)) target]> inv);
      let prow := purchase_row d purchase_id p in
      _ ← append_row purchases_tbl prow;
      mret {| resp_id := pur_id prow; resp_new_stock := stock;
              resp_unit := raw_unit target |}
  end.

(** ** Sales *)

Record SaleIn := {
  sin_date : option string; sin_category : string; sin_branch : option string;
  sin_order_id : option Z; sin_item : string; sin_unit : string; sin_qty : Q;
  sin_unit_price : option Q; sin_discount : Q;
  sin_customer_name : option string; sin_customer_phone : option string;
  sin_table_no : option string; sin_payment_status : string;
  sin_payment_mode : option string; sin_payment_note : option string;
  sin_notes : option string
}.

Record SaleResp := {
  sresp_id : string; sresp_order_id : Z; sresp_remaining_stock : Q
}.

Definition sale_match (s : SaleIn) (r : ReadyProduct) : Prop :=
  Text.lower (Text.strip (rp_name r)) = Text.lower (Text.strip (sin_item s))
  ∧ rp_category r = sin_category s.

Global Instance sale_match_dec s r : Decision (sale_match s r).
Proof. unfold sale_match. apply _. Defined.

Definition add_sale_api (today new_id : string) (s : SaleIn) : M SaleResp :=
  if decide (sin_category s ∉ CATEGORIES) then raise 400 else
  ready ← read_csv ready_products_tbl;
  match list_find (sale_match s) ready with
  | None => raise 400
  | Some (i, target) =>
      let prod_unit := rp_unit target in
      if decide (sin_unit s ≠ prod_unit) then raise 400 else
      let price := default (rp_price target) (sin_unit_price s) in
      let qty := sin_qty s in
      let discount := if Num.Qltb (sin_discount s) 0 then 0%Q else sin_discount s in
      let d := opt_or (sin_date s) today in
      let current := rp_quantity target in
      if Num.Qltb current qty then raise 400 else
      let target := with_quantity (Num.fmt3 (current - qty)) target in
      _ ← write_csv ready_products_tbl (<[i := target]> ready);
      oid ← match sin_order_id s with
            | Some oid => mret oid
            | None => next_order_id false
            end;
      let subtotal := (qty * price)%Q in
      let total := Num.max0 (subtotal - discount) in
      let row :=
        {| sale_id := new_id; sale_date := d; sale_category := sin_category s;
           sale_branch := opt_or (sin_branch s) "";
           sale_order_id := Num.str_of_Z oid; sale_item := rp_name target;
           sale_unit := sin_unit s; sale_qty := Num.fmt3 qty;
           sale_unit_price := Num.fmt2 price; sale_discount := Num.fmt2 discount;
           sale_total_price := Num.fmt2 total;
           sale_customer_name := opt_or (sin_customer_name s) "";
           sale_customer_phone := opt_or (sin_customer_phone s) "";
           sale_table_no := opt_or (sin_table_no s) "";
           sale_payment_status := Text.or_else (sin_payment_status s) "Live";
           sale_payment_mode := opt_or (sin_payment_mode s) "";
           sale_payment_note := opt_or (sin_payment_note s) "";
           sale_notes := opt_or (sin_notes s) "" |} in
      _ ← append_row sales_tbl row;
      mret {| sresp_id := sale_id row; sresp_order_id := oid;
              sresp_remaining_stock := rp_quantity target |}
  end.

(** The sibling handler that changes the payment fields of a recorded sale. *)
Record SalePaymentPatch := {
  spp_id : string; spp_payment_status : option string;
  spp_payment_mode : option string
}.

Definition with_payment (status mode : string) (r : Sale) : Sale :=
  {| sale_id := sale_id r; sale_date := sale_date r; sale_category := sale_category r;
     sale_branch := sale_branch r; sale_order_id := sale_order_id r;
     sale_item := sale_item r; sale_unit := sale_unit r; sale_qty := sale_qty r;
     sale_unit_price := sale_unit_price r; sale_discount := sale_discount r;
     sale_total_price := sale_total_price r;
     sale_customer_name := sale_customer_name r;
     sale_customer_phone := sale_customer_phone r; sale_table_no := sale_table_no r;
     sale_payment_status := status; sale_payment_mode := mode;
     sale_payment_note := sale_payment_note r; sale_notes := sale_notes r |}.

Definition update_sale_payment (p : SalePaymentPatch) : M unit :=
  rows ← read_csv sales_tbl;
  match list_find (fun r => sale_id r = spp_id p) rows with
  | None => raise 404
  | Some (i, sale) =>
      status ← match spp_payment_status p with
               | Some st =>
                   if decide (st ∉ PAYMENT_STATUSES) then raise 400 else mret st
               | None => mret (sale_payment_status sale)
               end;
      mode ← match spp_payment_mode p with
             | Some mode =>
                 if decide (mode ≠ "" ∧ mode ∉ PAYMENT_MODES) then raise 400
                 else if decide (status ≠ "Paid") then mret ""
                 else mret mode
             | None => mret (sale_payment_mode sale)
             end;
      write_csv sales_tbl (<[i := with_payment status mode sale]> rows)
  end.

(** ** Day snapshots

    [DATA_ROOT] holds one entry per name: a directory of files or a plain
    file.  A file is the list of its CSV records, the header first.
    Directories nested in a snapshot directory are not modelled. *)

Module Snapshot.

Abbreviation file := (list (list string)).

Inductive entry :=
| Dir (files : gmap string file)
| File.

(** [None] while [DATA_ROOT] does not exist. *)
Definition data_root := option (gmap string entry).

(** [dirpath / f"{key}.csv"] *)
Definition csv_name (key : string) : string := key +:+ ".csv".

(** One turn of the loop of [_init_csvs]: write the header-only file of a
    table unless the file exists. *)
Definition init_step (d : gmap string file) (kh : string * list string)
  : gmap string file :=
  match d !! csv_name kh.1 with
  | Some _ => d
  | None => <[csv_name kh.1 := [kh.2]]> d
  end.

(** The body of [_init_csvs] once the directory exists. *)
Definition _init_csvs (d : gmap string file) : gmap string file :=
  foldl init_step d HEADERS.

Definition dirs_of (root : gmap string entry) : list (string * gmap string file) :=
  omap (fun '(name, e) => match e with Dir d => Some (name, d) | File => None end)
       (map_to_list root).

Definition name_le (x y : string * gmap string file) : Prop := String.le x.1 y.1.

Global Instance name_le_dec : RelDecision name_le.
Proof. intros x y. unfold name_le. apply _. Defined.

(** [sorted(...)] then [dirs[-1] if dirs else None] *)
Definition _latest_existing_day_dir (root : data_root)
  : option (string * gmap string file) :=
  match root with
  | None => None
  | Some root => last (merge_sort name_le (dirs_of root))
  end.

(** The outcome: the new [DATA_ROOT], or [None] when [mkdir] finds a plain
    file where today's directory should be. *)
Definition get_today_dir (today : string) (root : data_root)
  : option (gmap string entry) :=
  let root := default ∅ root in
  match root !! today with
  | Some (Dir d) => Some (<[today := Dir (_init_csvs d)]> root)
  | Some File => None
  | None =>
      let latest := _latest_existing_day_dir (Some root) in
      let copied :=
        match latest with
        | Some (name, d) => if decide (name ≠ today) then d else ∅
        | None => ∅
        end in
      Some (<[today := Dir (_init_csvs copied)]> root)
  end.

(** What [_init_csvs] writes for a file name that is missing: the header
    of the table it belongs to, if it is a table file. *)
Definition header_file (f : string) : option file :=
  (fun hit : nat * (string * list string) => [hit.2.2])
    <$> list_find (fun kh => csv_name kh.1 = f) HEADERS.

(** The data records of a table in a snapshot directory: what
    [csv.DictReader] iterates over, after the header. *)
Definition table_rows (d : gmap string file) (key : string) : option (list (list string)) :=
  tail <$> d !! csv_name key.

End Snapshot.

(** ** Sequential use of the order sequence

    A run interleaves calls of [next_order_id] with the other handlers,
    which may rewrite any table but never touch the sequence file. *)

Inductive action :=
| Call (peek : bool)
| Other (f : Store -> Store).

(** The value the next call starts from: the file's content, or what the
    lazy initialisation is about to write. *)
Definition current_value (st : Store) : Z :=
  match order_seq st with
  | Some c => c
  | None => foldl scan_step 0%Z (sales st)
  end.

Definition step (a : action) (st : Store) : list (bool * Z) * Store :=
  match a with
  | Call peek =>
      match next_order_id peek st with
      | (Ok n, st') => ([(peek, n)], st')
      | (_, st') => ([], st')
      end
  | Other f => ([], put_order_seq (order_seq st) (f st))
  end.

Fixpoint run (acts : list action) (st : Store) : list (bool * Z) * Store :=
  match acts with
  | [] => ([], st)
  | a :: acts' =>
      let '(e, st1) := step a st in
      let '(es, st2) := run acts' st1 in
      ((e ++ es)%list, st2)
  end.

(** An action that is not a non-peek call. *)
Definition is_peek_or_other (a : action) : Prop := a ≠ Call false.

(** The values returned by the non-peek calls of a run, in call order. *)
Definition committed (events : list (bool * Z)) : list Z :=
  snd <$> filter (fun e => e.1 = false) events.

Definition seq_le (a b : option Z) : Prop :=
  match a, b with
  | None, _ => True
  | Some x, Some y => (x <= y)%Z
  | Some _, None => False
  end.

(** ** What a handler leaves behind

    The row a sale writes back and the row it appends, as functions of the
    request and of the product row it matched. *)

Definition sale_discount_of (s : SaleIn) : Q :=
  if Num.Qltb (sin_discount s) 0 then 0%Q else sin_discount s.

Definition sale_row (today new_id : string) (s : SaleIn) (target : ReadyProduct)
    (oid : Z) : Sale :=
  let price := default (rp_price target) (sin_unit_price s) in
  {| sale_id := new_id; sale_date := opt_or (sin_date s) today;
     sale_category := sin_category s; sale_branch := opt_or (sin_branch s) "";
     sale_order_id := Num.str_of_Z oid; sale_item := rp_name target;
     sale_unit := sin_unit s; sale_qty := Num.fmt3 (sin_qty s);
     sale_unit_price := Num.fmt2 price;
     sale_discount := Num.fmt2 (sale_discount_of s);
     sale_total_price :=
       Num.fmt2 (Num.max0 (sin_qty s * price - sale_discount_of s));
     sale_customer_name := opt_or (sin_customer_name s) "";
     sale_customer_phone := opt_or (sin_customer_phone s) "";
     sale_table_no := opt_or (sin_table_no s) "";
     sale_payment_status := Text.or_else (sin_payment_status s) "Live";
     sale_payment_mode := opt_or (sin_payment_mode s) "";
     sale_payment_note := opt_or (sin_payment_note s) "";
     sale_notes := opt_or (sin_notes s) "" |}.

(** The order id a sale ends up with and the sequence file it leaves. *)
Definition sale_order_id_of (s : SaleIn) (st : Store) : Z :=
  match sin_order_id s with
  | Some oid => oid
  | None => (current_value st + 1)%Z
  end.

Definition sale_order_seq_of (s : SaleIn) (st : Store) : option Z :=
  match sin_order_id s with
  | Some _ => order_seq st
  | None => Some (current_value st + 1)%Z
  end.

(** ** A small shop, for the worked examples *)

Definition burger : ReadyProduct :=
  {| rp_id := "p1"; rp_name := "Burger"; rp_category := "Home Delivery";
     rp_item_category := "Snacks"; rp_code := "1SB"; rp_unit := "Pieces";
     rp_unit_cost := 60; rp_price := 100; rp_quantity := 20; rp_threshold := 5 |}.

Definition rice : ReadyProduct :=
  {| rp_id := "p2"; rp_name := "Fried rice"; rp_category := "Home Delivery";
     rp_item_category := "Mains"; rp_code := "1MF"; rp_unit := "KG";
     rp_unit_cost := 80; rp_price := 150; rp_quantity := 1; rp_threshold := 0 |}.

Definition shop : Store :=
  {| ready_products := [burger; rice]; raw_inventory := []; purchases := [];
     sales := []; branches := []; order_seq := None |}.

(** A sale request with every optional field left out. *)
Definition sale_of (item unit : string) (qty : Q) (payment_status : string) : SaleIn :=
  {| sin_date := None; sin_category := "Home Delivery"; sin_branch := None;
     sin_order_id := None; sin_item := item; sin_unit := unit; sin_qty := qty;
     sin_unit_price := None; sin_discount := 0; sin_customer_name := None;
     sin_customer_phone := None; sin_table_no := None;
     sin_payment_status := payment_status; sin_payment_mode := None;
     sin_payment_note := None; sin_notes := None |}.

(** A purchase request with every optional field left out. *)
Definition purchase_of (item unit : string) (qty unit_cost : Q) : PurchaseIn :=
  {| pin_date := None; pin_category := "Frozen Products";
     pin_subcategory := "Meat and Fish"; pin_item := item; pin_unit := unit;
     pin_qty := qty; pin_unit_cost := unit_cost; pin_notes := None |}.

(** A product request that brings its own code. *)
Definition product_of (name code : string) : ReadyProductIn :=
  {| rpi_name := name; rpi_category := "Home Delivery"; rpi_unit := "Pieces";
     rpi_unit_cost := 0; rpi_price := 0; rpi_quantity := 0; rpi_threshold := 0;
     rpi_item_category := None; rpi_code := Some code |}.

(** A store whose raw inventory holds ten kilograms of chicken. *)
Definition chicken : RawItem :=
  {| raw_id := "r1"; raw_name := "Chicken"; raw_category := "Frozen Products";
     raw_subcategory := "Meat and Fish"; raw_unit := "KG";
     raw_unit_cost := 200; raw_stock := 10; raw_threshold := 0 |}.

Definition freezer : Store :=
  {| ready_products := []; raw_inventory := [chicken]; purchases := [];
     sales := []; branches := []; order_seq := None |}.





(** A store with four recorded sales and no sequence file: two sales of the
    second of January, one of the first, and one whose date does not read. *)
Definition sold (new_id date : string) (p : ReadyProduct) (qty : Q) (oid : Z) : Sale :=
  sale_row date new_id (sale_of (rp_name p) (rp_unit p) qty "Live") p oid.

Definition till : Store :=
  {| ready_products := [burger; rice]; raw_inventory := []; purchases := [];
     sales := [sold "s1" "2024-01-02" burger 3 7; sold "s2" "2024-01-02" rice 1 3;
               sold "s3" "2024-01-01" burger 1 5; sold "s4" "soon" burger 2 6];
     branches := []; order_seq := None |}.

(** ** Start-up: configuration and the one-time reset

    [load_config] reads [conf/config.txt], given as the list of its lines
    ([None] when the file is missing).  [_maybe_reset_for_full_invent] is
    modelled on [DATA_ROOT] alone: where the old content is moved to, under
    [data_backup], is outside the state. *)

Module Bootstrap.

(** [line.startswith("#")] *)
Definition starts_with_hash (s : string) : bool :=
  match s with
  | String "#" _ => true
  | _ => false
  end.

(** [line.split("=", 1)] for a line that contains [=]: the text before the
    first [=] and the text after it; [None] when the line has none. *)
Fixpoint split_eq (s : string) : option (string * string) :=
  match s with
  | EmptyString => None
  | String c s' =>
      if Ascii.eqb c "=" then Some (EmptyString, s')
      else match split_eq s' with
           | Some (k, v) => Some (String c k, v)
           | None => None
           end
  end.

(** One turn of the loop of [load_config] on the flag read so far. *)
Definition config_step (full_invent : bool) (line : string) : bool :=
  let line := Text.strip line in
  if decide (line = "") then full_invent
  else if starts_with_hash line then full_invent
  else match split_eq line with
       | Some (k, v) =>
           if decide (Text.strip k = "full_invent" ∧ Text.strip v = "1")
           then true else full_invent
       | None => full_invent
       end.

(** [load_config()["full_invent"]] *)
Definition load_config (file : option (list string)) : bool :=
  match file with
  | Some lines => foldl config_step false lines
  | None => false
  end.

(** [DATA_ROOT / ".full_invent_migrated"] *)
Definition marker : string := ".full_invent_migrated".

Definition _maybe_reset_for_full_invent (FULL_INVENT : bool)
    (root : Snapshot.data_root) : Snapshot.data_root :=
  if negb FULL_INVENT then root
  else match root with
       | Some entries =>
           if decide (is_Some (entries !! marker)) then root
           else if decide (entries ≠ ∅)
                then Some {[ marker := Snapshot.File ]}
                else Some (<[marker := Snapshot.File]> entries)
       | None => Some {[ marker := Snapshot.File ]}
       end.

End Bootstrap.

(** ** Deleting a row

    The three delete handlers share one body:
    [new = [r for r in rows if r["id"] != item_id]], then 404 when no row
    was dropped. *)

Definition delete_by_id {R} (t : Table R) (id_of : R -> string) (item_id : string)
  : M unit :=
  rows ← read_csv t;
  let new := filter (fun r => id_of r ≠ item_id) rows in
  if decide (length new = length rows) then raise 404
  else write_csv t new.

Definition delete_ready_product_api (item_id : string) : M unit :=
  delete_by_id ready_products_tbl rp_id item_id.

Definition delete_raw_item_api (item_id : string) : M unit :=
  delete_by_id raw_inventory_tbl raw_id item_id.

Definition delete_purchase_api (purchase_id : string) : M unit :=
  delete_by_id purchases_tbl pur_id purchase_id.

(** ** Raw items *)

Record RawItemIn := {
  rin_name : string; rin_category : string; rin_subcategory : string;
  rin_unit : string; rin_unit_cost : Q; rin_stock : Q; rin_threshold : Q
}.

Record RawItemUpdate := {
  ru_name : option string; ru_category : option string;
  ru_subcategory : option string; ru_unit : option string;
  ru_unit_cost : option Q; ru_stock : option Q; ru_threshold : option Q
}.

Definition add_raw_item_api (new_id : string) (item : RawItemIn) : M string :=
  if decide (rin_category item ∉ CATEGORIES) then raise 400 else
  _ ← _ensure_subcategory (rin_subcategory item);
  _ ← _ensure_unit (rin_unit item);
  let row :=
    {| raw_id := new_id; raw_name := Text.strip (rin_name item);
       raw_category := rin_category item; raw_subcategory := rin_subcategory item;
       raw_unit := rin_unit item; raw_unit_cost := Num.fmt2 (rin_unit_cost item);
       raw_stock := Num.fmt3 (rin_stock item);
       raw_threshold := Num.fmt3 (rin_threshold item) |} in
  _ ← append_row raw_inventory_tbl row;
  mret (raw_id row).

(** [for k, v in data.items(): r[k] = str(v)] *)
Definition apply_raw_patch (data : RawItemUpdate) (r : RawItem) : RawItem :=
  {| raw_id := raw_id r;
     raw_name := default (raw_name r) (ru_name data);
     raw_category := default (raw_category r) (ru_category data);
     raw_subcategory := default (raw_subcategory r) (ru_subcategory data);
     raw_unit := default (raw_unit r) (ru_unit data);
     raw_unit_cost := default (raw_unit_cost r) (ru_unit_cost data);
     raw_stock := default (raw_stock r) (ru_stock data);
     raw_threshold := default (raw_threshold r) (ru_threshold data) |}.

Definition update_raw_item_api (item_id : string) (patch : RawItemUpdate) : M unit :=
  rows ← read_csv raw_inventory_tbl;
  let data := patch in
  _ ← match ru_category data with
      | Some c => if decide (c ∉ CATEGORIES) then raise 400 else mret tt
      | None => mret tt
      end;
  _ ← match ru_subcategory data with
      | Some s => _ensure_subcategory s
      | None => mret tt
      end;
  _ ← match ru_unit data with
      | Some u => _ensure_unit u
      | None => mret tt
      end;
  match list_find (fun r => raw_id r = item_id) rows with
  | Some (i, r) => write_csv raw_inventory_tbl (<[i := apply_raw_patch data r]> rows)
  | None => raise 404
  end.

(** ** Listings and alerts *)

Definition list_branches : M (list Branch) := read_csv branches_tbl.

Definition list_sales : M (list Sale) := read_csv sales_tbl.




Definition peek_next_order : M Z := next_order_id true.

(** ** Open orders per table *)

(** [r.get("table_no") or "—"] *)
Definition table_key (r : Sale) : string := Text.or_else (sale_table_no r) "—".

Definition is_open_at (branch status : string) (r : Sale) : Prop :=
  sale_branch r = branch ∧ sale_payment_status r = status.

Global Instance is_open_at_dec branch status r : Decision (is_open_at branch status r).
Proof. unfold is_open_at. apply _. Defined.

(** One turn of the loop: [out[table_no] = out.get(table_no, 0) + 1]. *)
Definition summary_step (branch status : string) (out : gmap string nat) (r : Sale)
  : gmap string nat :=
  if decide (is_open_at branch status r)
  then <[table_key r := default 0 (out !! table_key r) + 1]> out
  else out.

Definition item_le (x y : string * nat) : Prop := String.le x.1 y.1.

Global Instance item_le_dec : RelDecision item_le.
Proof. intros x y. unfold item_le. apply _. Defined.

(** The rows of the answer, [(table_no, open_orders)], in the order of
    [sorted(out.items())]. *)
Definition branch_table_summary (branch status : string) : M (list (string * nat)) :=
  rows ← read_csv sales_tbl;
  let out := foldl (summary_step branch status) ∅ rows in
  mret (merge_sort item_le (map_to_list out)).

(** ** Tables as CSV records

    [read_csv] and [write_csv] on the records of a file: a file is the list
    of its records, as [csv.reader] yields them and [csv.writer] writes
    them, the header first.  A row is the [dict] a [DictReader] yields: a
    cell is [None] where the record was too short ([restval]); the extra
    cells of a record that is too long, which the reader keeps under the key
    [None], are left out, no handler reading that key. *)

Module Csv.

Abbreviation row := (gmap string (option string)).

(** [dict(zip(fieldnames, record))], then [restval] for the names the
    record does not reach; a name that occurs twice keeps its last cell. *)
Fixpoint dict_of (fieldnames record : list string) (d : row) : row :=
  match fieldnames, record with
  | [], _ => d
  | k :: ks, v :: vs => dict_of ks vs (<[k := Some v]> d)
  | k :: ks, [] => dict_of ks [] (<[k := None]> d)
  end.

(** [csv.DictReader]: the first record names the fields, and a blank
    record after it is skipped. *)
Definition read_records (f : list (list string)) : list row :=
  match f with
  | [] => []
  | fieldnames :: records =>
      (fun record => dict_of fieldnames record ∅)
        <$> filter (fun record => record ≠ []) records
  end.

(** The cell written for a column: [row.get(k, "")], where the writer turns
    [None] into the empty string. *)
Definition cell (r : row) (k : string) : string :=
  match r !! k with
  | Some (Some v) => v
  | Some None => ""
  | None => ""
  end.

(** [csv.DictWriter(fp, fieldnames=headers)]: [writeheader], then one
    record per row. *)
Definition write_records (headers : list string) (rows : list row)
  : list (list string) :=
  headers :: ((fun r => cell r <$> headers) <$> rows).

(** [HEADERS[name]] *)
Definition headers_of (name : string) : option (list string) :=
  (fun hit : nat * (string * list string) => hit.2.2)
    <$> list_find (fun kh => kh.1 = name) HEADERS.

End Csv.

(** ** Importing a table

    [import_csv] on [DATA_ROOT].  The handler looks at the upload twice, and
    the two readings need not agree: it checks the header that [csv.reader]
    finds in the decoded text cut by [splitlines], and it stores the bytes
    as they came, which [read_csv] reads later.  An upload is given by both
    readings: [up_header] is [[h.strip() for h in header]] for the first
    record the reader yields ([[]] when it yields none), [None] when the
    decoding or the reader raises; [up_records] is the list of records of a
    file that holds the uploaded bytes. *)

Record Upload := {
  up_header : option (list string);
  up_records : list (list string)
}.

(** [Failed] is the failure of [get_today_dir]; [Crashed] an exception
    raised once today's snapshot is resolved, which is no [HTTPException]. *)
Inductive import_outcome :=
| Saved (root : gmap string Snapshot.entry)
| Refused (status_code : Z) (root : Snapshot.data_root)
| Crashed (root : gmap string Snapshot.entry)
| Failed.

Definition import_csv (today kind : string) (upload : Upload)
    (root : Snapshot.data_root) : import_outcome :=
  match Csv.headers_of kind with
  | None => Refused 400 root
  | Some headers =>
      match Snapshot.get_today_dir today root with
      | None => Failed
      | Some root1 =>
          match up_header upload with
          | None => Crashed root1
          | Some header =>
              if decide (header ≠ headers) then Refused 400 (Some root1)
              else match root1 !! today with
                   | Some (Snapshot.Dir d) =>
                       Saved (<[today := Snapshot.Dir
                                  (<[Snapshot.csv_name kind := up_records upload]> d)]>
                                root1)
                   | _ => Failed
                   end
          end
      end
  end.

(** ** Branch rows as read

    [add_branch] on the rows [read_csv] returns, the [dict]s of [Csv.row].
    A record that was imported too short lacks cells, and
    [r["name"].strip()] raises on such a row when the loop reaches it; so
    does [r["id"]] on a row without that key.  [None] stands for that
    exception, which is no [HTTPException]; nothing has been written when it
    is raised.  The table after an append is what [read_csv] returns once
    [write_csv] has rewritten the file. *)

Module RawRows.

(** The loop of [add_branch]: the first row of that name, [Some None] when
    the loop ends without one, [None] when it raises. *)
Fixpoint find_branch (b : BranchIn) (rows : list Csv.row) : option (option Csv.row) :=
  match rows with
  | [] => Some None
  | r :: rows' =>
      match r !! "name" with
      | Some (Some name) =>
          if decide (Text.lower (Text.strip name) = Text.lower (Text.strip (bi_name b)))
          then Some (Some r)
          else find_branch b rows'
      | _ => None
      end
  end.

Definition add_branch (new_id : string) (b : BranchIn) (rows : list Csv.row)
  : option (option string * list Csv.row) :=
  match find_branch b rows with
  | None => None
  | Some (Some r) =>
      match r !! "id" with
      | Some id => Some (id, rows)
      | None => None
      end
  | Some None =>
      let row : Csv.row :=
        {[ "id" := Some new_id; "name" := Some (Text.strip (bi_name b));
           "is_active" := Some (if bi_is_active b then "1" else "0") ]} in
      Some (Some new_id,
            Csv.read_records
              (Csv.write_records ["id"; "name"; "is_active"] (rows ++ [row])%list))
  end.

(** A branches file with a record that stops after its id, and the same
    file without that record. *)
Definition ragged_branches : list (list string) :=
  [["id"; "name"; "is_active"]; ["b0"]; ["b1"; "Main Hall"; "1"]].

Definition tidy_branches : list (list string) :=
  [["id"; "name"; "is_active"]; ["b1"; "Main Hall"; "1"]].

End RawRows.

(** ** The spend report

    A date is the number of its day.  Two library functions are given:
    [parse_date], which reads a date or fails with [ValueError] ([None]),
    and the first day of the month of a date ([today.replace(day=1)]). *)

Section Reports.
Variable parse_date : string -> option Z.
Variable first_of_month : Z -> Z.

(** The truth value of an optional string. *)
Definition given (x : option string) : Prop :=
  match x with
  | Some s => s ≠ ""
  | None => False
  end.

Global Instance given_dec x : Decision (given x).
Proof. destruct x; apply _. Defined.

(** [end_] stands for the parameter [end]; [None] for the [ValueError] of a
    bound that does not parse. *)
Definition _date_range (today : Z) (period : string) (start end_ : option string)
  : option (Z * Z) :=
  if decide (period = "today") then Some (today, today)
  else if decide (period = "week") then Some (today - 6, today)%Z
  else if decide (period = "month") then Some (first_of_month today, today)
  else if decide (period = "last30") then Some (today - 29, today)%Z
  else if decide (period = "last90") then Some (today - 89, today)%Z
  else if decide (period = "last180") then Some (today - 179, today)%Z
  else if decide (period = "daterange" ∧ given start ∧ given end_) then
    match parse_date (default "" start), parse_date (default "" end_) with
    | Some s, Some e => Some (s, e)
    | _, _ => None
    end
  else Some (today - 29, today)%Z.





(** The rows the loop does not skip: the date reads as a day of the
    period, bounds included, and the category and the item asked for, when
    asked for, are those of the row. *)
Definition spend_selects (s e : Z) (category item : option string) (r : Purchase)
  : Prop :=
  (∃ d, parse_date (pur_date r) = Some d ∧ (s <= d <= e)%Z)
  ∧ (given category → pur_category r = default "" category)
  ∧ (given item →
     Text.lower (Text.strip (pur_item r)) = Text.lower (Text.strip (default "" item))).

Global Instance spend_selects_dec s e category item r :
  Decision (spend_selects s e category item r).
Proof.
  unfold spend_selects. destruct (parse_date (pur_date r)) as [d|].
  - destruct (decide ((s <= d <= e)%Z
                      ∧ (given category → pur_category r = default "" category)
                      ∧ (given item →
                         Text.lower (Text.strip (pur_item r))
                         = Text.lower (Text.strip (default "" item))))) as [H|H].
    + left. destruct H as (? & ? & ?). split_and!; [by exists d|done..].
    + right. intros ((d' & [= <-] & ?) & ? & ?). by apply H.
  - right. by intros ((d & ? & _) & _).
Defined.


End Reports.

(** Patches that change one number and leave every other field out. *)
Definition quantity_patch (q : Q) : ReadyProductUpdate :=
  {| rpu_name := None; rpu_category := None; rpu_unit := None;
     rpu_unit_cost := None; rpu_price := None; rpu_quantity := Some q;
     rpu_threshold := None; rpu_item_category := None; rpu_code := None |}.

Definition stock_patch (q : Q) : RawItemUpdate :=
  {| ru_name := None; ru_category := None; ru_subcategory := None;
     ru_unit := None; ru_unit_cost := None; ru_stock := Some q;
     ru_threshold := None |}.

(** ** The sales report *)

Section SalesReport.
Variable parse_date : string -> option Z.
Variable first_of_month : Z -> Z.

(** The running values of the loop of [sales_report]. *)
Record sales_acc := {
  sacc_total : Q;
  sacc_by_cat : gmap string Q;
  sacc_by_item : gmap string Q;
  sacc_by_branch : gmap string Q;
  sacc_filtered : list Sale
}.

Definition sales_step (s e : Z) (category item branch payment_status : option string)
    (acc : sales_acc) (r : Sale) : sales_acc :=
  match parse_date (sale_date r) with
  | None => acc
  | Some d =>
      if decide (d < s ∨ d > e)%Z then acc
      else if decide (given category ∧ sale_category r ≠ default "" category) then acc
      else if decide (given item
                      ∧ Text.lower (Text.strip (sale_item r))
                        ≠ Text.lower (Text.strip (default "" item))) then acc
      else if decide (given branch ∧ sale_branch r ≠ default "" branch) then acc
      else if decide (given payment_status
                      ∧ sale_payment_status r ≠ default "" payment_status) then acc
      else
        let amt := sale_total_price r in
        {| sacc_total := sacc_total acc + amt;
           sacc_by_cat :=
             <[sale_category r := (default 0 (sacc_by_cat acc !! sale_category r) + amt)%Q]>
               (sacc_by_cat acc);
           sacc_by_item :=
             <[sale_item r := (default 0 (sacc_by_item acc !! sale_item r) + amt)%Q]>
               (sacc_by_item acc);
           sacc_by_branch :=
             <[sale_branch r := (default 0 (sacc_by_branch acc !! sale_branch r) + amt)%Q]>
               (sacc_by_branch acc);
           sacc_filtered := (sacc_filtered acc ++ [r])%list |}
  end.

Record SalesReport := {
  sr_period_start : Z; sr_period_end : Z;
  total_sales : Q;
  sr_by_category : gmap string Q;
  sr_by_item : gmap string Q;
  sr_by_branch : gmap string Q;
  sales_rows : list Sale
}.

Definition sales_report (today : Z) (period : string)
    (category item branch payment_status start end_ : option string) (st : Store)
  : option SalesReport :=
  match _date_range parse_date first_of_month today period start end_ with
  | None => None
  | Some (s, e) =>
      let rows := sales st in
      let acc :=
        foldl (sales_step s e category item branch payment_status)
          {| sacc_total := 0; sacc_by_cat := ∅; sacc_by_item := ∅;
             sacc_by_branch := ∅; sacc_filtered := [] |}
          rows in
      Some {| sr_period_start := s; sr_period_end := e;
              total_sales := Num.fmt2 (sacc_total acc);
              sr_by_category := Num.fmt2 <$> sacc_by_cat acc;
              sr_by_item := Num.fmt2 <$> sacc_by_item acc;
              sr_by_branch := Num.fmt2 <$> sacc_by_branch acc;
              sales_rows := sacc_filtered acc |}
  end.

(** The rows the loop does not skip. *)
Definition sales_selects (s e : Z) (category item branch payment_status : option string)
    (r : Sale) : Prop :=
  (∃ d, parse_date (sale_date r) = Some d ∧ (s <= d <= e)%Z)
  ∧ (given category → sale_category r = default "" category)
  ∧ (given item →
     Text.lower (Text.strip (sale_item r)) = Text.lower (Text.strip (default "" item)))
  ∧ (given branch → sale_branch r = default "" branch)
  ∧ (given payment_status → sale_payment_status r = default "" payment_status).

Global Instance sales_selects_dec s e category item branch payment_status r :
  Decision (sales_selects s e category item branch payment_status r).
Proof.
  unfold sales_selects. destruct (parse_date (sale_date r)) as [d|].
  - destruct (decide ((s <= d <= e)%Z
                      ∧ (given category → sale_category r = default "" category)
                      ∧ (given item →
                         Text.lower (Text.strip (sale_item r))
                         = Text.lower (Text.strip (default "" item)))
                      ∧ (given branch → sale_branch r = default "" branch)
                      ∧ (given payment_status →
                         sale_payment_status r = default "" payment_status)))
      as [H|H].
    + left. destruct H as (? & ? & ? & ? & ?). split_and!; [by exists d|done..].
    + right. intros ((d' & [= <-] & ?) & ? & ? & ? & ?). by apply H.
  - right. by intros ((d & ? & _) & _).
Defined.

(** The sum the loop keeps: [total += amt], from [a]. *)
Definition running_amount (a : Q) (rows : list Sale) : Q :=
  foldl (fun a r => (a + sale_total_price r)%Q) a rows.

End SalesReport.

(** ** Text the model of [str] covers

    The tables and requests whose names and codes are ASCII text. *)

Definition ascii_codes (rows : list ReadyProduct) : Prop :=
  Forall (fun r => Text.is_ascii (rp_code r) = true) rows.

Definition ascii_names (rows : list ReadyProduct) : Prop :=
  Forall (fun r => Text.is_ascii (rp_name r) = true) rows.

(** A row that has the name (trimmed, ignoring case) and the category of a
    product request. *)
Definition same_product (item : ReadyProductIn) (r : ReadyProduct) : Prop :=
  Text.lower (Text.strip (rp_name r)) = Text.lower (Text.strip (rpi_name item))
  ∧ rp_category r = rpi_category item.

Global Instance same_product_dec item r : Decision (same_product item r).
Proof. unfold same_product. apply _. Defined.

Definition ascii_branch_names (rows : list Branch) : Prop :=
  Forall (fun r => Text.is_ascii (branch_name r) = true) rows.

(** The records of a table file of a snapshot after an import. *)
Definition imported_file (today kind : string) (o : import_outcome)
  : option (list (list string)) :=
  match o with
  | Saved root =>
      match root !! today with
      | Some (Snapshot.Dir d) => d !! Snapshot.csv_name kind
      | _ => None
      end
  | _ => None
  end.

(** ** The stock transactions in double precision

    The purchase, the sale and the stock adjustment once more, on the
    numbers Python computes with.  A [float] is a finite double, given by
    its exact value, an infinity or NaN; the two zeros are not told apart.
    A numeric cell of a row is the double that [float] reads from its text,
    so [f"{x:.3f}"] stores what the three-decimal text of [x] reads back
    as.  The branches table, which these handlers do not touch, is left
    out of the store. *)

Module Double.

Inductive float :=
| Fin (q : Q)
| Inf (negative : bool)
| NaN.

Definition pow2 (e : Z) : Q := (2 ^ e)%Q.

(** The integer part of the binary logarithm of [|q|], for [q] other than
    zero. *)
Definition ilog2 (q : Q) : Z :=
  let k := (Z.log2 (Z.abs (Qnum q)) - Z.log2 (Z.pos (Qden q)))%Z in
  if Num.Qltb (Qabs q) (pow2 k) then (k - 1)%Z else k.

(** The double nearest to a rational, ties to the even significand: 53
    bits, exponents from -1074, and an infinity from [2^1024 - 2^970] on.
    It is what an arithmetic operation does with its exact result, and what
    [float] does with the decimal text of a cell. *)
Definition round (q : Q) : float :=
  if Qeq_bool q 0 then Fin 0 else
  let e := Z.max (ilog2 q - 52) (-1074) in
  let r := Qred (inject_Z (Num.round_half_even (q / pow2 e)) * pow2 e) in
  if Qle_bool (pow2 1024) (Qabs r) then Inf (Num.Qltb r 0) else Fin r.

Definition add (x y : float) : float :=
  match x, y with
  | NaN, _ | _, NaN => NaN
  | Fin p, Fin q => round (p + q)
  | Fin _, Inf b => Inf b
  | Inf a, Fin _ => Inf a
  | Inf a, Inf b => if Bool.eqb a b then Inf a else NaN
  end.

Definition opp (x : float) : float :=
  match x with
  | Fin q => Fin (- q)
  | Inf a => Inf (negb a)
  | NaN => NaN
  end.

Definition sub (x y : float) : float := add x (opp y).

Definition mul (x y : float) : float :=
  match x, y with
  | NaN, _ | _, NaN => NaN
  | Fin p, Fin q => round (p * q)
  | Fin p, Inf b => if Qeq_bool p 0 then NaN else Inf (xorb (Num.Qltb p 0) b)
  | Inf a, Fin q => if Qeq_bool q 0 then NaN else Inf (xorb a (Num.Qltb q 0))
  | Inf a, Inf b => Inf (xorb a b)
  end.

(** [x / d] for a divisor that is a positive double. *)
Definition div (x : float) (d : Q) : float :=
  match x with
  | Fin p => round (p / d)
  | Inf a => Inf a
  | NaN => NaN
  end.

(** [x < y] and [x <= y]: false as soon as one side is NaN. *)
Definition lt (x y : float) : bool :=
  match x, y with
  | NaN, _ | _, NaN => false
  | Fin p, Fin q => Num.Qltb p q
  | Fin _, Inf b => negb b
  | Inf a, Fin _ => a
  | Inf a, Inf b => a && negb b
  end.

Definition le (x y : float) : bool :=
  match x, y with
  | NaN, _ | _, NaN => false
  | Fin p, Fin q => Qle_bool p q
  | Fin _, Inf b => negb b
  | Inf a, Fin _ => a
  | Inf a, Inf b => a || negb b
  end.

(** [max(0.0, x)] *)
Definition max0 (x : float) : float := if lt (Fin 0) x then x else Fin 0.

(** [float(f"{x:.2f}")] and [float(f"{x:.3f}")]: the text has the digits of
    the exact value of [x] rounded half to even, or is [inf], [-inf] or
    [nan]. *)
Definition cell (digits : Q -> Q) (x : float) : float :=
  match x with
  | Fin q => round (digits q)
  | Inf a => Inf a
  | NaN => NaN
  end.

Definition cell2 : float -> float := cell Num.fmt2.
Definition cell3 : float -> float := cell Num.fmt3.

(** The double written in a request or in the source as a decimal. *)
Definition literal (q : Q) : float := round q.

(** *** Rows, store and handler monad *)

Record ReadyProduct := {
  rp_id : string; rp_name : string; rp_category : string;
  rp_item_category : string; rp_code : string; rp_unit : string;
  rp_unit_cost : float; rp_price : float; rp_quantity : float; rp_threshold : float
}.

Record RawItem := {
  raw_id : string; raw_name : string; raw_category : string;
  raw_subcategory : string; raw_unit : string;
  raw_unit_cost : float; raw_stock : float; raw_threshold : float
}.

Record Purchase := {
  pur_id : string; pur_date : string; pur_category : string;
  pur_subcategory : string; pur_item : string; pur_unit : string;
  pur_qty : float; pur_unit_cost : float; pur_total_cost : float; pur_notes : string
}.

Record Sale := {
  sale_id : string; sale_date : string; sale_category : string;
  sale_branch : string; sale_order_id : string; sale_item : string;
  sale_unit : string; sale_qty : float; sale_unit_price : float;
  sale_discount : float; sale_total_price : float; sale_customer_name : string;
  sale_customer_phone : string; sale_table_no : string;
  sale_payment_status : string; sale_payment_mode : string;
  sale_payment_note : string; sale_notes : string
}.

Record Store := {
  ready_products : list ReadyProduct;
  raw_inventory : list RawItem;
  purchases : list Purchase;
  sales : list Sale;
  order_seq : option Z
}.

Definition empty_store : Store :=
  {| ready_products := []; raw_inventory := []; purchases := []; sales := [];
     order_seq := None |}.

Record Table (R : Type) := {
  tbl_rows : Store -> list R;
  tbl_put : list R -> Store -> Store
}.
Arguments tbl_rows {R} _ _.
Arguments tbl_put {R} _ _ _.

Definition ready_products_tbl : Table ReadyProduct :=
  {| tbl_rows := ready_products;
     tbl_put rows st :=
       {| ready_products := rows; raw_inventory := raw_inventory st;
          purchases := purchases st; sales := sales st; order_seq := order_seq st |} |}.

Definition raw_inventory_tbl : Table RawItem :=
  {| tbl_rows := raw_inventory;
     tbl_put rows st :=
       {| ready_products := ready_products st; raw_inventory := rows;
          purchases := purchases st; sales := sales st; order_seq := order_seq st |} |}.

Definition purchases_tbl : Table Purchase :=
  {| tbl_rows := purchases;
     tbl_put rows st :=
       {| ready_products := ready_products st; raw_inventory := raw_inventory st;
          purchases := rows; sales := sales st; order_seq := order_seq st |} |}.

Definition sales_tbl : Table Sale :=
  {| tbl_rows := sales;
     tbl_put rows st :=
       {| ready_products := ready_products st; raw_inventory := raw_inventory st;
          purchases := purchases st; sales := rows; order_seq := order_seq st |} |}.

Definition put_order_seq (v : option Z) (st : Store) : Store :=
  {| ready_products := ready_products st; raw_inventory := raw_inventory st;
     purchases := purchases st; sales := sales st; order_seq := v |}.

Definition M (A : Type) : Type := Store -> result A * Store.

Global Instance M_ret : MRet M := fun A a st => (Ok a, st).

Global Instance M_bind : MBind M := fun A B f m st =>
  match m st with
  | (Ok a, st') => f a st'
  | (HTTPException c, st') => (HTTPException c, st')
  | (OutOfFuel, st') => (OutOfFuel, st')
  end.

Definition raise {A} (status_code : Z) : M A := fun st => (HTTPException status_code, st).

Definition read_csv {R} (t : Table R) : M (list R) := fun st => (Ok (tbl_rows t st), st).
Definition write_csv {R} (t : Table R) (rows : list R) : M unit :=
  fun st => (Ok tt, tbl_put t rows st).
Definition append_row {R} (t : Table R) (row : R) : M unit :=
  rows ← read_csv t; write_csv t (rows ++ [row])%list.

Definition _ensure_unit (u : string) : M unit :=
  if decide (u ∈ UNITS) then mret tt else raise 400.

Definition _ensure_subcategory (s : string) : M unit :=
  if decide (s ∈ SUBCATEGORIES) then mret tt else raise 400.

(** *** Unit conversion *)

Definition convert_qty (qty : float) (from_unit to_unit : string) : option float :=
  if decide (from_unit = to_unit) then Some qty
  else if decide (from_unit = "KG" ∧ to_unit = "GM") then Some (mul qty (Fin 1000))
  else if decide (from_unit = "GM" ∧ to_unit = "KG") then Some (div qty 1000)
  else None.

(** *** Order sequence *)

Definition scan_step (m : Z) (r : Sale) : Z :=
  match Num.int_of_str (Text.or_else (sale_order_id r) "0") with
  | Some n => Z.max m n
  | None => m
  end.

Definition _scan_max_order_id : M Z :=
  rows ← read_csv sales_tbl;
  mret (foldl scan_step 0%Z rows).

Definition read_order_seq : M (option Z) := fun st => (Ok (order_seq st), st).
Definition write_order_seq (n : Z) : M unit :=
  fun st => (Ok tt, put_order_seq (Some n) st).

Definition next_order_id (peek : bool) : M Z :=
  file ← read_order_seq;
  _ ← match file with
      | None => m ← _scan_max_order_id; write_order_seq m
      | Some _ => mret tt
      end;
  file ← read_order_seq;
  let current := default 0%Z file in
  let nxt := (current + 1)%Z in
  _ ← (if peek then mret tt else write_order_seq nxt);
  mret nxt.

(** *** Stock adjustment *)

Definition with_quantity (q : float) (r : ReadyProduct) : ReadyProduct :=
  {| rp_id := rp_id r; rp_name := rp_name r; rp_category := rp_category r;
     rp_item_category := rp_item_category r; rp_code := rp_code r;
     rp_unit := rp_unit r; rp_unit_cost := rp_unit_cost r; rp_price := rp_price r;
     rp_quantity := q; rp_threshold := rp_threshold r |}.

Definition adjust_ready_stock_api (item_id : string) (delta : float) : M float :=
  rows ← read_csv ready_products_tbl;
  match list_find (fun r => rp_id r = item_id) rows with
  | Some (i, r) =>
      let q := add (rp_quantity r) delta in
      if lt q (Fin 0) then raise 400
      else _ ← write_csv ready_products_tbl (<[i := with_quantity (cell3 q) r]> rows);
           mret q
  | None => raise 404
  end.

(** *** Purchases *)

Record PurchaseIn := {
  pin_date : option string; pin_category : string; pin_subcategory : string;
  pin_item : string; pin_unit : string; pin_qty : float; pin_unit_cost : float;
  pin_notes : option string
}.

Record PurchaseResp := {
  resp_id : string; resp_new_stock : float; resp_unit : string
}.

Definition with_stock_and_cost (stock unit_cost : float) (r : RawItem) : RawItem :=
  {| raw_id := raw_id r; raw_name := raw_name r; raw_category := raw_category r;
     raw_subcategory := raw_subcategory r; raw_unit := raw_unit r;
     raw_unit_cost := unit_cost; raw_stock := stock;
     raw_threshold := raw_threshold r |}.

Definition purchase_match (p : PurchaseIn) (r : RawItem) : Prop :=
  Text.lower (Text.strip (raw_name r)) = Text.lower (Text.strip (pin_item p))
  ∧ raw_category r = pin_category p
  ∧ raw_subcategory r = pin_subcategory p.

Global Instance purchase_match_dec p r : Decision (purchase_match p r).
Proof. unfold purchase_match. apply _. Defined.

(** The row created for an item bought for the first time. *)
Definition new_raw_item (item_id : string) (p : PurchaseIn) : RawItem :=
  {| raw_id := item_id; raw_name := Text.strip (pin_item p);
     raw_category := pin_category p; raw_subcategory := pin_subcategory p;
     raw_unit := pin_unit p; raw_unit_cost := cell2 (pin_unit_cost p);
     raw_stock := Fin 0; raw_threshold := Fin 0 |}.

(** [add_qty]: the quantity in the unit of the target row; [None] for the
    [ValueError] of [convert_qty]. *)
Definition converted_qty (p : PurchaseIn) (target : RawItem) : option float :=
  if decide (raw_unit target ≠ pin_unit p)
  then convert_qty (pin_qty p) (pin_unit p) (raw_unit target)
  else Some (pin_qty p).

(** The ledger row of a purchase. *)
Definition purchase_row (d purchase_id : string) (p : PurchaseIn) : Purchase :=
  let total := mul (pin_qty p) (pin_unit_cost p) in
  {| pur_id := purchase_id; pur_date := d; pur_category := pin_category p;
     pur_subcategory := pin_subcategory p; pur_item := Text.strip (pin_item p);
     pur_unit := pin_unit p; pur_qty := cell3 (pin_qty p);
     pur_unit_cost := cell2 (pin_unit_cost p);
     pur_total_cost := cell2 total;
     pur_notes := opt_or (pin_notes p) "" |}.

(** The target of a purchase: the first matching row and its index, or a
    new row appended to the table. *)
Definition purchase_target (item_id : string) (p : PurchaseIn) (inv : list RawItem)
  : nat * RawItem * list RawItem :=
  match list_find (purchase_match p) inv with
  | Some (i, r) => (i, r, inv)
  | None => (length inv, new_raw_item item_id p, (inv ++ [new_raw_item item_id p])%list)
  end.

Definition add_purchase_api (today item_id purchase_id : string) (p : PurchaseIn)
  : M PurchaseResp :=
  if decide (pin_category p ∉ CATEGORIES) then raise 400 else
  _ ← _ensure_subcategory (pin_subcategory p);
  _ ← _ensure_unit (pin_unit p);
  let d := opt_or (pin_date p) today in
  inv ← read_csv raw_inventory_tbl;
  let '(i, target, inv) := purchase_target item_id p inv in
  match converted_qty p target with
  | None => raise 400
  | Some add_qty =>
      let stock := add (raw_stock target) add_qty in
      _ ← write_csv raw_inventory_tbl
            (<[i := with_stock_and_cost (cell3 stock) (cell2 (pin_unit_cost p)) target]> inv);
      let prow := purchase_row d purchase_id p in
      _ ← append_row purchases_tbl prow;
      mret {| resp_id := pur_id prow; resp_new_stock := stock;
              resp_unit := raw_unit target |}
  end.

(** *** Sales *)

Record SaleIn := {
  sin_date : option string; sin_category : string; sin_branch : option string;
  sin_order_id : option Z; sin_item : string; sin_unit : string; sin_qty : float;
  sin_unit_price : option float; sin_discount : float;
  sin_customer_name : option string; sin_customer_phone : option string;
  sin_table_no : option string; sin_payment_status : string;
  sin_payment_mode : option string; sin_payment_note : option string;
  sin_notes : option string
}.

Record SaleResp := {
  sresp_id : string; sresp_order_id : Z; sresp_remaining_stock : float
}.

Definition sale_match (s : SaleIn) (r : ReadyProduct) : Prop :=
  Text.lower (Text.strip (rp_name r)) = Text.lower (Text.strip (sin_item s))
  ∧ rp_category r = sin_category s.

Global Instance sale_match_dec s r : Decision (sale_match s r).
Proof. unfold sale_match. apply _. Defined.

Definition add_sale_api (today new_id : string) (s : SaleIn) : M SaleResp :=
  if decide (sin_category s ∉ CATEGORIES) then raise 400 else
  ready ← read_csv ready_products_tbl;
  match list_find (sale_match s) ready with
  | None => raise 400
  | Some (i, target) =>
      let prod_unit := rp_unit target in
      if decide (sin_unit s ≠ prod_unit) then raise 400 else
      let price := default (rp_price target) (sin_unit_price s) in
      let qty := sin_qty s in
      let discount := if lt (sin_discount s) (Fin 0) then Fin 0 else sin_discount s in
      let d := opt_or (sin_date s) today in
      let current := rp_quantity target in
      if lt current qty then raise 400 else
      let target := with_quantity (cell3 (sub current qty)) target in
      _ ← write_csv ready_products_tbl (<[i := target]> ready);
      oid ← match sin_order_id s with
            | Some oid => mret oid
            | None => next_order_id false
            end;
      let subtotal := mul qty price in
      let total := max0 (sub subtotal discount) in
      let row :=
        {| sale_id := new_id; sale_date := d; sale_category := sin_category s;
           sale_branch := opt_or (sin_branch s) "";
           sale_order_id := Num.str_of_Z oid; sale_item := rp_name target;
           sale_unit := sin_unit s; sale_qty := cell3 qty;
           sale_unit_price := cell2 price; sale_discount := cell2 discount;
           sale_total_price := cell2 total;
           sale_customer_name := opt_or (sin_customer_name s) "";
           sale_customer_phone := opt_or (sin_customer_phone s) "";
           sale_table_no := opt_or (sin_table_no s) "";
           sale_payment_status := Text.or_else (sin_payment_status s) "Live";
           sale_payment_mode := opt_or (sin_payment_mode s) "";
           sale_payment_note := opt_or (sin_payment_note s) "";
           sale_notes := opt_or (sin_notes s) "" |} in
      _ ← append_row sales_tbl row;
      mret {| sresp_id := sale_id row; sresp_order_id := oid;
              sresp_remaining_stock := rp_quantity target |}
  end.

(** *** A small shop, in doubles *)

Definition burger : ReadyProduct :=
  {| rp_id := "p1"; rp_name := "Burger"; rp_category := "Home Delivery";
     rp_item_category := "Snacks"; rp_code := "1SB"; rp_unit := "Pieces";
     rp_unit_cost := Fin 60; rp_price := Fin 100; rp_quantity := Fin 20;
     rp_threshold := Fin 5 |}.

Definition rice : ReadyProduct :=
  {| rp_id := "p2"; rp_name := "Fried rice"; rp_category := "Home Delivery";
     rp_item_category := "Mains"; rp_code := "1MF"; rp_unit := "KG";
     rp_unit_cost := Fin 80; rp_price := Fin 150; rp_quantity := Fin 1;
     rp_threshold := Fin 0 |}.

Definition saffron : ReadyProduct :=
  {| rp_id := "p3"; rp_name := "Saffron"; rp_category := "Home Delivery";
     rp_item_category := "Spices"; rp_code := "1SS"; rp_unit := "KG";
     rp_unit_cost := Fin 0; rp_price := Fin 0; rp_quantity := literal (1 # 1000);
     rp_threshold := Fin 0 |}.

Definition shop : Store :=
  {| ready_products := [burger; rice; saffron]; raw_inventory := []; purchases := [];
     sales := []; order_seq := None |}.

Definition sale_of (item unit : string) (qty : float) : SaleIn :=
  {| sin_date := None; sin_category := "Home Delivery"; sin_branch := None;
     sin_order_id := None; sin_item := item; sin_unit := unit; sin_qty := qty;
     sin_unit_price := None; sin_discount := Fin 0; sin_customer_name := None;
     sin_customer_phone := None; sin_table_no := None;
     sin_payment_status := "Live"; sin_payment_mode := None;
     sin_payment_note := None; sin_notes := None |}.

Definition purchase_of (item unit : string) (qty unit_cost : float) : PurchaseIn :=
  {| pin_date := None; pin_category := "Frozen Products";
     pin_subcategory := "Meat and Fish"; pin_item := item; pin_unit := unit;
     pin_qty := qty; pin_unit_cost := unit_cost; pin_notes := None |}.

Definition chicken : RawItem :=
  {| raw_id := "r1"; raw_name := "Chicken"; raw_category := "Frozen Products";
     raw_subcategory := "Meat and Fish"; raw_unit := "KG";
     raw_unit_cost := Fin 200; raw_stock := Fin 10; raw_threshold := Fin 0 |}.

Definition freezer : Store :=
  {| ready_products := []; raw_inventory := [chicken]; purchases := [];
     sales := []; order_seq := None |}.

End Double.

(** * Properties *)

(** ** Text *)

Module TextFacts.
Import Text.

Lemma lstrip_head s :
  lstrip s = "" ∨ ∃ c t, lstrip s = String c t ∧ is_space c = false.
Proof.
  induction s as [|c s IH]; simpl; [by left|].
  destruct (is_space c) eqn:Hc; [exact IH|].
  right. by exists c, s.
Qed.

Lemma rstrip_keeps_head c t :
  is_space c = false → ∃ t', rstrip (String c t) = String c t'.
Proof.
  intros Hc. simpl. destruct (rstrip t); rewrite ?Hc; eauto.
Qed.

Lemma rstrip_idemp s : rstrip (rstrip s) = rstrip s.
Proof.
  induction s as [|c s IH]; [done|].
  cbn [rstrip]. destruct (rstrip s) as [|a t] eqn:E.
  - destruct (is_space c) eqn:Hc; [done|]. cbn. by rewrite Hc.
  - cbn [rstrip] in *. by rewrite IH.
Qed.

Lemma strip_idemp s : strip (strip s) = strip s.
Proof.
  unfold strip. destruct (lstrip_head s) as [->|(c & t & -> & Hc)]; [done|].
  destruct (rstrip_keeps_head c t Hc) as [t' E]. rewrite E.
  cbn [lstrip]. rewrite Hc, <- E. apply rstrip_idemp.
Qed.

Lemma upper_char_alpha c : is_alpha (upper_char c) = true → is_upper (upper_char c) = true.
Proof. by destruct c as [[] [] [] [] [] [] [] []]. Qed.

End TextFacts.

(** ** Numbers *)

Module NumFacts.
Import Num.

Lemma Qltb_true x y : Qltb x y = true ↔ (x < y)%Q.
Proof.
  unfold Qltb. rewrite negb_true_iff. split.
  - intros H. apply Qnot_le_lt. intros Hle. apply Qle_bool_iff in Hle. congruence.
  - intros H. destruct (Qle_bool y x) eqn:E; [|done].
    apply Qle_bool_iff in E. exfalso. by apply (Qlt_not_le x y).
Qed.

Lemma Qltb_false x y : Qltb x y = false ↔ (y <= x)%Q.
Proof.
  unfold Qltb. rewrite negb_false_iff. apply Qle_bool_iff.
Qed.

Global Instance round_half_even_proper : Proper (Qeq ==> eq) round_half_even.
Proof.
  intros x y E. unfold round_half_even.
  rewrite (Qfloor_comp x y E).
  assert (Hc : ((x - inject_Z (Qfloor y)) ?= (1 # 2))%Q
               = ((y - inject_Z (Qfloor y)) ?= (1 # 2))%Q).
  { apply Qcompare_comp; [by rewrite E | reflexivity]. }
  by rewrite Hc.
Qed.

Lemma round_half_even_Z z : round_half_even (inject_Z z) = z.
Proof.
  unfold round_half_even. rewrite Qfloor_Z.
  assert (E : ((inject_Z z - inject_Z z) ?= (1 # 2))%Q = Lt).
  { apply (proj1 (Qlt_alt _ _)). unfold Qlt, Qminus, Qplus, Qopp, inject_Z. simpl. lia. }
  by rewrite E.
Qed.

Lemma round_half_even_nonneg x : (0 <= x)%Q → (0 <= round_half_even x)%Z.
Proof.
  intros Hx. assert (H0 : (0 <= Qfloor x)%Z).
  { change 0%Z with (Qfloor 0). by apply Qfloor_resp_le. }
  unfold round_half_even.
  destruct (Qcompare _ _); [destruct (Z.even _)|..]; lia.
Qed.

Lemma Qmake_nonneg z p : (0 <= z)%Z → (0 <= z # p)%Q.
Proof. intros H. unfold Qle. simpl. lia. Qed.

Lemma fmt3_nonneg x : (0 <= x)%Q → (0 <= fmt3 x)%Q.
Proof.
  intros Hx. apply Qmake_nonneg, round_half_even_nonneg.
  apply Qmult_le_0_compat; [done|]. by apply Qmake_nonneg.
Qed.

Global Instance fmt3_proper : Proper (Qeq ==> eq) fmt3.
Proof. intros x y E. unfold fmt3. by rewrite E. Qed.

Global Instance fmt2_proper : Proper (Qeq ==> eq) fmt2.
Proof. intros x y E. unfold fmt2. by rewrite E. Qed.

End NumFacts.

(** ** Running a handler *)

Ltac run_handler :=
  unfold mbind, M_bind, mret, M_ret, append_row, read_csv, write_csv, raise,
    out_of_fuel, read_order_seq, write_order_seq; cbn [tbl_rows tbl_put
    ready_products_tbl raw_inventory_tbl purchases_tbl sales_tbl branches_tbl
    ready_products raw_inventory purchases sales branches order_seq
    put_order_seq fst snd].

(** ** Branches *)

Lemma add_branch_found new_id b st i r :
  list_find (same_branch_name b) (branches st) = Some (i, r) →
  add_branch new_id b st = (Ok (branch_id r), st).
Proof. intros H. unfold add_branch. run_handler. by rewrite H. Qed.

Lemma add_branch_fresh new_id b st :
  list_find (same_branch_name b) (branches st) = None →
  add_branch new_id b st
  = (Ok new_id,
     tbl_put branches_tbl
       (branches st ++ [{| branch_id := new_id; branch_name := Text.strip (bi_name b);
                           branch_is_active := if bi_is_active b then "1" else "0" |}])%list
       st).
Proof. intros H. unfold add_branch. run_handler. by rewrite H. Qed.

(** C10: [add_branch] stops on a row that has no name cell.  The branches
    file [ragged_branches] is accepted by [import_csv], which checks its
    header only, and reads as two rows, the first without a name.  A request
    for the branch [main hall], which the second row holds, makes the loop
    raise on the first row: neither is the id [b1] returned nor a row added.
    On the same file without the short record the request returns [b1] and
    leaves the table as it was. *)
Theorem add_branch_stops_on_short_record :
  let b := {| bi_name := " main hall"; bi_is_active := true |} in
  let upload := {| up_header := Some ["id"; "name"; "is_active"];
                   up_records := RawRows.ragged_branches |} in
  imported_file "2024-01-02" "branches" (import_csv "2024-01-02" "branches" upload None)
  = Some RawRows.ragged_branches
  ∧ (∃ r0 r1,
        Csv.read_records RawRows.ragged_branches = [r0; r1]
        ∧ r0 !! "name" = Some None
        ∧ r1 !! "id" = Some (Some "b1") ∧ r1 !! "name" = Some (Some "Main Hall")
        ∧ Text.lower (Text.strip "Main Hall") = Text.lower (Text.strip (bi_name b)))
  ∧ RawRows.add_branch "b9" b (Csv.read_records RawRows.ragged_branches) = None
  ∧ RawRows.add_branch "b9" b (Csv.read_records RawRows.tidy_branches)
    = Some (Some "b1", Csv.read_records RawRows.tidy_branches).
Proof.
  intros b upload. split_and!.
  - vm_compute. reflexivity.
  - eexists _, _. split; [reflexivity|]. split_and!; vm_compute; reflexivity.
  - vm_compute. reflexivity.
  - apply (bool_decide_unpack _). vm_compute. exact I.
Qed.

(** X28.  [add_branch] on a branches table of complete rows, the names of
    the table and of the request being ASCII text.  A request whose name
    equals, after trimming and ignoring case, the name of a row already in
    the table returns ok with the id of the first such row and leaves the
    store as it was; and adding the same name a second time returns the id
    of the first call and changes nothing more. *)
Theorem add_branch_existing_name_idempotent :
  (∀ new_id b st r,
      Text.is_ascii (bi_name b) = true → ascii_branch_names (branches st) →
      r ∈ branches st → same_branch_name b r →
      ∃ i r0, branches st !! i = Some r0 ∧ same_branch_name b r0
              ∧ (∀ j rj, branches st !! j = Some rj → j < i → ¬ same_branch_name b rj)
              ∧ add_branch new_id b st = (Ok (branch_id r0), st))
  ∧ (∀ id1 id2 b st,
        Text.is_ascii (bi_name b) = true → ascii_branch_names (branches st) →
        add_branch id2 b (add_branch id1 b st).2 = add_branch id1 b st).
Proof.
  split.
  - intros new_id b st r _ _ Hin Hr.
    destruct (list_find (same_branch_name b) (branches st)) as [[i r0]|] eqn:E.
    + pose proof (proj1 (list_find_Some _ _ _ _) E) as (Hi & Hp & Hmin).
      exists i, r0. split_and!; [done..| |by eapply add_branch_found].
      intros j rj Hj Hlt. by eapply Hmin.
    + apply list_find_None in E. rewrite Forall_forall in E. by destruct (E r Hin).
  - intros id1 id2 b st _ _.
    destruct (list_find (same_branch_name b) (branches st)) as [[i r0]|] eqn:E.
    + rewrite (add_branch_found id1 b st i r0 E). cbn [snd].
      by apply (add_branch_found id2 b st i r0).
    + rewrite (add_branch_fresh id1 b st E). cbn [snd].
      set (row := {| branch_id := id1; branch_name := Text.strip (bi_name b);
                     branch_is_active := if bi_is_active b then "1" else "0" |}).
      apply (add_branch_found id2 b _ (0 + length (branches st)) row).
      cbn [branches tbl_put branches_tbl].
      rewrite (list_find_app_r _ _ _ E). cbn.
      rewrite decide_True; [reflexivity|].
      unfold same_branch_name, row. cbn [branch_name].
      by rewrite TextFacts.strip_idemp.
Qed.


Lemma add_branch_existing_name_witness :
  let row := {| branch_id := "b1"; branch_name := " Main Hall";
                branch_is_active := "1" |} in
  let st := tbl_put branches_tbl [row] empty_store in
  let b := {| bi_name := "main hall  "; bi_is_active := true |} in
  row ∈ branches st ∧ same_branch_name b row
  ∧ add_branch "b2" b st = (Ok "b1", st)
  ∧ ∃ st1,
      add_branch "b3" {| bi_name := "Terrace"; bi_is_active := false |} st = (Ok "b3", st1)
      ∧ add_branch "b4" {| bi_name := " TERRACE "; bi_is_active := true |} st1
        = (Ok "b3", st1).
Proof.
  intros row st b.
  assert (Hin : row ∈ branches st) by (cbn; apply list_elem_of_here).
  assert (Hname : same_branch_name b row) by reflexivity.
  assert (Hascii : ∀ rows : list Branch,
             forallb (fun r => Text.is_ascii (branch_name r)) rows = true →
             ascii_branch_names rows).
  { intros rows H. rewrite forallb_forall in H.
    apply Forall_forall. intros r Hr. by apply list_elem_of_In, H in Hr. }
  split_and!; [done..| |].
  - destruct (proj1 add_branch_existing_name_idempotent "b2" b st row
                eq_refl (Hascii (branches st) eq_refl) Hin Hname)
      as (i & r0 & Hi & _ & _ & Hrun).
    rewrite Hrun. destruct i as [|i]; cbn in Hi; [|by destruct i].
    by injection Hi as <-.
  - eassert (H1 : add_branch "b3" {| bi_name := "Terrace"; bi_is_active := false |} st
                  = (Ok "b3", _)) by (vm_compute; reflexivity).
    eexists. split; [exact H1|].
    match type of H1 with
    | _ = (_, ?st1) =>
        assert (Hin1 : {| branch_id := "b3"; branch_name := "Terrace";
                          branch_is_active := "0" |} ∈ branches st1)
          by (cbn; apply list_elem_of_further, list_elem_of_here);
        destruct (proj1 add_branch_existing_name_idempotent "b4"
                    {| bi_name := " TERRACE "; bi_is_active := true |} st1 _
                    eq_refl (Hascii (branches st1) eq_refl) Hin1 eq_refl)
          as (i & r0 & Hi & Hsame & _ & Hrun)
    end.
    rewrite Hrun. f_equal. f_equal.
    destruct i as [|[|i]]; cbn in Hi.
    + injection Hi as <-. by vm_compute in Hsame.
    + by injection Hi as <-.
    + by destruct i.
Defined.


(** ** Order sequence *)

Lemma next_order_id_spec peek st :
  next_order_id peek st
  = (Ok (current_value st + 1)%Z,
     put_order_seq
       (Some (if peek then current_value st else (current_value st + 1)%Z)) st).
Proof.
  unfold next_order_id, _scan_max_order_id, current_value. run_handler.
  destruct st as [rp ri pu sa br [c|]]; by destruct peek.
Qed.

Lemma step_call peek st :
  step (Call peek) st
  = ([(peek, (current_value st + 1)%Z)],
     put_order_seq
       (Some (if peek then current_value st else (current_value st + 1)%Z)) st).
Proof. unfold step. by rewrite next_order_id_spec. Qed.

Lemma run_cons a acts st :
  run (a :: acts) st
  = (((step a st).1 ++ (run acts (step a st).2).1)%list, (run acts (step a st).2).2).
Proof.
  cbn [run]. destruct (step a st) as [e st1]. cbn [fst snd].
  by destruct (run acts st1).
Qed.

Lemma run_app acts1 acts2 st :
  run (acts1 ++ acts2) st
  = (((run acts1 st).1 ++ (run acts2 (run acts1 st).2).1)%list,
     (run acts2 (run acts1 st).2).2).
Proof.
  revert st. induction acts1 as [|a acts1 IH]; intros st.
  - cbn. by destruct (run acts2 st).
  - rewrite <- app_comm_cons, !run_cons, IH. cbn [fst snd]. by rewrite app_assoc.
Qed.

(** Once the file exists, a run only moves its value up, and every
    committed value lies above the starting one, in increasing order. *)
Lemma run_from_initialised acts : ∀ st c,
  order_seq st = Some c →
  (∃ c', order_seq (run acts st).2 = Some c' ∧ (c <= c')%Z)
  ∧ Forall (fun v => (c < v)%Z) (committed (run acts st).1)
  ∧ StronglySorted Z.lt (committed (run acts st).1).
Proof.
  induction acts as [|a acts IH]; intros st c Hc.
  - cbn. split_and!; [exists c; split; [done|lia] | constructor | constructor].
  - rewrite run_cons. cbn [fst snd]. destruct a as [peek|f].
    + rewrite step_call. cbn [fst snd].
      assert (Hcur : current_value st = c) by (unfold current_value; by rewrite Hc).
      rewrite Hcur.
      set (c1 := if peek then c else (c + 1)%Z).
      destruct (IH (put_order_seq (Some c1) st) c1 eq_refl) as ((c' & Hc' & Hle) & Hall & Hsort).
      assert (c <= c1)%Z by (unfold c1; destruct peek; lia).
      split_and!.
      * exists c'. split; [done|lia].
      * unfold committed in *. cbn [app]. rewrite filter_cons. cbn [fst].
        destruct peek; cbn.
        -- rewrite decide_False by done. eapply Forall_impl; [exact Hall|]. cbn. lia.
        -- rewrite decide_True by done. cbn. constructor; [lia|].
           eapply Forall_impl; [exact Hall|]. cbn. unfold c1. lia.
      * unfold committed in *. cbn [app]. rewrite filter_cons. cbn [fst].
        destruct peek; cbn.
        -- by rewrite decide_False by done.
        -- rewrite decide_True by done. cbn. constructor; [done|]. exact Hall.
    + cbn [step fst snd app].
      destruct (IH (put_order_seq (order_seq st) (f st)) c) as (H1 & H2 & H3); [done|].
      by split_and!.
Qed.

Lemma run_committed_sorted acts : ∀ st, StronglySorted Z.lt (committed (run acts st).1).
Proof.
  induction acts as [|a acts IH]; intros st; [constructor|].
  destruct (order_seq st) as [c|] eqn:Hc.
  { by apply (run_from_initialised (a :: acts) st c). }
  rewrite run_cons. cbn [fst]. destruct a as [peek|f].
  - rewrite step_call. cbn [fst snd].
    set (c1 := if peek then current_value st else (current_value st + 1)%Z).
    destruct (run_from_initialised acts (put_order_seq (Some c1) st) c1 eq_refl)
      as (_ & Hall & Hsort).
    unfold committed in *. cbn [app]. rewrite filter_cons. cbn [fst].
    destruct peek; cbn.
    + by rewrite decide_False by done.
    + rewrite decide_True by done. cbn. constructor; [done|]. exact Hall.
  - cbn [step fst snd app]. apply IH.
Qed.

Lemma run_seq_monotone acts st : seq_le (order_seq st) (order_seq (run acts st).2).
Proof.
  destruct (order_seq st) as [c|] eqn:Hc; [|done].
  destruct (run_from_initialised acts st c Hc) as ((c' & -> & Hle) & _). exact Hle.
Qed.

Lemma run_peeks_initialised acts : ∀ st c,
  order_seq st = Some c → Forall is_peek_or_other acts →
  order_seq (run acts st).2 = Some c
  ∧ Forall (fun e => e.2 = (c + 1)%Z) (run acts st).1.
Proof.
  induction acts as [|a acts IH]; intros st c Hc Hp; [by split|].
  apply Forall_cons in Hp as [Ha Hp].
  rewrite run_cons. cbn [fst snd]. destruct a as [[]|f]; [| by destruct Ha |].
  - rewrite step_call. cbn [fst snd].
    assert (Hcur : current_value st = c) by (unfold current_value; by rewrite Hc).
    rewrite Hcur. destruct (IH (put_order_seq (Some c) st) c eq_refl Hp) as [H1 H2].
    split; [done|]. cbn [app]. by constructor.
  - cbn [step fst snd app]. by apply IH.
Qed.

Lemma run_peeks_agree acts : ∀ st,
  Forall is_peek_or_other acts →
  ∃ v, Forall (fun e => e.2 = v) (run acts st).1.
Proof.
  induction acts as [|a acts IH]; intros st Hp; [exists 0%Z; constructor|].
  pose proof Hp as Hp0.
  apply Forall_cons in Hp as [Ha Hp].
  rewrite run_cons. cbn [fst snd]. destruct a as [[]|f]; [| by destruct Ha |].
  - rewrite step_call. cbn [fst snd]. exists (current_value st + 1)%Z.
    cbn [app]. constructor; [done|].
    by apply (run_peeks_initialised acts (put_order_seq (Some (current_value st)) st)).
  - cbn [step fst snd app]. by apply IH.
Qed.

Lemma StronglySorted_lt_NoDup (l : list Z) : StronglySorted Z.lt l → NoDup l.
Proof.
  induction 1 as [|x l Hs IH Hall]; constructor; [|done].
  intros Hin. rewrite Forall_forall in Hall. specialize (Hall x Hin). lia.
Qed.

(** C5.  A call returns the current value plus one; a peek leaves the file
    holding the current value (written once, by the lazy initialisation,
    when the file was missing) and a non-peek call stores what it returns.
    So in a run without non-peek calls every call returns the same value and
    an existing file keeps its content; along any run the stored value never
    decreases; and the values returned by the non-peek calls of any run are
    strictly increasing, hence pairwise distinct. *)
Theorem next_order_id_sequence :
  (∀ peek st,
      next_order_id peek st
      = (Ok (current_value st + 1)%Z,
         put_order_seq
           (Some (if peek then current_value st else (current_value st + 1)%Z)) st))
  ∧ (∀ acts st,
        Forall is_peek_or_other acts →
        (∃ v, Forall (fun e => e.2 = v) (run acts st).1)
        ∧ (∀ c, order_seq st = Some c → order_seq (run acts st).2 = Some c))
  ∧ (∀ acts1 acts2 st,
        seq_le (order_seq (run acts1 st).2) (order_seq (run (acts1 ++ acts2) st).2))
  ∧ (∀ acts st,
        StronglySorted Z.lt (committed (run acts st).1)
        ∧ NoDup (committed (run acts st).1)).
Proof.
  split_and!.
  - apply next_order_id_spec.
  - intros acts st Hp. split; [by apply run_peeks_agree|].
    intros c Hc. by apply run_peeks_initialised.
  - intros acts1 acts2 st. rewrite run_app. cbn [snd]. apply run_seq_monotone.
  - intros acts st. pose proof (run_committed_sorted acts st) as Hs.
    split; [done|]. by apply StronglySorted_lt_NoDup.
Qed.

Lemma next_order_id_sequence_witness :
  Forall is_peek_or_other [Call true; Other (tbl_put sales_tbl []); Call true]
  ∧ ∃ v, Forall (fun e => e.2 = v)
           (run [Call true; Other (tbl_put sales_tbl []); Call true] empty_store).1.
Proof.
  assert (H : Forall is_peek_or_other
                [Call true; Other (tbl_put sales_tbl []); Call true]).
  { repeat constructor; discriminate. }
  split; [exact H|].
  exact (proj1 (proj1 (proj2 next_order_id_sequence) _ empty_store H)).
Defined.


(** ** Day snapshots *)

Module SnapshotFacts.
Import Snapshot.

Lemma init_fold_lookup (l : list (string * list string)) : ∀ (d : gmap string file) f,
  foldl init_step d l !! f
  = match d !! f with
    | Some c => Some c
    | None => (fun hit : nat * (string * list string) => [hit.2.2])
              <$> list_find (fun kh => csv_name kh.1 = f) l
    end.
Proof.
  induction l as [|[k h] l IH]; intros d f; cbn [foldl].
  - cbn. by destruct (d !! f).
  - rewrite IH. unfold init_step. cbn [fst snd list_find].
    destruct (decide (csv_name k = f)) as [<-|Hne].
    + destruct (d !! csv_name k) as [c|] eqn:E; lazy beta iota.
      * by rewrite E.
      * by rewrite lookup_insert_eq.
    + destruct (d !! csv_name k) as [c|] eqn:E; lazy beta iota.
      * destruct (d !! f); [done|].
        by destruct (list_find _ l) as [[i x]|].
      * rewrite lookup_insert_ne by done.
        destruct (d !! f); [done|].
        by destruct (list_find _ l) as [[i x]|].
Qed.

(** Every file of the directory survives [_init_csvs]; a missing file is
    created exactly when it is a table file, holding the header alone. *)
Lemma init_csvs_lookup (d : gmap string file) f :
  _init_csvs d !! f
  = match d !! f with
    | Some c => Some c
    | None => header_file f
    end.
Proof. apply init_fold_lookup. Qed.

Lemma header_file_table key headers :
  (key, headers) ∈ HEADERS → header_file (csv_name key) = Some [headers].
Proof.
  unfold HEADERS. rewrite !elem_of_cons, elem_of_nil.
  intros [H|[H|[H|[H|[H|[]]]]]]; injection H as -> ->; reflexivity.
Qed.

Global Instance name_le_trans : Transitive name_le.
Proof. intros x y z. unfold name_le. apply transitivity. Qed.

Global Instance name_le_total : Total name_le.
Proof. intros x y. unfold name_le. apply total, _. Qed.

Lemma last_of_sorted {A} (R : relation A) (l : list A) x :
  StronglySorted R l → last l = Some x → ∀ y, y ∈ l → y = x ∨ R y x.
Proof.
  induction 1 as [|a l Hs IH Hall]; intros Hlast y Hy; [by apply elem_of_nil in Hy|].
  destruct l as [|b l].
  - cbn in Hlast. injection Hlast as <-. apply list_elem_of_singleton in Hy. by left.
  - change (last (a :: b :: l)) with (last (b :: l)) in Hlast.
    apply elem_of_cons in Hy as [->|Hy]; [|by apply IH].
    right. rewrite Forall_forall in Hall. apply Hall.
    by apply last_Some_elem_of.
Qed.

Lemma elem_of_dirs_of (root : gmap string entry) name d :
  (name, d) ∈ dirs_of root ↔ root !! name = Some (Dir d).
Proof.
  unfold dirs_of. rewrite list_elem_of_omap. split.
  - intros ([n e] & Hin & He). apply elem_of_map_to_list in Hin.
    destruct e as [d'|]; [|done]. by injection He as -> ->.
  - intros H. exists (name, Dir d). split; [by apply elem_of_map_to_list|done].
Qed.

Lemma latest_some (root : gmap string entry) name d :
  _latest_existing_day_dir (Some root) = Some (name, d) →
  root !! name = Some (Dir d)
  ∧ ∀ n' d', root !! n' = Some (Dir d') → String.le n' name.
Proof.
  cbn [_latest_existing_day_dir]. intros Hlast.
  pose proof (merge_sort_Permutation name_le (dirs_of root)) as Hperm.
  split.
  - apply elem_of_dirs_of. rewrite <- Hperm. by apply last_Some_elem_of.
  - intros n' d' Hn'.
    assert (Hin : (n', d') ∈ merge_sort name_le (dirs_of root)).
    { rewrite Hperm. by apply elem_of_dirs_of. }
    destruct (last_of_sorted name_le _ _
                (StronglySorted_merge_sort name_le (dirs_of root)) Hlast _ Hin)
      as [E|E].
    + injection E as -> _. reflexivity.
    + exact E.
Qed.

Lemma latest_none (root : gmap string entry) :
  _latest_existing_day_dir (Some root) = None →
  ∀ n d, root !! n ≠ Some (Dir d).
Proof.
  cbn [_latest_existing_day_dir]. intros Hlast n d Hn.
  apply last_None in Hlast.
  pose proof (merge_sort_Permutation name_le (dirs_of root)) as Hperm.
  rewrite Hlast in Hperm. apply Permutation_nil_l in Hperm.
  apply elem_of_dirs_of in Hn. rewrite <- Hperm in Hn. by apply elem_of_nil in Hn.
Qed.

End SnapshotFacts.

(** C4.  On a date that has no snapshot, when [DATA_ROOT] holds at least
    one directory, [get_today_dir] creates today's snapshot from the
    directory with the greatest name: every file of that directory is in the
    new one with the same content, so every table keeps all its rows, and
    only the table files the old directory lacked are added, header-only.
    When [DATA_ROOT] holds no directory (or does not exist), today's snapshot
    consists of the five table files, each holding its header alone. *)
Theorem carry_forward_on_new_day :
  (∀ today (root : gmap string Snapshot.entry),
      root !! today = None →
      (∃ n d, root !! n = Some (Snapshot.Dir d)) →
      ∃ name d new,
        root !! name = Some (Snapshot.Dir d)
        ∧ (∀ n' d', root !! n' = Some (Snapshot.Dir d') → String.le n' name)
        ∧ Snapshot.get_today_dir today (Some root)
          = Some (<[today := Snapshot.Dir new]> root)
        ∧ (∀ f c, d !! f = Some c → new !! f = Some c)
        ∧ (∀ key rows, Snapshot.table_rows d key = Some rows →
                       Snapshot.table_rows new key = Some rows)
        ∧ (∀ f, d !! f = None → new !! f = Snapshot.header_file f))
  ∧ (∀ today (root : Snapshot.data_root),
        default ∅ root !! today = None →
        (∀ n d, default ∅ root !! n ≠ Some (Snapshot.Dir d)) →
        ∃ new,
          Snapshot.get_today_dir today root
          = Some (<[today := Snapshot.Dir new]> (default ∅ root))
          ∧ (∀ f, new !! f = Snapshot.header_file f)
          ∧ (∀ key headers, (key, headers) ∈ HEADERS →
                new !! Snapshot.csv_name key = Some [headers]
                ∧ Snapshot.table_rows new key = Some [])).
Proof.
  split.
  - intros today root Htoday (n & d0 & Hn).
    destruct (Snapshot._latest_existing_day_dir (Some root)) as [[name d]|] eqn:E.
    + destruct (SnapshotFacts.latest_some root name d E) as [Hname Hmax].
      assert (Hne : name ≠ today) by (intros ->; congruence).
      exists name, d, (Snapshot._init_csvs d).
      assert (Hkeep : ∀ f c, d !! f = Some c → Snapshot._init_csvs d !! f = Some c).
      { intros f c Hf. by rewrite SnapshotFacts.init_csvs_lookup, Hf. }
      split_and!; [done|done| |done| |].
      * unfold Snapshot.get_today_dir. cbv zeta.
        change (default ∅ (Some root)) with root. rewrite Htoday, E.
        by rewrite decide_True.
      * intros key rows. unfold Snapshot.table_rows.
        destruct (d !! Snapshot.csv_name key) as [c|] eqn:Hc; [|done].
        by rewrite (Hkeep _ _ Hc).
      * intros f Hf. by rewrite SnapshotFacts.init_csvs_lookup, Hf.
    + by destruct (SnapshotFacts.latest_none root E n d0).
  - intros today root Htoday Hnone.
    exists (Snapshot._init_csvs ∅).
    assert (Hlook : ∀ f, Snapshot._init_csvs ∅ !! f = Snapshot.header_file f).
    { intros f. by rewrite SnapshotFacts.init_csvs_lookup, lookup_empty. }
    split_and!; [|done|].
    + unfold Snapshot.get_today_dir. cbv zeta. rewrite Htoday.
      destruct (Snapshot._latest_existing_day_dir (Some (default ∅ root)))
        as [[name d]|] eqn:E; [|done].
      destruct (SnapshotFacts.latest_some _ name d E) as [Hname _].
      by destruct (Hnone name d).
    + intros key headers Hin. unfold Snapshot.table_rows.
      by rewrite Hlook, (SnapshotFacts.header_file_table key headers Hin).
Qed.

Lemma carry_forward_on_new_day_witness :
  let prior : gmap string (list (list string)) :=
    {[ "sales.csv" := [["id"; "item"]; ["s1"; "Burger"]] ]} in
  let root : gmap string Snapshot.entry :=
    {[ "2024-01-01" := Snapshot.Dir prior ]} in
  root !! "2024-01-02" = None
  ∧ (∃ n d, root !! n = Some (Snapshot.Dir d))
  ∧ ∃ new,
      Snapshot.get_today_dir "2024-01-02" (Some root)
      = Some (<["2024-01-02" := Snapshot.Dir new]> root)
      ∧ Snapshot.table_rows new "sales" = Some [["s1"; "Burger"]].
Proof.
  intros prior root.
  assert (H1 : root !! "2024-01-02" = None) by (vm_compute; reflexivity).
  assert (H2 : ∃ n d, root !! n = Some (Snapshot.Dir d)).
  { exists "2024-01-01", prior. vm_compute. reflexivity. }
  split; [exact H1|split; [exact H2|]].
  destruct (proj1 carry_forward_on_new_day "2024-01-02" root H1 H2)
    as (name & d & new & Hname & _ & Hrun & _ & Hrows & _).
  exists new. split; [exact Hrun|]. apply Hrows.
  destruct (decide (name = "2024-01-01")) as [->|Hne].
  - assert (Hd : root !! "2024-01-01" = Some (Snapshot.Dir prior))
      by (vm_compute; reflexivity).
    rewrite Hd in Hname. injection Hname as <-. vm_compute. reflexivity.
  - unfold root in Hname.
    rewrite lookup_singleton_ne in Hname by (intros E; apply Hne; by symmetry).
    congruence.
Defined.

(** ** Ready-product codes: the generator *)

Lemma first_free_Some existing cands code :
  first_free existing cands = Some code → code ∈ cands ∧ code ∉ existing.
Proof.
  unfold first_free. destruct (list_find _ cands) as [[i c]|] eqn:E; [|done].
  cbn. intros [= <-]. apply list_find_Some in E as (Hi & Hc & _).
  split; [by eapply list_elem_of_lookup_2|done].
Qed.



Lemma extra_letter_mod idx : extra_letter (idx mod 26) = extra_letter idx.
Proof. unfold extra_letter. by rewrite Nat.Div0.mod_mod. Qed.

Lemma fallback_candidates_mod l2 idx :
  fallback_candidates l2 (idx mod 26) = fallback_candidates l2 idx.
Proof. unfold fallback_candidates. by rewrite extra_letter_mod. Qed.

Lemma elem_of_fallback_pool l2 code :
  code ∈ flat_map (fallback_candidates l2) (seq 0 26)
  ↔ ∃ idx, code ∈ fallback_candidates l2 idx.
Proof.
  rewrite list_elem_of_In, in_flat_map. split.
  - intros (k & _ & Hk). exists k. by apply list_elem_of_In.
  - intros (idx & Hidx). exists (idx mod 26). split.
    + apply in_seq. pose proof (Nat.mod_upper_bound idx 26). lia.
    + apply list_elem_of_In. by rewrite fallback_candidates_mod.
Qed.





Lemma fallback_search_Some l2 existing code fuel : ∀ idx,
  fallback_search fuel idx l2 existing = Some code →
  code ∈ flat_map (fallback_candidates l2) (seq 0 26) ∧ code ∉ existing.
Proof.
  induction fuel as [|fuel IH]; intros idx H; [done|].
  cbn [fallback_search] in H.
  destruct (first_free existing (fallback_candidates l2 idx)) as [c|] eqn:E.
  - injection H as ->. apply first_free_Some in E as [Hin Hfree].
    split; [|done]. apply elem_of_fallback_pool. eauto.
  - by eapply IH.
Qed.

Lemma generate_Some fuel name item_category rows code :
  _generate_ready_code fuel name item_category rows = Some code →
  code ∈ all_candidates (code_letters name item_category).1
                        (code_letters name item_category).2
  ∧ code ∉ existing_codes rows.
Proof.
  unfold _generate_ready_code, all_candidates.
  destruct (code_letters name item_category) as [l2 l3]. cbn [fst snd].
  destruct (first_free _ (primary_candidates _)) as [c|] eqn:E.
  - intros [= <-]. apply first_free_Some in E as [Hin Hfree].
    split; [|done]. apply elem_of_app. by left.
  - intros H. apply fallback_search_Some in H as [Hin Hfree].
    split; [|done]. apply elem_of_app. by right.
Qed.







(** C6: the generator, run on a name that starts with a digit and no item
    category, returns a code that is a digit followed by two digits: it is
    unused, but it is not of the shape digit, letter, letter, and the
    product handlers would reject it as an explicit code. *)
Theorem generate_ready_code_digit_name :
  _generate_ready_code 0 "7up" "" [] = Some "177"
  ∧ matches_code_pattern "177" = false
  ∧ code_malformed "177" = true.
Proof. by vm_compute. Qed.


(** ** Sales *)

Ltac run_validation :=
  unfold _ensure_unit, _ensure_subcategory; run_handler.

(** The four ways out of [add_sale_api] before anything is written. *)
Lemma add_sale_api_bad_category today new_id s st :
  sin_category s ∉ CATEGORIES →
  add_sale_api today new_id s st = (HTTPException 400, st).
Proof. intros H. unfold add_sale_api. by rewrite decide_True. Qed.

Lemma add_sale_api_not_found today new_id s st :
  list_find (sale_match s) (ready_products st) = None →
  add_sale_api today new_id s st = (HTTPException 400, st).
Proof.
  intros H. unfold add_sale_api. destruct (decide _); [done|].
  run_handler. by rewrite H.
Qed.

Lemma add_sale_api_unit_mismatch today new_id s st i target :
  list_find (sale_match s) (ready_products st) = Some (i, target) →
  sin_unit s ≠ rp_unit target →
  add_sale_api today new_id s st = (HTTPException 400, st).
Proof.
  intros H Hu. unfold add_sale_api. destruct (decide _); [done|].
  run_handler. rewrite H. by rewrite decide_True.
Qed.

Lemma add_sale_api_insufficient today new_id s st i target :
  list_find (sale_match s) (ready_products st) = Some (i, target) →
  sin_unit s = rp_unit target →
  (rp_quantity target < sin_qty s)%Q →
  add_sale_api today new_id s st = (HTTPException 400, st).
Proof.
  intros H Hu Hq. unfold add_sale_api. destruct (decide _); [done|].
  run_handler. rewrite H. rewrite decide_False by (intros Hn; by apply Hn).
  apply NumFacts.Qltb_true in Hq. by rewrite Hq.
Qed.

(** The accepted sale. *)
Lemma add_sale_api_accepted today new_id s st i target :
  sin_category s ∈ CATEGORIES →
  list_find (sale_match s) (ready_products st) = Some (i, target) →
  sin_unit s = rp_unit target →
  (sin_qty s <= rp_quantity target)%Q →
  add_sale_api today new_id s st
  = (Ok {| sresp_id := new_id; sresp_order_id := sale_order_id_of s st;
           sresp_remaining_stock := Num.fmt3 (rp_quantity target - sin_qty s) |},
     {| ready_products :=
          <[i := with_quantity (Num.fmt3 (rp_quantity target - sin_qty s)) target]>
            (ready_products st);
        raw_inventory := raw_inventory st;
        purchases := purchases st;
        sales := sales st ++ [sale_row today new_id s target (sale_order_id_of s st)];
        branches := branches st;
        order_seq := sale_order_seq_of s st |}).
Proof.
  intros Hc H Hu Hq. unfold add_sale_api.
  rewrite decide_False by (intros Hn; by apply Hn).
  run_handler. rewrite H. rewrite decide_False by (intros Hn; by apply Hn).
  apply NumFacts.Qltb_false in Hq. rewrite Hq.
  unfold sale_order_id_of, sale_order_seq_of, sale_row, sale_discount_of.
  destruct (sin_order_id s) as [oid|]; [reflexivity|].
  rewrite next_order_id_spec. reflexivity.
Qed.

(** Every run of [add_sale_api] is one of the five above. *)
Lemma add_sale_api_cases today new_id s st :
  (add_sale_api today new_id s st = (HTTPException 400, st)
   ∧ (sin_category s ∉ CATEGORIES
      ∨ list_find (sale_match s) (ready_products st) = None
      ∨ ∃ i target,
          list_find (sale_match s) (ready_products st) = Some (i, target)
          ∧ (sin_unit s ≠ rp_unit target ∨ (rp_quantity target < sin_qty s)%Q)))
  ∨ (∃ i target,
        sin_category s ∈ CATEGORIES
        ∧ list_find (sale_match s) (ready_products st) = Some (i, target)
        ∧ sin_unit s = rp_unit target
        ∧ (sin_qty s <= rp_quantity target)%Q).
Proof.
  destruct (decide (sin_category s ∈ CATEGORIES)) as [Hc|Hc].
  2: { left. split; [by apply add_sale_api_bad_category|by left]. }
  destruct (list_find (sale_match s) (ready_products st)) as [[i target]|] eqn:E.
  2: { left. split; [by apply add_sale_api_not_found|by right; left]. }
  destruct (decide (sin_unit s = rp_unit target)) as [Hu|Hu].
  2: { left. split; [by eapply add_sale_api_unit_mismatch|].
       right; right. exists i, target. split; [done|by left]. }
  destruct (Qlt_le_dec (rp_quantity target) (sin_qty s)) as [Hq|Hq].
  - left. split; [by eapply add_sale_api_insufficient|].
    right; right. exists i, target. split; [done|by right].
  - right. by exists i, target.
Qed.

(** C8: [add_sale_api] never looks at the payment status.  A sale whose
    status is outside [PAYMENT_STATUSES] is accepted and the row appended to
    the sales table carries that status, which [update_sale_payment] would
    refuse to write on the same row. *)
Theorem add_sale_api_keeps_any_payment_status :
  let r := add_sale_api "2024-01-01" "s1" (sale_of "Burger" "Pieces" 3 "Bogus") shop in
  ("Bogus" ∉ PAYMENT_STATUSES)
  ∧ (∃ resp, r.1 = Ok resp)
  ∧ (sale_payment_status <$> sales r.2) = ["Bogus"]
  ∧ (update_sale_payment
       {| spp_id := "s1"; spp_payment_status := Some "Bogus";
          spp_payment_mode := None |} r.2).1 = HTTPException 400.
Proof.
  intros r. split_and!.
  - intros H. apply list_elem_of_In in H. cbn in H.
    repeat (destruct H as [H|H]; [discriminate H|]). exact H.
  - eexists. by vm_compute.
  - by vm_compute.
  - by vm_compute.
Qed.

(** ** Purchases *)

Lemma add_purchase_api_accepted today item_id purchase_id p st i target inv add_qty :
  pin_category p ∈ CATEGORIES →
  pin_subcategory p ∈ SUBCATEGORIES →
  pin_unit p ∈ UNITS →
  purchase_target item_id p (raw_inventory st) = (i, target, inv) →
  converted_qty p target = Some add_qty →
  add_purchase_api today item_id purchase_id p st
  = (Ok {| resp_id := purchase_id; resp_new_stock := (raw_stock target + add_qty)%Q;
           resp_unit := raw_unit target |},
     {| ready_products := ready_products st;
        raw_inventory :=
          <[i := with_stock_and_cost (Num.fmt3 (raw_stock target + add_qty))
                   (Num.fmt2 (pin_unit_cost p)) target]> inv;
        purchases :=
          purchases st ++ [purchase_row (opt_or (pin_date p) today) purchase_id p];
        sales := sales st; branches := branches st; order_seq := order_seq st |}).
Proof.
  intros Hc Hs Hu Ht Hq. unfold add_purchase_api.
  rewrite decide_False by (intros Hn; by apply Hn).
  run_validation. rewrite !decide_True by done.
  by rewrite Ht, Hq.
Qed.

(** An accepted purchase passed every check. *)
Lemma add_purchase_api_Ok today item_id purchase_id p st resp st' :
  add_purchase_api today item_id purchase_id p st = (Ok resp, st') →
  pin_category p ∈ CATEGORIES ∧ pin_subcategory p ∈ SUBCATEGORIES
  ∧ pin_unit p ∈ UNITS
  ∧ ∃ i target inv add_qty,
      purchase_target item_id p (raw_inventory st) = (i, target, inv)
      ∧ converted_qty p target = Some add_qty.
Proof.
  unfold add_purchase_api.
  destruct (decide (pin_category p ∉ CATEGORIES)) as [|Hc]; [done|].
  run_validation.
  destruct (decide (pin_subcategory p ∈ SUBCATEGORIES)) as [Hs|]; [|done].
  destruct (decide (pin_unit p ∈ UNITS)) as [Hu|]; [|done].
  destruct (purchase_target item_id p (raw_inventory st)) as [[i target] inv] eqn:Ht.
  destruct (converted_qty p target) as [add_qty|] eqn:Hq; [|done].
  intros _. split_and!; [by apply dec_stable|done..|].
  by exists i, target, inv, add_qty.
Qed.

(** The three ways a quantity reaches the unit of the target row. *)
Lemma converted_qty_Some p target add_qty :
  converted_qty p target = Some add_qty →
  (raw_unit target = pin_unit p ∧ add_qty = pin_qty p)
  ∨ (pin_unit p = "KG" ∧ raw_unit target = "GM" ∧ add_qty = (pin_qty p * 1000)%Q)
  ∨ (pin_unit p = "GM" ∧ raw_unit target = "KG" ∧ add_qty = (pin_qty p / 1000)%Q).
Proof.
  unfold converted_qty, convert_qty.
  destruct (decide (raw_unit target ≠ pin_unit p)) as [Hne|He].
  - rewrite decide_False by congruence.
    destruct (decide (pin_unit p = "KG" ∧ raw_unit target = "GM")) as [[? ?]|].
    { intros [= <-]. right; left. done. }
    destruct (decide (pin_unit p = "GM" ∧ raw_unit target = "KG")) as [[? ?]|]; [|done].
    intros [= <-]. right; right. done.
  - intros [= <-]. left. split; [by apply dec_stable|done].
Qed.

(** The target of a purchase is a row of the table it returns, at the index
    it returns. *)
Lemma purchase_target_lookup item_id p inv0 i target inv :
  purchase_target item_id p inv0 = (i, target, inv) →
  inv !! i = Some target
  ∧ ((list_find (purchase_match p) inv0 = Some (i, target) ∧ inv = inv0)
     ∨ (list_find (purchase_match p) inv0 = None ∧ i = length inv0
        ∧ target = new_raw_item item_id p ∧ inv = (inv0 ++ [target])%list)).
Proof.
  unfold purchase_target.
  destruct (list_find (purchase_match p) inv0) as [[j r]|] eqn:E.
  - intros [= -> -> ->]. apply list_find_Some in E as (Hj & _).
    split; [done|]. by left.
  - intros [= <- <- <-]. split.
    + by rewrite lookup_app_r, Nat.sub_diag.
    + by right.
Qed.

(** ** What the stock handlers return *)

Lemma adjust_ready_stock_api_Ok item_id delta st q st' :
  adjust_ready_stock_api item_id delta st = (Ok q, st') →
  ∃ i r,
    list_find (fun r => rp_id r = item_id) (ready_products st) = Some (i, r)
    ∧ q = (rp_quantity r + delta)%Q
    ∧ (0 <= q)%Q
    ∧ st' = tbl_put ready_products_tbl
              (<[i := with_quantity (Num.fmt3 q) r]> (ready_products st)) st.
Proof.
  unfold adjust_ready_stock_api. run_handler.
  destruct (list_find _ (ready_products st)) as [[i r]|] eqn:E; [|done].
  destruct (Num.Qltb (rp_quantity r + delta) 0) eqn:Hq; [done|].
  intros [= <- <-]. exists i, r. split_and!; try done.
  by apply NumFacts.Qltb_false.
Qed.

Lemma add_sale_api_Ok today new_id s st resp st' :
  add_sale_api today new_id s st = (Ok resp, st') →
  ∃ i target,
    list_find (sale_match s) (ready_products st) = Some (i, target)
    ∧ (sin_qty s <= rp_quantity target)%Q
    ∧ sresp_remaining_stock resp = Num.fmt3 (rp_quantity target - sin_qty s)
    ∧ ready_products st'
      = <[i := with_quantity (sresp_remaining_stock resp) target]> (ready_products st)
    ∧ raw_inventory st' = raw_inventory st.
Proof.
  intros Hrun.
  destruct (add_sale_api_cases today new_id s st)
    as [[Hbad _]|(i & target & Hc & Hf & Hu & Hq)]; [congruence|].
  rewrite (add_sale_api_accepted _ _ _ _ _ _ Hc Hf Hu Hq) in Hrun.
  injection Hrun as <- <-. by exists i, target.
Qed.

(** ** Double precision *)

Module DoubleFacts.
Import Double.

Lemma pow2_pos e : (0 < pow2 e)%Q.
Proof. by apply Qpower_0_lt. Qed.

Lemma round_not_nan q : round q ≠ NaN.
Proof.
  unfold round. destruct (Qeq_bool q 0); [done|].
  cbv zeta. by destruct (Qle_bool _ _).
Qed.

(** Rounding keeps the sign. *)
Lemma round_nonneg q : (0 <= q)%Q → le (Fin 0) (round q) = true.
Proof.
  intros Hq. unfold round. destruct (Qeq_bool q 0); [done|]. cbv zeta.
  set (e := Z.max (ilog2 q - 52) (-1074)).
  assert (Hr : (0 <= Qred (inject_Z (Num.round_half_even (q / pow2 e)) * pow2 e))%Q).
  { rewrite Qred_correct. apply Qmult_le_0_compat.
    - change 0%Q with (inject_Z 0). rewrite <- Zle_Qle.
      apply NumFacts.round_half_even_nonneg.
      apply Qle_shift_div_l; [apply pow2_pos|]. by rewrite Qmult_0_l.
    - apply Qlt_le_weak, pow2_pos. }
  destruct (Qle_bool _ _); cbn [le].
  - apply NumFacts.Qltb_false in Hr. by rewrite Hr.
  - by apply Qle_bool_iff.
Qed.

Lemma le_0_not_negative x : le (Fin 0) x = true → lt x (Fin 0) = false.
Proof.
  destruct x as [q|[]|]; cbn; try done.
  intros H. apply NumFacts.Qltb_false. by apply Qle_bool_iff.
Qed.

Lemma cell_not_nan digits x : cell digits x = NaN ↔ x = NaN.
Proof.
  destruct x as [q|a|]; cbn; [|done..].
  split; [|done]. intros H. by destruct (round_not_nan _ H).
Qed.

Lemma cell3_nonneg x : le (Fin 0) x = true → le (Fin 0) (cell3 x) = true.
Proof.
  destruct x as [q|a|]; cbn; [|done..].
  intros H. apply round_nonneg, NumFacts.fmt3_nonneg. by apply Qle_bool_iff.
Qed.


Lemma not_lt_0 x : lt x (Fin 0) = false → x = NaN ∨ le (Fin 0) x = true.
Proof.
  destruct x as [q|[]|]; cbn; try done; [|by right|by left].
  intros H. right. apply Qle_bool_iff. by apply NumFacts.Qltb_false.
Qed.

Ltac run_double :=
  unfold Double._ensure_unit, Double._ensure_subcategory, Double.append_row,
    Double.read_csv, Double.write_csv, Double.raise, Double.read_order_seq,
    Double.write_order_seq, mbind, Double.M_bind, mret, Double.M_ret;
  cbn [Double.tbl_rows Double.tbl_put Double.ready_products_tbl
       Double.raw_inventory_tbl Double.purchases_tbl Double.sales_tbl
       Double.ready_products Double.raw_inventory Double.purchases Double.sales
       Double.order_seq Double.put_order_seq fst snd].







End DoubleFacts.

Section DoubleClaims.
Import Double.







(** C1: a purchase of a negative quantity goes through.  Fifteen
    kilograms less on a stock of ten are accepted, and the row is left with
    the stock -5.000, below zero and below the stock it had.  The two
    sibling handlers do refuse a change that would take a quantity below
    zero: the adjustment by its own check of the sum, the sale by its stock
    check. *)
Theorem purchase_of_negative_quantity :
  let r := add_purchase_api "2024-01-01" "r9" "u1"
             (purchase_of "Chicken" "KG" (Fin (-15)) (Fin 200)) freezer in
  (∃ resp, r.1 = Ok resp ∧ resp_new_stock resp = Fin (-5))
  ∧ raw_stock <$> raw_inventory freezer = [Fin 10]
  ∧ raw_stock <$> raw_inventory r.2 = [Fin (-5)]
  ∧ lt (Fin (-5)) (Fin 0) = true
  ∧ lt (Fin (-5)) (Fin 10) = true
  ∧ adjust_ready_stock_api "p1" (Fin (-25)) shop = (HTTPException 400, shop)
  ∧ add_sale_api "2024-01-01" "s1" (sale_of "Burger" "Pieces" (Fin 25)) shop
    = (HTTPException 400, shop).
Proof.
  intros r. split_and!.
  - eexists. split; vm_compute; reflexivity.
  - reflexivity.
  - vm_compute. reflexivity.
  - reflexivity.
  - reflexivity.
  - vm_compute. reflexivity.
  - vm_compute. reflexivity.
Qed.

(** X29.  The stock adjustment in double precision.  It answers 404 when
    no row has the id and 400, writing nothing, when the double sum of the
    quantity of the first such row and the change is below zero; in every
    other case, a NaN included, it is accepted, reports that sum and writes
    it back in three decimals on that row alone.  Neither number is ever
    below zero: each is NaN, when the quantity or the change is NaN or they
    are opposite infinities, or at least zero. *)
Theorem adjusted_quantity_not_negative item_id delta st :
  match list_find (fun r => rp_id r = item_id) (ready_products st) with
  | None => adjust_ready_stock_api item_id delta st = (HTTPException 404, st)
  | Some (i, r) =>
      let q := add (rp_quantity r) delta in
      (lt q (Fin 0) = true →
       adjust_ready_stock_api item_id delta st = (HTTPException 400, st))
      ∧ (lt q (Fin 0) = false →
         adjust_ready_stock_api item_id delta st
         = (Ok q, tbl_put ready_products_tbl
                    (<[i := with_quantity (cell3 q) r]> (ready_products st)) st)
         ∧ (q = NaN ∨ le (Fin 0) q = true)
         ∧ (cell3 q = NaN ∨ le (Fin 0) (cell3 q) = true)
         ∧ (cell3 q = NaN ↔ q = NaN)
         ∧ lt (cell3 q) (Fin 0) = false)
  end.
Proof.
  unfold adjust_ready_stock_api. DoubleFacts.run_double.
  destruct (list_find _ (ready_products st)) as [[i r]|]; [|done].
  cbv zeta. split; intros Hq; rewrite Hq; [done|].
  split; [done|].
  destruct (DoubleFacts.not_lt_0 _ Hq) as [Hn|Hs].
  - rewrite Hn. cbn. split_and!; by auto.
  - split_and!.
    + by right.
    + right. by apply DoubleFacts.cell3_nonneg.
    + apply DoubleFacts.cell_not_nan.
    + by apply DoubleFacts.le_0_not_negative, DoubleFacts.cell3_nonneg.
Qed.

Lemma adjusted_quantity_not_negative_witness :
  adjust_ready_stock_api "p1" (Fin (-25)) shop = (HTTPException 400, shop)
  ∧ (∃ st', adjust_ready_stock_api "p3" (literal (- (5 # 10000))) shop
            = (Ok (literal (5 # 10000)), st')
            ∧ rp_quantity <$> ready_products st' = [Fin 20; Fin 1; literal (1 # 1000)])
  ∧ ∃ st', adjust_ready_stock_api "p1" NaN shop = (Ok NaN, st')
           ∧ rp_quantity <$> ready_products st' = [NaN; Fin 1; literal (1 # 1000)].
Proof.
  pose proof (adjusted_quantity_not_negative "p1" (Fin (-25)) shop) as H1.
  pose proof (adjusted_quantity_not_negative "p3" (literal (- (5 # 10000))) shop) as H2.
  pose proof (adjusted_quantity_not_negative "p1" NaN shop) as H3.
  assert (E1 : list_find (fun r => rp_id r = "p1") (ready_products shop) = Some (0, burger))
    by (vm_compute; reflexivity).
  assert (E3 : list_find (fun r => rp_id r = "p3") (ready_products shop) = Some (2, saffron))
    by (vm_compute; reflexivity).
  rewrite E1 in H1, H3. rewrite E3 in H2. cbv zeta in *.
  split_and!.
  - apply (proj1 H1). vm_compute. reflexivity.
  - destruct (proj2 H2) as (Hrun & _); [vm_compute; reflexivity|].
    eexists. split; [rewrite Hrun; f_equal; f_equal; vm_compute; reflexivity|].
    vm_compute. reflexivity.
  - destruct (proj2 H3) as (Hrun & _); [reflexivity|].
    eexists. split; [exact Hrun|]. vm_compute. reflexivity.
Defined.

End DoubleClaims.

(** ** ASCII tables *)

Lemma ascii_table_forallb (rows : list ReadyProduct) :
  forallb (fun r => Text.is_ascii (rp_name r) && Text.is_ascii (rp_code r)) rows = true →
  ascii_names rows ∧ ascii_codes rows.
Proof.
  intros H. rewrite forallb_forall in H.
  split; apply Forall_forall; intros r Hr; apply list_elem_of_In, H in Hr;
    apply andb_true_iff in Hr; tauto.
Qed.


(** ** Explicit product codes *)

Lemma code_malformed_shape c :
  code_malformed c = false →
  ∃ d a b, c = String d (String a (String b ""))
           ∧ Text.is_digit d = true ∧ Text.is_alpha a = true ∧ Text.is_alpha b = true.
Proof.
  destruct c as [|d [|a [|b [|e t]]]]; try discriminate.
  unfold code_malformed, Text.isdigit, Text.isalpha. cbn.
  rewrite !andb_true_r, negb_false_iff, !andb_true_iff.
  intros [Hd [Ha Hb]]. by exists d, a, b.
Qed.

Lemma upper_shape s d a b :
  Text.upper s = String d (String a (String b "")) →
  ∃ d' a' b', d = Text.upper_char d' ∧ a = Text.upper_char a' ∧ b = Text.upper_char b'.
Proof.
  destruct s as [|d' [|a' [|b' [|e t]]]]; try discriminate.
  cbn. intros [= <- <- <-]. by exists d', a', b'.
Qed.

Lemma normalised_code_shape code :
  code_malformed (normalised_code code) = false →
  matches_explicit_pattern (normalised_code code) = true.
Proof.
  intros H. destruct (code_malformed_shape _ H) as (d & a & b & E & Hd & Ha & Hb).
  rewrite E. unfold normalised_code in E.
  apply upper_shape in E as (d' & a' & b' & -> & -> & ->).
  cbn. rewrite Hd. by rewrite !TextFacts.upper_char_alpha.
Qed.

Lemma code_taken_find c rows :
  code_taken c rows ↔ is_Some (list_find (fun r => Text.upper (rp_code r) = c) rows).
Proof.
  unfold code_taken, code_taken_by_other. rewrite Exists_exists. split.
  - intros (r & Hin & Hr). by eapply list_find_elem_of.
  - intros [[i r] H]. apply list_find_Some in H as (Hi & Hr & _).
    exists r. split; [by eapply list_elem_of_lookup_2|done].
Qed.

Lemma code_taken_by_other_find item_id c rows :
  code_taken_by_other item_id c rows
  ↔ is_Some (list_find (fun r => rp_id r ≠ item_id ∧ Text.upper (rp_code r) = c) rows).
Proof.
  unfold code_taken, code_taken_by_other. rewrite Exists_exists. split.
  - intros (r & Hin & Hr). by eapply list_find_elem_of.
  - intros [[i r] H]. apply list_find_Some in H as (Hi & Hr & _).
    exists r. split; [by eapply list_elem_of_lookup_2|done].
Qed.

(** The row [add_ready_product_api] appends for a request with code [c]. *)
Lemma add_ready_product_api_explicit fuel new_id item st :
  normalised_code (rpi_code item) ≠ "" →
  add_ready_product_api fuel new_id item st
  = if decide (rpi_category item ∈ CATEGORIES ∧ rpi_unit item ∈ UNITS
               ∧ code_malformed (normalised_code (rpi_code item)) = false
               ∧ ¬ code_taken (normalised_code (rpi_code item)) (ready_products st))
    then (Ok (new_id, normalised_code (rpi_code item)),
          tbl_put ready_products_tbl
            (ready_products st
             ++ [{| rp_id := new_id; rp_name := Text.strip (rpi_name item);
                    rp_category := rpi_category item;
                    rp_item_category := Text.strip (opt_or (rpi_item_category item) "");
                    rp_code := normalised_code (rpi_code item);
                    rp_unit := rpi_unit item;
                    rp_unit_cost := Num.fmt2 (rpi_unit_cost item);
                    rp_price := Num.fmt2 (rpi_price item);
                    rp_quantity := Num.fmt3 (rpi_quantity item);
                    rp_threshold := Num.fmt3 (rpi_threshold item) |}])%list st)
    else (HTTPException 400, st).
Proof.
  intros Hc. unfold add_ready_product_api.
  destruct (decide (rpi_category item ∉ CATEGORIES)) as [Hcat|Hcat].
  { rewrite decide_False; [done|]. by intros [? _]. }
  apply dec_stable in Hcat. run_validation.
  destruct (decide (rpi_unit item ∈ UNITS)) as [Hu|Hu].
  2: { rewrite decide_False; [done|]. by intros (_ & ? & _). }
  rewrite (decide_True (P := normalised_code (rpi_code item) ≠ "")) by done.
  destruct (code_malformed (normalised_code (rpi_code item))) eqn:Hm.
  { rewrite decide_False; [done|]. by intros (_ & _ & ? & _). }
  destruct (list_find _ (ready_products st)) as [[i r]|] eqn:Hf.
  - rewrite decide_False; [done|]. intros (_ & _ & _ & Hn). apply Hn.
    apply code_taken_find. by rewrite Hf.
  - rewrite decide_True; [done|]. split_and!; try done.
    intros Ht. apply code_taken_find in Ht. rewrite Hf in Ht. by destruct Ht.
Qed.


Lemma update_ready_product_api_explicit item_id patch code st :
  rpu_code patch = Some code →
  normalised_code (Some code) ≠ "" →
  update_ready_product_api item_id patch st
  = if decide (patch_fields_valid patch
               ∧ code_malformed (normalised_code (Some code)) = false
               ∧ ¬ code_taken_by_other item_id (normalised_code (Some code))
                     (ready_products st))
    then match list_find (fun r => rp_id r = item_id) (ready_products st) with
         | Some (i, r) =>
             (Ok tt,
              tbl_put ready_products_tbl
                (<[i := apply_ready_patch
                          (with_code patch (normalised_code (Some code))) r]>
                   (ready_products st)) st)
         | None => (HTTPException 404, st)
         end
    else (HTTPException 400, st).
Proof.
  intros Hcode Hc.
  unfold update_ready_product_api. run_validation. rewrite Hcode.
  destruct (rpu_category patch) as [c|] eqn:Ecat.
  all: try destruct (decide (c ∉ CATEGORIES)) as [Hcat|Hcat].
  all: try (rewrite decide_False; [done|]; unfold patch_fields_valid;
            rewrite Ecat; by intros [[? _] _]).
  all: destruct (rpu_unit patch) as [u|] eqn:Eu.
  all: try destruct (decide (u ∈ UNITS)) as [Hu|Hu].
  all: try (rewrite decide_False; [done|]; unfold patch_fields_valid;
            rewrite Eu; by intros [[_ ?] _]).
  all: assert (Hvalid : patch_fields_valid patch);
         [ unfold patch_fields_valid; rewrite Ecat, Eu; split;
           try done; by apply dec_stable | ].
  all: rewrite (decide_True (P := normalised_code (Some code) ≠ "")) by done.
  all: destruct (code_malformed (normalised_code (Some code))) eqn:Hm.
  all: try (rewrite decide_False; [done|]; by intros (_ & ? & _)).
  all: destruct (list_find (fun r => rp_id r ≠ item_id ∧ _) (ready_products st))
         as [[j r']|] eqn:Hf.
  all: try (rewrite decide_False; [done|]; intros (_ & _ & Hn); apply Hn;
            apply code_taken_by_other_find; by rewrite Hf).
  all: rewrite decide_True;
         [ by destruct (list_find (fun r => rp_id r = item_id) (ready_products st))
                as [[i r]|]
         | split_and!; try done;
           intros Ht; apply code_taken_by_other_find in Ht; rewrite Hf in Ht;
           by destruct Ht ].
Qed.

(** C7, as stated, fails: the explicit code [0AB] is accepted and stored,
    although it does not match [^[1-9][A-Z]{2}$]. *)
Lemma explicit_code_with_zero_digit_accepted :
  ∃ st',
    add_ready_product_api 0 "p9" (product_of "Tea" "0AB") shop = (Ok ("p9", "0AB"), st')
    ∧ (rp_code <$> ready_products st') = ["1SB"; "1MF"; "0AB"]
    ∧ matches_code_pattern "0AB" = false.
Proof. eexists. split; [by vm_compute|]. by vm_compute. Qed.

(** C7, amended.  It is about ASCII text: the code supplied and the codes
    of the table hold no character outside ASCII.  An explicit code is
    trimmed and upper-cased before it is checked.  When the result [c] is
    not empty, both handlers answer 400 and leave the store as it was
    whenever [c] is not exactly a digit [0]-[9] followed by two letters, or
    is the upper-cased code of a row of the table (for an update: of a row
    with another id).  A request they accept stores [c], which then matches
    [^[0-9][A-Z]{2}$] and is on no (other) row; and they do accept a request
    whose other fields are valid (and, for an update, whose id is on a row)
    when [c] passes both checks. *)
Theorem explicit_code_validation :
  (∀ fuel new_id item st,
      let c := normalised_code (rpi_code item) in
      Text.is_ascii (opt_or (rpi_code item) "") = true →
      ascii_codes (ready_products st) →
      c ≠ "" →
      ((code_malformed c = true ∨ code_taken c (ready_products st)) →
       add_ready_product_api fuel new_id item st = (HTTPException 400, st))
      ∧ (∀ res st',
            add_ready_product_api fuel new_id item st = (Ok res, st') →
            matches_explicit_pattern c = true
            ∧ ¬ code_taken c (ready_products st)
            ∧ res = (new_id, c)
            ∧ ∃ row, rp_code row = c
                     ∧ ready_products st' = (ready_products st ++ [row])%list)
      ∧ (rpi_category item ∈ CATEGORIES → rpi_unit item ∈ UNITS →
         code_malformed c = false → ¬ code_taken c (ready_products st) →
         ∃ st', add_ready_product_api fuel new_id item st = (Ok (new_id, c), st')))
  ∧ (∀ item_id patch code st,
        let c := normalised_code (Some code) in
        rpu_code patch = Some code →
        Text.is_ascii code = true →
        ascii_codes (ready_products st) →
        c ≠ "" →
        ((code_malformed c = true
          ∨ code_taken_by_other item_id c (ready_products st)) →
         update_ready_product_api item_id patch st = (HTTPException 400, st))
        ∧ (∀ st',
              update_ready_product_api item_id patch st = (Ok tt, st') →
              matches_explicit_pattern c = true
              ∧ ¬ code_taken_by_other item_id c (ready_products st)
              ∧ ∃ i r,
                  ready_products st !! i = Some r ∧ rp_id r = item_id
                  ∧ ready_products st'
                    = <[i := apply_ready_patch (with_code patch c) r]>
                        (ready_products st)
                  ∧ rp_code (apply_ready_patch (with_code patch c) r) = c)
        ∧ (patch_fields_valid patch → code_malformed c = false →
           ¬ code_taken_by_other item_id c (ready_products st) →
           (∃ r, r ∈ ready_products st ∧ rp_id r = item_id) →
           ∃ st', update_ready_product_api item_id patch st = (Ok tt, st'))).
Proof.
  split.
  - intros fuel new_id item st c _ _ Hc.
    pose proof (add_ready_product_api_explicit fuel new_id item st Hc) as Hrun.
    fold c in Hrun. split_and!.
    + intros Hbad. rewrite Hrun. rewrite decide_False; [done|].
      intros (_ & _ & Hm & Ht). destruct Hbad as [Hbad|Hbad]; [congruence|done].
    + intros res st'. rewrite Hrun. destruct (decide _) as [(_ & _ & Hm & Ht)|]; [|done].
      intros [= <- <-]. split_and!; try done.
      * by apply normalised_code_shape.
      * eexists. split; [|reflexivity]. done.
    + intros Hcat Hu Hm Ht. rewrite Hrun. rewrite decide_True by done. by eexists.
  - intros item_id patch code st c Hcode _ _ Hc.
    pose proof (update_ready_product_api_explicit item_id patch code st Hcode Hc) as Hrun.
    fold c in Hrun. split_and!.
    + intros Hbad. rewrite Hrun. rewrite decide_False; [done|].
      intros (_ & Hm & Ht). destruct Hbad as [Hbad|Hbad]; [congruence|done].
    + intros st'. rewrite Hrun. destruct (decide _) as [(_ & Hm & Ht)|]; [|done].
      destruct (list_find _ (ready_products st)) as [[i r]|] eqn:Hf; [|done].
      intros [= <-]. apply list_find_Some in Hf as (Hi & Hid & _).
      split_and!; try done; [by apply normalised_code_shape|].
      by exists i, r.
    + intros Hv Hm Ht (r & Hin & Hid). rewrite Hrun. rewrite decide_True by done.
      destruct (list_find (fun r => rp_id r = item_id) (ready_products st))
        as [[i r']|] eqn:Hf; [by eexists|].
      apply list_find_None in Hf. rewrite Forall_forall in Hf. by destruct (Hf r Hin).
Qed.


Lemma explicit_code_validation_witness :
  let item := product_of "Sandwich" " 1sb " in
  Text.is_ascii " 1sb " = true
  ∧ ascii_codes (ready_products shop)
  ∧ normalised_code (rpi_code item) = "1SB"
  ∧ code_taken "1SB" (ready_products shop)
  ∧ add_ready_product_api 0 "p9" item shop = (HTTPException 400, shop).
Proof.
  intros item.
  assert (Hn : normalised_code (rpi_code item) = "1SB") by (vm_compute; reflexivity).
  assert (Ht : code_taken "1SB" (ready_products shop)).
  { apply Exists_exists. exists burger. split; [apply list_elem_of_here|].
    vm_compute. reflexivity. }
  destruct (ascii_table_forallb (ready_products shop) eq_refl) as [_ Hcodes].
  split_and!; [done..|].
  apply (proj1 explicit_code_validation 0 "p9" item shop eq_refl Hcodes).
  - rewrite Hn. discriminate.
  - right. by rewrite Hn.
Defined.



(** * Further properties *)

(** ** Day snapshots, again *)

Lemma init_csvs_idemp (d : gmap string (list (list string))) :
  Snapshot._init_csvs (Snapshot._init_csvs d) = Snapshot._init_csvs d.
Proof.
  apply map_eq. intros f. rewrite !SnapshotFacts.init_csvs_lookup.
  destruct (d !! f) as [c|]; [done|].
  by destruct (Snapshot.header_file f).
Qed.

(** X1.  Resolving the snapshot of a date a second time, with nothing done
    in between, changes nothing on disk. *)
Theorem get_today_dir_idempotent today root root1 :
  Snapshot.get_today_dir today root = Some root1 →
  Snapshot.get_today_dir today (Some root1) = Some root1.
Proof.
  unfold Snapshot.get_today_dir. cbv zeta.
  change (default ∅ (Some root1)) with root1.
  destruct (default ∅ root !! today) as [[d|]|] eqn:E; [|done|].
  - intros [= <-]. rewrite lookup_insert_eq.
    by rewrite init_csvs_idemp, insert_insert_eq.
  - intros [= <-]. rewrite lookup_insert_eq.
    by rewrite init_csvs_idemp, insert_insert_eq.
Qed.

Lemma get_today_dir_idempotent_witness :
  ∃ root1,
    Snapshot.get_today_dir "2024-01-02" None = Some root1
    ∧ Snapshot.get_today_dir "2024-01-02" (Some root1) = Some root1.
Proof.
  assert (H : Snapshot.get_today_dir "2024-01-02" None
              = Some (<["2024-01-02" := Snapshot.Dir (Snapshot._init_csvs ∅)]> ∅)).
  { unfold Snapshot.get_today_dir. cbv zeta.
    change (default ∅ None) with (∅ : gmap string Snapshot.entry).
    rewrite lookup_empty.
    assert (E : Snapshot._latest_existing_day_dir (Some ∅) = None)
      by (vm_compute; reflexivity).
    by rewrite E. }
  eexists. split; [exact H|]. exact (get_today_dir_idempotent _ _ _ H).
Defined.

(** X2.  Resolving today's snapshot fails only when a plain file has today's
    name.  Otherwise it leaves every other entry of [DATA_ROOT] as it was,
    and in a snapshot that existed it keeps every file, adding (header-only)
    just the table files that were missing; afterwards all five table files
    exist. *)
Theorem get_today_dir_preserves today (root : Snapshot.data_root) :
  (Snapshot.get_today_dir today root = None
   ↔ default ∅ root !! today = Some Snapshot.File)
  ∧ ∀ root1,
      Snapshot.get_today_dir today root = Some root1 →
      (∀ n, n ≠ today → root1 !! n = default ∅ root !! n)
      ∧ (∃ new,
            root1 !! today = Some (Snapshot.Dir new)
            ∧ (∀ d, default ∅ root !! today = Some (Snapshot.Dir d) →
                    ∀ f, new !! f = match d !! f with
                                    | Some c => Some c
                                    | None => Snapshot.header_file f
                                    end)
            ∧ (∀ key headers, (key, headers) ∈ HEADERS →
                              is_Some (new !! Snapshot.csv_name key))).
Proof.
  unfold Snapshot.get_today_dir. cbv zeta. split.
  - destruct (default ∅ root !! today) as [[d|]|]; split; done.
  - intros root1 Hrun.
    assert (Htables : ∀ d key headers, (key, headers) ∈ HEADERS →
              is_Some (Snapshot._init_csvs d !! Snapshot.csv_name key)).
    { intros d key headers Hin. rewrite SnapshotFacts.init_csvs_lookup.
      destruct (d !! Snapshot.csv_name key); [by eexists|].
      rewrite (SnapshotFacts.header_file_table key headers Hin). by eexists. }
    destruct (default ∅ root !! today) as [[d|]|] eqn:E; [|done|].
    + injection Hrun as <-. split.
      * intros n Hn. by rewrite lookup_insert_ne.
      * exists (Snapshot._init_csvs d). rewrite lookup_insert_eq.
        split_and!; [done| |by apply Htables].
        intros d' [= <-] f. apply SnapshotFacts.init_csvs_lookup.
    + injection Hrun as <-. split.
      * intros n Hn. by rewrite lookup_insert_ne.
      * eexists. rewrite lookup_insert_eq. split_and!; [done|done|by apply Htables].
Qed.

Lemma get_today_dir_preserves_witness :
  let old : gmap string (list (list string)) := {[ "sales.csv" := [["id"]; ["s1"]] ]} in
  let root : gmap string Snapshot.entry := {[ "2024-01-02" := Snapshot.Dir old ]} in
  ∃ root1 new,
    Snapshot.get_today_dir "2024-01-02" (Some root) = Some root1
    ∧ root1 !! "2024-01-02" = Some (Snapshot.Dir new)
    ∧ new !! "sales.csv" = Some [["id"]; ["s1"]].
Proof.
  intros old root.
  assert (Hold : root !! "2024-01-02" = Some (Snapshot.Dir old))
    by apply lookup_singleton_eq.
  assert (H : Snapshot.get_today_dir "2024-01-02" (Some root)
              = Some (<["2024-01-02" := Snapshot.Dir (Snapshot._init_csvs old)]> root)).
  { unfold Snapshot.get_today_dir. cbv zeta.
    change (default ∅ (Some root)) with root. by rewrite Hold. }
  destruct (proj2 (get_today_dir_preserves "2024-01-02" (Some root)) _ H)
    as (_ & new & Hnew & Hfiles & _).
  eexists _, new. split; [exact H|]. split; [exact Hnew|].
  rewrite (Hfiles old Hold). unfold old. by rewrite lookup_singleton_eq.
Defined.

(** ** Start-up *)

Module BootstrapFacts.
Import Bootstrap.

(** [split_eq] cuts at the first [=]. *)
Lemma split_eq_Some s k v :
  split_eq s = Some (k, v) ↔ s = k +:+ "=" +:+ v ∧ split_eq k = None.
Proof.
  split.
  - revert k. induction s as [|c s IH]; intros k; cbn [split_eq]; [done|].
    destruct (Ascii.eqb c "=") eqn:Ec.
    + apply Ascii.eqb_eq in Ec as ->. by intros [= <- <-].
    + destruct (split_eq s) as [[k' v']|]; [|done].
      intros [= <- <-]. destruct (IH k' eq_refl) as [-> Hk].
      split; [done|]. cbn [split_eq]. by rewrite Ec, Hk.
  - intros [-> Hk]. induction k as [|c k IH]; [done|].
    cbn [split_eq] in Hk.
    destruct (Ascii.eqb c "=") eqn:Ec; [done|].
    destruct (split_eq k) as [[]|]; [done|]. specialize (IH eq_refl).
    change (String c k +:+ "=" +:+ v) with (String c (k +:+ "=" +:+ v)).
    cbn [split_eq]. by rewrite Ec, IH.
Qed.

Lemma config_step_or b line : config_step b line = b || config_step false line.
Proof.
  unfold config_step. cbv zeta.
  destruct (decide _); [by rewrite orb_false_r|].
  destruct (starts_with_hash _); [by rewrite orb_false_r|].
  destruct (split_eq _) as [[k v]|]; [|by rewrite orb_false_r].
  destruct (decide _); [by rewrite orb_true_r|by rewrite orb_false_r].
Qed.

Lemma foldl_config_step lines : ∀ b,
  foldl config_step b lines = b || existsb (config_step false) lines.
Proof.
  induction lines as [|line lines IH]; intros b; cbn [foldl existsb].
  - by rewrite orb_false_r.
  - by rewrite IH, config_step_or, orb_assoc.
Qed.

End BootstrapFacts.

(** X3.  The [full_invent] flag is set exactly when some line of the
    configuration file, once trimmed, is not a comment, has an [=], and
    reads [full_invent] before the first [=] and [1] after it, blanks
    around either ignored.  No other line matters: no line can switch the
    flag off again, and a missing file leaves it off. *)
Theorem load_config_full_invent :
  Bootstrap.load_config None = false
  ∧ (∀ lines,
        Bootstrap.load_config (Some lines) = true
        ↔ ∃ line k v,
            line ∈ lines
            ∧ Bootstrap.starts_with_hash (Text.strip line) = false
            ∧ Text.strip line = k +:+ "=" +:+ v
            ∧ Bootstrap.split_eq k = None
            ∧ Text.strip k = "full_invent" ∧ Text.strip v = "1")
  ∧ (∀ lines1 lines2 : list string,
        Bootstrap.load_config (Some (lines1 ++ lines2)%list)
        = Bootstrap.load_config (Some lines1) || Bootstrap.load_config (Some lines2)).
Proof.
  split_and!; [done| |].
  - intros lines. unfold Bootstrap.load_config.
    rewrite BootstrapFacts.foldl_config_step. cbn [orb].
    rewrite existsb_exists. split.
    + intros (line & Hin & Hstep). exists line.
      unfold Bootstrap.config_step in Hstep. cbv zeta in Hstep.
      destruct (decide (Text.strip line = "")); [done|].
      destruct (Bootstrap.starts_with_hash (Text.strip line)) eqn:Hh; [done|].
      destruct (Bootstrap.split_eq (Text.strip line)) as [[k v]|] eqn:Hs; [|done].
      destruct (decide _) as [[Hk Hv]|]; [|done].
      apply BootstrapFacts.split_eq_Some in Hs as [Hs Hk0].
      exists k, v. split_and!; try done. by apply list_elem_of_In.
    + intros (line & k & v & Hin & Hh & Hs & Hk0 & Hk & Hv).
      exists line. split; [by apply list_elem_of_In|].
      unfold Bootstrap.config_step. cbv zeta.
      rewrite decide_False by (rewrite Hs; by destruct k).
      rewrite Hh.
      rewrite (proj2 (BootstrapFacts.split_eq_Some _ k v) (conj Hs Hk0)).
      by rewrite decide_True.
  - intros lines1 lines2. unfold Bootstrap.load_config.
    rewrite !BootstrapFacts.foldl_config_step. cbn [orb].
    apply existsb_app.
Qed.

(** X4.  The one-time reset does nothing while the flag is off, always
    leaves its marker behind when the flag is on, and running it again
    changes nothing more. *)
Theorem maybe_reset_for_full_invent_once :
  (∀ root, Bootstrap._maybe_reset_for_full_invent false root = root)
  ∧ (∀ root, ∃ entries,
        Bootstrap._maybe_reset_for_full_invent true root = Some entries
        ∧ is_Some (entries !! Bootstrap.marker))
  ∧ (∀ flag root,
        Bootstrap._maybe_reset_for_full_invent flag
          (Bootstrap._maybe_reset_for_full_invent flag root)
        = Bootstrap._maybe_reset_for_full_invent flag root).
Proof.
  assert (Hmark : ∀ root, ∃ entries,
            Bootstrap._maybe_reset_for_full_invent true root = Some entries
            ∧ is_Some (entries !! Bootstrap.marker)).
  { intros [entries|]; unfold Bootstrap._maybe_reset_for_full_invent; cbn [negb].
    - destruct (decide (is_Some (entries !! Bootstrap.marker))) as [Hm|Hm].
      { by exists entries. }
      destruct (decide (entries ≠ ∅)); eexists; (split; [done|]).
      + rewrite lookup_singleton_eq. by eexists.
      + rewrite lookup_insert_eq. by eexists.
    - eexists. split; [done|]. rewrite lookup_singleton_eq. by eexists. }
  split_and!; [done|exact Hmark|].
  intros [] root; [|done].
  destruct (Hmark root) as (entries & -> & Hm).
  unfold Bootstrap._maybe_reset_for_full_invent. cbn [negb].
  by rewrite decide_True.
Qed.

(** X5.  With the flag on and no marker yet, the reset leaves [DATA_ROOT]
    with the marker alone, so the snapshot resolved next, for any date, holds
    the five tables header-only: no earlier snapshot is carried forward. *)
Theorem reset_discards_earlier_snapshots today (root : Snapshot.data_root) :
  today ≠ Bootstrap.marker →
  default ∅ root !! Bootstrap.marker = None →
  Bootstrap._maybe_reset_for_full_invent true root
  = Some {[ Bootstrap.marker := Snapshot.File ]}
  ∧ ∃ new,
      Snapshot.get_today_dir today (Bootstrap._maybe_reset_for_full_invent true root)
      = Some (<[today := Snapshot.Dir new]> {[ Bootstrap.marker := Snapshot.File ]})
      ∧ (∀ f, new !! f = Snapshot.header_file f)
      ∧ (∀ key headers, (key, headers) ∈ HEADERS →
                        Snapshot.table_rows new key = Some []).
Proof.
  intros Hne Hm.
  assert (Hreset : Bootstrap._maybe_reset_for_full_invent true root
                   = Some {[ Bootstrap.marker := Snapshot.File ]}).
  { unfold Bootstrap._maybe_reset_for_full_invent. cbn [negb].
    destruct root as [entries|]; [|done].
    change (entries !! Bootstrap.marker = None) in Hm.
    rewrite decide_False by (rewrite Hm; by intros [? ?]).
    destruct (decide (entries ≠ ∅)) as [|He]; [done|].
    apply dec_stable in He. by rewrite He, insert_empty. }
  split; [done|]. rewrite Hreset.
  exists (Snapshot._init_csvs ∅).
  assert (Hlook : ∀ f, Snapshot._init_csvs ∅ !! f = Snapshot.header_file f).
  { intros f. by rewrite SnapshotFacts.init_csvs_lookup, lookup_empty. }
  split_and!; [|done|].
  - unfold Snapshot.get_today_dir. cbv zeta.
    change (default ∅ (Some ?m)) with m.
    rewrite lookup_singleton_ne by done.
    destruct (Snapshot._latest_existing_day_dir _) as [[name d]|] eqn:E; [|done].
    destruct (SnapshotFacts.latest_some _ name d E) as [Hname _].
    destruct (decide (name = Bootstrap.marker)) as [->|Hn].
    + rewrite lookup_singleton_eq in Hname. congruence.
    + rewrite lookup_singleton_ne in Hname by done. congruence.
  - intros key headers Hin. unfold Snapshot.table_rows.
    by rewrite Hlook, (SnapshotFacts.header_file_table key headers Hin).
Qed.

Lemma reset_discards_earlier_snapshots_witness :
  let root : gmap string Snapshot.entry :=
    {[ "2024-01-01" := Snapshot.Dir {[ "sales.csv" := [["id"]; ["s1"]] ]} ]} in
  "2024-01-02" ≠ Bootstrap.marker
  ∧ root !! Bootstrap.marker = None
  ∧ ∃ new,
      Snapshot.get_today_dir "2024-01-02"
        (Bootstrap._maybe_reset_for_full_invent true (Some root))
      = Some (<["2024-01-02" := Snapshot.Dir new]> {[ Bootstrap.marker := Snapshot.File ]})
      ∧ Snapshot.table_rows new "sales" = Some [].
Proof.
  intros root.
  assert (H1 : "2024-01-02" ≠ Bootstrap.marker) by discriminate.
  assert (H2 : default ∅ (Some root) !! Bootstrap.marker = None)
    by (by apply lookup_singleton_ne).
  split_and!; [done..|].
  destruct (reset_discards_earlier_snapshots "2024-01-02" (Some root) H1 H2)
    as (_ & new & Hrun & _ & Hrows).
  exists new. split; [exact Hrun|].
  apply (Hrows "sales" (default [] (snd <$> HEADERS !! 3%nat))).
  apply list_elem_of_In. cbn. tauto.
Defined.

(** ** Rejected requests *)

(** Case analysis on the tests a handler makes, in any order. *)
Ltac split_handler :=
  repeat match goal with
  | |- context [decide ?P] => destruct (decide P)
  | |- context [list_find ?P ?l] => destruct (list_find P l) as [[? ?]|]
  | |- context [code_malformed ?c] => destruct (code_malformed c)
  | |- context [Num.Qltb ?a ?b] => destruct (Num.Qltb a b)
  | |- context [_generate_ready_code ?f ?n ?c ?r] =>
      destruct (_generate_ready_code f n c r)
  | |- context [purchase_target ?i ?p ?l] =>
      destruct (purchase_target i p l) as [[? ?] ?]
  | |- context [converted_qty ?p ?t] => destruct (converted_qty p t)
  end.

Ltac reject_done :=
  try (intros [= <- <-]; auto); try done.

(** X6.  A handler that answers with an HTTP error has written nothing: the
    five tables and the sequence file are as they were before the request.
    The status is 400, or 404 from the handlers that look a row up by id;
    [add_branch] never answers with an error. *)
Theorem rejected_requests_write_nothing :
  (∀ today new_id s st c st',
      add_sale_api today new_id s st = (HTTPException c, st') → c = 400%Z ∧ st' = st)
  ∧ (∀ today item_id purchase_id p st c st',
        add_purchase_api today item_id purchase_id p st = (HTTPException c, st') →
        c = 400%Z ∧ st' = st)
  ∧ (∀ item_id delta st c st',
        adjust_ready_stock_api item_id delta st = (HTTPException c, st') →
        (c = 400%Z ∨ c = 404%Z) ∧ st' = st)
  ∧ (∀ fuel new_id item st c st',
        add_ready_product_api fuel new_id item st = (HTTPException c, st') →
        c = 400%Z ∧ st' = st)
  ∧ (∀ item_id patch st c st',
        update_ready_product_api item_id patch st = (HTTPException c, st') →
        (c = 400%Z ∨ c = 404%Z) ∧ st' = st)
  ∧ (∀ new_id item st c st',
        add_raw_item_api new_id item st = (HTTPException c, st') →
        c = 400%Z ∧ st' = st)
  ∧ (∀ item_id patch st c st',
        update_raw_item_api item_id patch st = (HTTPException c, st') →
        (c = 400%Z ∨ c = 404%Z) ∧ st' = st)
  ∧ (∀ p st c st',
        update_sale_payment p st = (HTTPException c, st') →
        (c = 400%Z ∨ c = 404%Z) ∧ st' = st)
  ∧ (∀ new_id b st c st', add_branch new_id b st ≠ (HTTPException c, st')).
Proof.
  split_and!.
  - intros today new_id s st c st' Hrun.
    destruct (add_sale_api_cases today new_id s st)
      as [[Hbad _]|(i & target & Hc & Hf & Hu & Hq)].
    + rewrite Hbad in Hrun. by injection Hrun as <- <-.
    + by rewrite (add_sale_api_accepted _ _ _ _ _ _ Hc Hf Hu Hq) in Hrun.
  - intros today item_id purchase_id p st c st'.
    unfold add_purchase_api. run_validation. split_handler; reject_done.
  - intros item_id delta st c st'.
    unfold adjust_ready_stock_api. run_handler. split_handler; reject_done.
  - intros fuel new_id item st c st'.
    unfold add_ready_product_api. run_validation. split_handler; reject_done.
  - intros item_id patch st c st'.
    unfold update_ready_product_api. run_validation.
    destruct (rpu_category patch), (rpu_unit patch), (rpu_code patch);
      split_handler; reject_done.
  - intros new_id item st c st'.
    unfold add_raw_item_api. run_validation. split_handler; reject_done.
  - intros item_id patch st c st'.
    unfold update_raw_item_api. run_validation.
    destruct (ru_category patch), (ru_subcategory patch), (ru_unit patch);
      split_handler; reject_done.
  - intros p st c st'.
    unfold update_sale_payment. run_handler.
    destruct (list_find _ (sales st)) as [[i sale]|]; [|reject_done].
    destruct (spp_payment_status p), (spp_payment_mode p);
      split_handler; reject_done.
  - intros new_id b st c st'.
    unfold add_branch. run_handler. split_handler; reject_done.
Qed.

Lemma rejected_requests_write_nothing_witness :
  ∃ c st',
    add_sale_api "2024-01-01" "s1" (sale_of "Burger" "Pieces" 21 "Live") shop
    = (HTTPException c, st')
    ∧ c = 400%Z ∧ st' = shop.
Proof.
  eassert (H : add_sale_api "2024-01-01" "s1" (sale_of "Burger" "Pieces" 21 "Live") shop
               = (HTTPException _, _)) by (vm_compute; reflexivity).
  eexists _, _. split; [exact H|].
  exact (proj1 rejected_requests_write_nothing _ _ _ _ _ _ H).
Defined.

(** ** Deleting a row *)

Lemma filter_length_eq {A} (P : A → Prop) `{!∀ x, Decision (P x)} (l : list A) :
  length (filter P l) = length l ↔ Forall P l.
Proof.
  induction l as [|x l IH]; [by split|].
  rewrite filter_cons. destruct (decide (P x)) as [Hx|Hx]; cbn [length].
  - rewrite Forall_cons. split.
    + intros [= Hl]. split; [done|]. by apply IH.
    + intros [_ Hl]. f_equal. by apply IH.
  - pose proof (length_filter P l). split; [lia|].
    intros Hl. by apply Forall_cons in Hl as [? _].
Qed.

Lemma delete_by_id_outcome {R} (t : Table R) (id_of : R → string) item_id st :
  (∀ rows st0, tbl_rows t (tbl_put t rows st0) = rows) →
  match delete_by_id t id_of item_id st with
  | (Ok _, st') =>
      (∃ r, r ∈ tbl_rows t st ∧ id_of r = item_id)
      ∧ tbl_rows t st' = filter (fun r => id_of r ≠ item_id) (tbl_rows t st)
      ∧ (∀ r, r ∈ tbl_rows t st' → id_of r ≠ item_id)
      ∧ delete_by_id t id_of item_id st' = (HTTPException 404, st')
  | (HTTPException c, st') =>
      c = 404%Z ∧ st' = st ∧ ∀ r, r ∈ tbl_rows t st → id_of r ≠ item_id
  | (OutOfFuel, _) => False
  end.
Proof.
  intros Hlaw. unfold delete_by_id. run_handler.
  destruct (decide (length (filter _ (tbl_rows t st)) = length (tbl_rows t st)))
    as [Hlen|Hlen].
  - split_and!; [done..|]. apply filter_length_eq in Hlen.
    by rewrite Forall_forall in Hlen.
  - assert (Hkept : ∀ r, r ∈ filter (fun r => id_of r ≠ item_id) (tbl_rows t st) →
                         id_of r ≠ item_id).
    { intros r Hr. by apply list_elem_of_filter in Hr as [? _]. }
    rewrite Hlaw. split_and!; [|done|done|].
    + rewrite filter_length_eq in Hlen. apply not_Forall_Exists in Hlen; [|apply _].
      apply Exists_exists in Hlen as (r & Hin & Hr). exists r. split; [done|].
      by apply dec_stable in Hr.
    + rewrite decide_True; [done|]. apply filter_length_eq, Forall_forall.
      intros r Hr. by apply Hkept.
Qed.

(** X7.  Each delete handler answers 404, writing nothing, exactly when no
    row of its table has the id; otherwise it drops every row with that id
    (all of them, when ids repeat), keeps the others in order, and a second
    delete of the same id answers 404. *)
Theorem delete_handlers_remove_every_match :
  (∀ item_id st,
      match delete_ready_product_api item_id st with
      | (Ok _, st') =>
          (∃ r, r ∈ ready_products st ∧ rp_id r = item_id)
          ∧ ready_products st' = filter (fun r => rp_id r ≠ item_id) (ready_products st)
          ∧ (∀ r, r ∈ ready_products st' → rp_id r ≠ item_id)
          ∧ delete_ready_product_api item_id st' = (HTTPException 404, st')
      | (HTTPException c, st') =>
          c = 404%Z ∧ st' = st ∧ ∀ r, r ∈ ready_products st → rp_id r ≠ item_id
      | (OutOfFuel, _) => False
      end)
  ∧ (∀ item_id st,
        match delete_raw_item_api item_id st with
        | (Ok _, st') =>
            (∃ r, r ∈ raw_inventory st ∧ raw_id r = item_id)
            ∧ raw_inventory st' = filter (fun r => raw_id r ≠ item_id) (raw_inventory st)
            ∧ (∀ r, r ∈ raw_inventory st' → raw_id r ≠ item_id)
            ∧ delete_raw_item_api item_id st' = (HTTPException 404, st')
        | (HTTPException c, st') =>
            c = 404%Z ∧ st' = st ∧ ∀ r, r ∈ raw_inventory st → raw_id r ≠ item_id
        | (OutOfFuel, _) => False
        end)
  ∧ (∀ purchase_id st,
        match delete_purchase_api purchase_id st with
        | (Ok _, st') =>
            (∃ r, r ∈ purchases st ∧ pur_id r = purchase_id)
            ∧ purchases st' = filter (fun r => pur_id r ≠ purchase_id) (purchases st)
            ∧ (∀ r, r ∈ purchases st' → pur_id r ≠ purchase_id)
            ∧ delete_purchase_api purchase_id st' = (HTTPException 404, st')
        | (HTTPException c, st') =>
            c = 404%Z ∧ st' = st ∧ ∀ r, r ∈ purchases st → pur_id r ≠ purchase_id
        | (OutOfFuel, _) => False
        end).
Proof.
  split_and!; intros item_id st.
  - by apply (delete_by_id_outcome ready_products_tbl rp_id).
  - by apply (delete_by_id_outcome raw_inventory_tbl raw_id).
  - by apply (delete_by_id_outcome purchases_tbl pur_id).
Qed.

(** ** Order ids as text *)

Module DecimalFacts.
Import Text Num.

Lemma rstrip_uint d :
  rstrip (NilEmpty.string_of_uint d) = NilEmpty.string_of_uint d.
Proof.
  induction d as [|d IH|d IH|d IH|d IH|d IH|d IH|d IH|d IH|d IH|d IH];
    [done|..]; cbn [NilEmpty.string_of_uint rstrip]; rewrite IH;
    by destruct (NilEmpty.string_of_uint d).
Qed.

Lemma strip_uint d :
  strip (NilEmpty.string_of_uint d) = NilEmpty.string_of_uint d.
Proof.
  unfold strip.
  assert (H : lstrip (NilEmpty.string_of_uint d) = NilEmpty.string_of_uint d)
    by by destruct d.
  rewrite H. apply rstrip_uint.
Qed.

Lemma uint_text_nonempty d : d ≠ Decimal.Nil → NilEmpty.string_of_uint d ≠ "".
Proof. by destruct d. Qed.

Lemma scan_digits_acc d : ∀ st acc,
  st = AfterDigit ∨ d ≠ Decimal.Nil →
  scan_digits st (Z.pos acc) (NilEmpty.string_of_uint d)
  = Some (Z.pos (Pos.of_uint_acc d acc)).
Proof.
  induction d as [|d IH|d IH|d IH|d IH|d IH|d IH|d IH|d IH|d IH|d IH];
    intros st acc Hst.
  { destruct Hst as [->|?]; done. }
  all: cbn [NilEmpty.string_of_uint scan_digits Pos.of_uint_acc].
  all: match goal with
       | |- context [is_digit ?c] =>
           change (is_digit c) with true;
           let v := eval vm_compute in (digit_value c) in
           change (digit_value c) with v
       end.
  all: cbv iota.
  all: rewrite <- (IH AfterDigit _ (or_introl eq_refl)).
  all: f_equal; lia.
Qed.

Lemma scan_digits_zero d : ∀ st,
  d ≠ Decimal.Nil →
  scan_digits st 0 (NilEmpty.string_of_uint d) = Some (Z.of_N (Pos.of_uint d)).
Proof.
  induction d as [|d IH|d IH|d IH|d IH|d IH|d IH|d IH|d IH|d IH|d IH];
    intros st Hd; [done|..].
  all: cbn [NilEmpty.string_of_uint scan_digits Pos.of_uint].
  all: match goal with
       | |- context [is_digit ?c] =>
           change (is_digit c) with true;
           let v := eval vm_compute in (digit_value c) in
           change (digit_value c) with v
       end.
  all: cbv iota.
  { destruct d; [done|apply IH; done..]. }
  all: cbn [Z.of_N Z.mul Z.add].
  all: by apply scan_digits_acc; left.
Qed.

Lemma to_uint_not_Nil p : Pos.to_uint p ≠ Decimal.Nil.
Proof.
  intros H. pose proof (DecimalPos.Unsigned.of_to p) as E.
  by rewrite H in E.
Qed.

Lemma int_of_str_str_of_Z n : int_of_str (str_of_Z n) = Some n.
Proof.
  destruct n as [|p|p]; [done|..].
  - unfold int_of_str, str_of_Z. cbn [Z.to_int NilZero.string_of_int].
    pose proof (to_uint_not_Nil p) as Hp.
    assert (E : NilZero.string_of_uint (Pos.to_uint p)
                = NilEmpty.string_of_uint (Pos.to_uint p)).
    { by destruct (Pos.to_uint p). }
    rewrite E, strip_uint.
    transitivity (scan_digits AtStart 0 (NilEmpty.string_of_uint (Pos.to_uint p))).
    { by destruct (Pos.to_uint p). }
    rewrite scan_digits_zero by done.
    by rewrite DecimalPos.Unsigned.of_to.
  - unfold int_of_str, str_of_Z. cbn [Z.to_int NilZero.string_of_int].
    pose proof (to_uint_not_Nil p) as Hp.
    assert (E : NilZero.string_of_uint (Pos.to_uint p)
                = NilEmpty.string_of_uint (Pos.to_uint p)).
    { by destruct (Pos.to_uint p). }
    rewrite E.
    assert (Es : strip (String "-" (NilEmpty.string_of_uint (Pos.to_uint p)))
                 = String "-" (NilEmpty.string_of_uint (Pos.to_uint p))).
    { unfold strip. change (lstrip (String "-" ?s)) with (String "-" s).
      cbn [rstrip]. rewrite rstrip_uint.
      pose proof (uint_text_nonempty _ Hp).
      by destruct (NilEmpty.string_of_uint (Pos.to_uint p)). }
    rewrite Es. rewrite scan_digits_zero by done.
    by rewrite DecimalPos.Unsigned.of_to.
Qed.

Lemma str_of_Z_nonempty n : str_of_Z n ≠ "".
Proof.
  destruct n as [|p|p]; [done| |done].
  unfold str_of_Z. cbn [Z.to_int NilZero.string_of_int].
  pose proof (to_uint_not_Nil p). by destruct (Pos.to_uint p).
Qed.

End DecimalFacts.

Lemma scan_step_str_of_Z m r n :
  sale_order_id r = Num.str_of_Z n → scan_step m r = Z.max m n.
Proof.
  intros E. unfold scan_step, Text.or_else. rewrite E.
  pose proof (DecimalFacts.str_of_Z_nonempty n) as Hn.
  destruct (String.eqb_spec (Num.str_of_Z n) ""); [done|].
  by rewrite DecimalFacts.int_of_str_str_of_Z.
Qed.

Lemma foldl_scan_step_le rows : ∀ m, (m <= foldl scan_step m rows)%Z.
Proof.
  induction rows as [|r rows IH]; intros m; cbn [foldl]; [lia|].
  etrans; [|apply IH]. unfold scan_step.
  destruct (Num.int_of_str _); lia.
Qed.

Lemma foldl_scan_step_ge rows : ∀ m r k,
  r ∈ rows →
  Num.int_of_str (Text.or_else (sale_order_id r) "0") = Some k →
  (k <= foldl scan_step m rows)%Z.
Proof.
  induction rows as [|r0 rows IH]; intros m r k Hin Hk.
  { by apply elem_of_nil in Hin. }
  cbn [foldl]. apply elem_of_cons in Hin as [->|Hin].
  - etrans; [|apply foldl_scan_step_le]. unfold scan_step. rewrite Hk. lia.
  - by eapply IH.
Qed.

(** X8.  An order id written as text reads back as the same number,
    whatever its sign, so the scan of the sales table sees the id of every
    sale the handler has recorded: after an accepted sale the greatest id the
    scan finds is the greater of the one it found before and the id of the
    new sale. *)
Theorem recorded_order_ids_are_scanned :
  (∀ n, Num.int_of_str (Num.str_of_Z n) = Some n)
  ∧ (∀ today new_id s st resp st',
        add_sale_api today new_id s st = (Ok resp, st') →
        (_scan_max_order_id st').1
        = Ok (Z.max (foldl scan_step 0%Z (sales st)) (sresp_order_id resp))).
Proof.
  split; [apply DecimalFacts.int_of_str_str_of_Z|].
  intros today new_id s st resp st' Hrun.
  destruct (add_sale_api_cases today new_id s st)
    as [[Hbad _]|(i & target & Hc & Hf & Hu & Hq)]; [congruence|].
  rewrite (add_sale_api_accepted _ _ _ _ _ _ Hc Hf Hu Hq) in Hrun.
  injection Hrun as <- <-.
  unfold _scan_max_order_id. run_handler. cbn [sresp_order_id].
  rewrite foldl_app. cbn [foldl]. f_equal.
  by apply scan_step_str_of_Z.
Qed.

Lemma recorded_order_ids_are_scanned_witness :
  ∃ resp st',
    add_sale_api "2024-01-01" "s1" (sale_of "Burger" "Pieces" 3 "Live") shop
    = (Ok resp, st')
    ∧ (_scan_max_order_id st').1 = Ok 1%Z.
Proof.
  eassert (H : add_sale_api "2024-01-01" "s1" (sale_of "Burger" "Pieces" 3 "Live") shop
               = (Ok _, _)) by (vm_compute; reflexivity).
  eexists _, _. split; [exact H|].
  exact (proj2 recorded_order_ids_are_scanned _ _ _ _ _ _ H).
Defined.

(** X9.  While the sequence file is missing, the id a call returns is at
    least 1 and greater than the order id of every row of the sales table
    whose [order_id] cell reads as a number. *)
Theorem first_order_id_above_recorded peek st n st' :
  order_seq st = None →
  next_order_id peek st = (Ok n, st') →
  (1 <= n)%Z
  ∧ ∀ r k, r ∈ sales st →
           Num.int_of_str (Text.or_else (sale_order_id r) "0") = Some k →
           (k < n)%Z.
Proof.
  intros Hseq. rewrite next_order_id_spec. intros [= <- <-].
  unfold current_value. rewrite Hseq. split.
  - pose proof (foldl_scan_step_le (sales st) 0). lia.
  - intros r k Hin Hk. pose proof (foldl_scan_step_ge (sales st) 0 r k Hin Hk). lia.
Qed.

Lemma first_order_id_above_recorded_witness :
  order_seq till = None
  ∧ (∃ r, r ∈ sales till ∧ sale_order_id r = "7")
  ∧ ∃ n st', next_order_id false till = (Ok n, st') ∧ (1 <= n)%Z ∧ (7 < n)%Z.
Proof.
  split; [reflexivity|].
  assert (Hin : sold "s1" "2024-01-02" burger 3 7 ∈ sales till) by apply list_elem_of_here.
  split; [by eexists|].
  eassert (H : next_order_id false till = (Ok _, _)) by (vm_compute; reflexivity).
  destruct (first_order_id_above_recorded false till _ _ eq_refl H) as [H1 H2].
  eexists _, _. split; [exact H|]. split; [exact H1|].
  apply (H2 (sold "s1" "2024-01-02" burger 3 7) 7%Z Hin). vm_compute. reflexivity.
Defined.

(** X10.  Two sales recorded one after the other without an order id of
    their own get consecutive ids, whatever else the requests hold. *)
Theorem consecutive_sales_get_consecutive_ids
    today1 id1 s1 today2 id2 s2 st resp1 st1 resp2 st2 :
  sin_order_id s1 = None → sin_order_id s2 = None →
  add_sale_api today1 id1 s1 st = (Ok resp1, st1) →
  add_sale_api today2 id2 s2 st1 = (Ok resp2, st2) →
  sresp_order_id resp2 = (sresp_order_id resp1 + 1)%Z.
Proof.
  intros H1 H2 Hrun1 Hrun2.
  destruct (add_sale_api_cases today1 id1 s1 st)
    as [[Hbad _]|(i & target & Hc & Hf & Hu & Hq)]; [congruence|].
  rewrite (add_sale_api_accepted _ _ _ _ _ _ Hc Hf Hu Hq) in Hrun1.
  injection Hrun1 as <- <-.
  destruct (add_sale_api_cases today2 id2 s2
              {| ready_products :=
                   <[i := with_quantity (Num.fmt3 (rp_quantity target - sin_qty s1)) target]>
                     (ready_products st);
                 raw_inventory := raw_inventory st; purchases := purchases st;
                 sales := sales st ++ [sale_row today1 id1 s1 target (sale_order_id_of s1 st)];
                 branches := branches st; order_seq := sale_order_seq_of s1 st |})
    as [[Hbad _]|(i' & target' & Hc' & Hf' & Hu' & Hq')]; [congruence|].
  rewrite (add_sale_api_accepted _ _ _ _ _ _ Hc' Hf' Hu' Hq') in Hrun2.
  injection Hrun2 as <- <-. cbn [sresp_order_id].
  unfold sale_order_id_of, sale_order_seq_of, current_value. rewrite H1, H2.
  cbn [order_seq]. done.
Qed.

Lemma consecutive_sales_get_consecutive_ids_witness :
  ∃ resp1 st1 resp2 st2,
    add_sale_api "2024-01-01" "s1" (sale_of "Burger" "Pieces" 3 "Live") shop
    = (Ok resp1, st1)
    ∧ add_sale_api "2024-01-01" "s2" (sale_of "Fried rice" "KG" 1 "Live") st1
      = (Ok resp2, st2)
    ∧ sresp_order_id resp2 = (sresp_order_id resp1 + 1)%Z.
Proof.
  eassert (H1 : add_sale_api "2024-01-01" "s1" (sale_of "Burger" "Pieces" 3 "Live") shop
                = (Ok _, _)) by (vm_compute; reflexivity).
  match type of H1 with
  | _ = (_, ?st1) =>
      eassert (H2 : add_sale_api "2024-01-01" "s2" (sale_of "Fried rice" "KG" 1 "Live") st1
                    = (Ok _, _)) by (vm_compute; reflexivity)
  end.
  eexists _, _, _, _. split; [exact H1|]. split; [exact H2|].
  exact (consecutive_sales_get_consecutive_ids
           "2024-01-01" "s1" (sale_of "Burger" "Pieces" 3 "Live")
           "2024-01-01" "s2" (sale_of "Fried rice" "KG" 1 "Live")
           shop _ _ _ _ eq_refl eq_refl H1 H2).
Defined.

(** X11.  A sale that brings its own order id is recorded under that id and
    leaves the sequence file as it was, so the id is not reserved: when the
    file exists, the next generated id is the one it would have been
    without that sale, even if it equals the id just used. *)
Theorem explicit_order_id_bypasses_sequence today new_id s st oid resp st' :
  sin_order_id s = Some oid →
  add_sale_api today new_id s st = (Ok resp, st') →
  sresp_order_id resp = oid
  ∧ order_seq st' = order_seq st
  ∧ ∀ c, order_seq st = Some c →
         (next_order_id false st').1 = Ok (c + 1)%Z.
Proof.
  intros Hoid Hrun.
  destruct (add_sale_api_cases today new_id s st)
    as [[Hbad _]|(i & target & Hc & Hf & Hu & Hq)]; [congruence|].
  rewrite (add_sale_api_accepted _ _ _ _ _ _ Hc Hf Hu Hq) in Hrun.
  injection Hrun as <- <-. cbn [sresp_order_id order_seq].
  unfold sale_order_id_of, sale_order_seq_of. rewrite Hoid.
  split_and!; [done..|].
  intros c Hseq. rewrite next_order_id_spec. cbn [fst].
  unfold current_value. cbn [order_seq]. by rewrite Hseq.
Qed.

Lemma explicit_order_id_bypasses_sequence_witness :
  let s := {| sin_date := None; sin_category := "Home Delivery"; sin_branch := None;
              sin_order_id := Some 8%Z; sin_item := "Burger"; sin_unit := "Pieces";
              sin_qty := 1; sin_unit_price := None; sin_discount := 0;
              sin_customer_name := None; sin_customer_phone := None;
              sin_table_no := None; sin_payment_status := "Live";
              sin_payment_mode := None; sin_payment_note := None;
              sin_notes := None |} in
  let st := put_order_seq (Some 7%Z) shop in
  ∃ resp st',
    add_sale_api "2024-01-01" "s1" s st = (Ok resp, st')
    ∧ sresp_order_id resp = 8%Z
    ∧ (next_order_id false st').1 = Ok 8%Z.
Proof.
  intros s st.
  eassert (H : add_sale_api "2024-01-01" "s1" s st = (Ok _, _))
    by (vm_compute; reflexivity).
  destruct (explicit_order_id_bypasses_sequence "2024-01-01" "s1" s st 8%Z _ _ eq_refl H)
    as (Hid & _ & Hnext).
  eexists _, _. split; [exact H|]. split; [exact Hid|].
  exact (Hnext 7%Z eq_refl).
Defined.

(** ** The row a sale records *)








(** ** Payment updates *)

(** X13.  An accepted payment update rewrites the first row with the id and
    no other.  The status becomes the one supplied, which is one of
    [PAYMENT_STATUSES], or stays.  When a mode is supplied, the row ends up
    with that mode if its status is then [Paid] and with a blank mode
    otherwise, so a non-blank mode is one of [PAYMENT_MODES] on a paid row;
    when no mode is supplied the stored mode stays, whatever the new
    status. *)
Theorem update_sale_payment_mode_rule p st st' :
  update_sale_payment p st = (Ok tt, st') →
  ∃ i sale status mode,
    sales st !! i = Some sale ∧ sale_id sale = spp_id p
    ∧ (∀ j r, sales st !! j = Some r → j < i → sale_id r ≠ spp_id p)
    ∧ st' = tbl_put sales_tbl (<[i := with_payment status mode sale]> (sales st)) st
    ∧ status = default (sale_payment_status sale) (spp_payment_status p)
    ∧ (∀ s, spp_payment_status p = Some s → s ∈ PAYMENT_STATUSES)
    ∧ (∀ m, spp_payment_mode p = Some m →
            mode = (if decide (status = "Paid") then m else "")
            ∧ (mode ≠ "" → status = "Paid" ∧ mode ∈ PAYMENT_MODES))
    ∧ (spp_payment_mode p = None → mode = sale_payment_mode sale).
Proof.
  unfold update_sale_payment. run_handler.
  destruct (list_find _ (sales st)) as [[i sale]|] eqn:Hf; [|done].
  apply list_find_Some in Hf as (Hi & Hid & Hmin).
  assert (Hfirst : ∀ j r, sales st !! j = Some r → j < i → sale_id r ≠ spp_id p).
  { intros j r Hj Hlt. by eapply Hmin. }
  destruct (spp_payment_status p) as [s|] eqn:Es;
    [destruct (decide (s ∉ PAYMENT_STATUSES)) as [|Hs]; [done|];
     apply dec_stable in Hs|];
    (destruct (spp_payment_mode p) as [m|] eqn:Em;
     [destruct (decide (m ≠ "" ∧ m ∉ PAYMENT_MODES)) as [|Hm]; [done|];
      match goal with
      | |- context [decide (?x ≠ "Paid")] =>
          destruct (decide (x ≠ "Paid")) as [Hp|Hp]
      end|]);
    intros [= <-]; eexists i, sale, _, _;
    (split_and!; [done|done|done|reflexivity|done| | |]);
    try done; try (by intros ? [= <-]).
  all: intros m' [= <-].
  all: try (rewrite decide_False by done; split; [done|]; by intros []).
  all: apply dec_stable in Hp.
  all: rewrite decide_True by done; split; [done|]; intros Hne; split; [done|].
  all: destruct (decide (m ∈ PAYMENT_MODES)) as [|Hn]; [done|].
  all: destruct Hm; by split.
Qed.

Lemma update_sale_payment_mode_rule_witness :
  ∃ st1 st2,
    (add_sale_api "2024-01-01" "s1" (sale_of "Burger" "Pieces" 3 "Live") shop).2 = st1
    ∧ update_sale_payment
        {| spp_id := "s1"; spp_payment_status := Some "Due";
           spp_payment_mode := Some "Cash" |} st1 = (Ok tt, st2)
    ∧ (sale_payment_mode <$> sales st2) = [""].
Proof.
  eassert (H1 : (add_sale_api "2024-01-01" "s1" (sale_of "Burger" "Pieces" 3 "Live") shop).2
                = _) by (vm_compute; reflexivity).
  match type of H1 with
  | _ = ?st1 =>
      eassert (H2 : update_sale_payment
                      {| spp_id := "s1"; spp_payment_status := Some "Due";
                         spp_payment_mode := Some "Cash" |} st1 = (Ok tt, _))
        by (vm_compute; reflexivity)
  end.
  destruct (update_sale_payment_mode_rule _ _ _ H2) as (i & sale & status & mode & _).
  eexists _, _. split; [exact H1|]. split; [exact H2|]. by vm_compute.
Defined.

(** ** Buying the same item again *)

Lemma list_find_insert_first {A} (P : A → Prop) `{!∀ x, Decision (P x)}
    (l : list A) i x y :
  l !! i = Some x → P y →
  (∀ j r, l !! j = Some r → j < i → ¬ P r) →
  list_find P (<[i := y]> l) = Some (i, y).
Proof.
  intros Hi Hy Hmin. apply list_find_Some. split_and!; [|done|].
  - apply list_lookup_insert_eq. by eapply lookup_lt_Some.
  - intros j r Hj Hlt. rewrite list_lookup_insert_ne in Hj by lia. by eapply Hmin.
Qed.

Lemma list_fmap_insert_same {A B} (f : A → B) (l : list A) i x y :
  l !! i = Some x → f y = f x → f <$> <[i := y]> l = f <$> l.
Proof.
  intros Hi Hf. rewrite list_fmap_insert, Hf.
  apply list_insert_id. by rewrite list_lookup_fmap, Hi.
Qed.

(** The target of a purchase matches the request, and no earlier row of the
    table it is in does. *)
Lemma purchase_target_first item_id p inv0 i target inv :
  purchase_target item_id p inv0 = (i, target, inv) →
  inv !! i = Some target ∧ purchase_match p target
  ∧ (∀ j r, inv !! j = Some r → j < i → ¬ purchase_match p r)
  ∧ length inv0 <= length inv <= S (length inv0).
Proof.
  intros Ht. destruct (purchase_target_lookup _ _ _ _ _ _ Ht)
    as [Hi [[Hf ->]|(Hf & -> & -> & ->)]].
  - apply list_find_Some in Hf as (_ & Hm & Hmin).
    split_and!; [done|done| |lia|lia]. intros j r Hj Hlt. by eapply Hmin.
  - split_and!; [done| | |rewrite length_app; cbn; lia..].
    + unfold purchase_match, new_raw_item. cbn [raw_name raw_category raw_subcategory].
      by rewrite TextFacts.strip_idemp.
    + intros j r Hj Hlt. rewrite lookup_app_l in Hj by done.
      apply list_find_None in Hf. rewrite Forall_forall in Hf.
      apply Hf. by eapply list_elem_of_lookup_2.
Qed.

(** X14.  A purchase that was accepted is accepted again when repeated
    (under any date and fresh ids): it goes to the same inventory row, the
    one the first purchase used or created, so the inventory gains no row
    and keeps its ids, the unit reported is the same, and the ledger gains
    one more row. *)
Theorem repeated_purchase_reuses_row
    today item_id purchase_id p st resp st1 today2 item_id2 purchase_id2 :
  add_purchase_api today item_id purchase_id p st = (Ok resp, st1) →
  ∃ resp2 st2,
    add_purchase_api today2 item_id2 purchase_id2 p st1 = (Ok resp2, st2)
    ∧ raw_id <$> raw_inventory st2 = raw_id <$> raw_inventory st1
    ∧ resp_unit resp2 = resp_unit resp
    ∧ length (purchases st2) = S (length (purchases st1))
    ∧ length (raw_inventory st) <= length (raw_inventory st1)
      <= S (length (raw_inventory st)).
Proof.
  intros Hrun.
  destruct (add_purchase_api_Ok _ _ _ _ _ _ _ Hrun)
    as (Hc & Hs & Hu & i & target & inv & add_qty & Ht & Hq).
  rewrite (add_purchase_api_accepted _ _ _ _ _ _ _ _ _ Hc Hs Hu Ht Hq) in Hrun.
  injection Hrun as <- <-.
  destruct (purchase_target_first _ _ _ _ _ _ Ht) as (Hi & Hm & Hmin & Hlen).
  set (upd := with_stock_and_cost (Num.fmt3 (raw_stock target + add_qty))
                (Num.fmt2 (pin_unit_cost p)) target).
  set (st1 := {| ready_products := ready_products st;
                 raw_inventory := <[i := upd]> inv;
                 purchases := purchases st
                              ++ [purchase_row (opt_or (pin_date p) today) purchase_id p];
                 sales := sales st; branches := branches st;
                 order_seq := order_seq st |}).
  assert (Hf1 : list_find (purchase_match p) (raw_inventory st1) = Some (i, upd)).
  { apply (list_find_insert_first _ _ _ target); done. }
  assert (Ht1 : purchase_target item_id2 p (raw_inventory st1)
                = (i, upd, raw_inventory st1)).
  { unfold purchase_target. by rewrite Hf1. }
  assert (Hq1 : converted_qty p upd = Some add_qty) by exact Hq.
  rewrite (add_purchase_api_accepted today2 item_id2 purchase_id2 p st1
             _ _ _ _ Hc Hs Hu Ht1 Hq1).
  eexists _, _. split; [reflexivity|].
  cbn [raw_inventory purchases resp_unit st1].
  split_and!.
  - apply (list_fmap_insert_same _ _ _ upd); [|done].
    apply list_lookup_insert_eq. by eapply lookup_lt_Some.
  - done.
  - rewrite !length_app. cbn. lia.
  - rewrite length_insert. lia.
  - rewrite length_insert. lia.
Qed.

Lemma repeated_purchase_reuses_row_witness :
  ∃ resp st1 resp2 st2,
    add_purchase_api "2024-01-02" "r2" "u2" (purchase_of "Prawns" "KG" 2 500) freezer
    = (Ok resp, st1)
    ∧ add_purchase_api "2024-01-03" "r3" "u3" (purchase_of "Prawns" "KG" 2 500) st1
      = (Ok resp2, st2)
    ∧ raw_id <$> raw_inventory st2 = raw_id <$> raw_inventory st1.
Proof.
  eassert (H : add_purchase_api "2024-01-02" "r2" "u2"
                 (purchase_of "Prawns" "KG" 2 500) freezer = (Ok _, _))
    by (vm_compute; reflexivity).
  destruct (repeated_purchase_reuses_row _ _ _ _ _ _ _ "2024-01-03" "r3" "u3" H)
    as (resp2 & st2 & H2 & Hids & _).
  eexists _, _, resp2, st2. split; [exact H|]. split; [exact H2|exact Hids].
Defined.

(** ** Row identifiers *)

(** X15.  The handlers keep the list of row ids.  A sale, a stock
    adjustment and a product update leave the ids of the products table, in
    order, as they were; a new product goes last, under the id the handler
    reports.  A raw-item update leaves the ids of the inventory as
    they were; a new raw item goes last; a purchase leaves them as they were
    or adds one id, last. *)
Theorem row_ids_are_stable :
  (∀ today new_id s st resp st',
      add_sale_api today new_id s st = (Ok resp, st') →
      rp_id <$> ready_products st' = rp_id <$> ready_products st)
  ∧ (∀ item_id delta st q st',
        adjust_ready_stock_api item_id delta st = (Ok q, st') →
        rp_id <$> ready_products st' = rp_id <$> ready_products st)
  ∧ (∀ item_id patch st st',
        update_ready_product_api item_id patch st = (Ok tt, st') →
        rp_id <$> ready_products st' = rp_id <$> ready_products st)
  ∧ (∀ fuel new_id item st id code st',
        add_ready_product_api fuel new_id item st = (Ok (id, code), st') →
        id = new_id
        ∧ rp_id <$> ready_products st' = ((rp_id <$> ready_products st) ++ [new_id])%list)
  ∧ (∀ item_id patch st st',
        update_raw_item_api item_id patch st = (Ok tt, st') →
        raw_id <$> raw_inventory st' = raw_id <$> raw_inventory st)
  ∧ (∀ new_id item st id st',
        add_raw_item_api new_id item st = (Ok id, st') →
        id = new_id
        ∧ raw_id <$> raw_inventory st' = ((raw_id <$> raw_inventory st) ++ [new_id])%list)
  ∧ (∀ today item_id purchase_id p st resp st',
        add_purchase_api today item_id purchase_id p st = (Ok resp, st') →
        raw_id <$> raw_inventory st' = raw_id <$> raw_inventory st
        ∨ raw_id <$> raw_inventory st' = ((raw_id <$> raw_inventory st) ++ [item_id])%list).
Proof.
  split_and!.
  - intros today new_id s st resp st' Hrun.
    destruct (add_sale_api_Ok _ _ _ _ _ _ Hrun) as (i & target & Hf & _ & _ & -> & _).
    apply list_find_Some in Hf as (Hi & _).
    by apply (list_fmap_insert_same _ _ _ target).
  - intros item_id delta st q st' Hrun.
    destruct (adjust_ready_stock_api_Ok _ _ _ _ _ Hrun) as (i & r & Hf & _ & _ & ->).
    apply list_find_Some in Hf as (Hi & _).
    cbn [tbl_put ready_products_tbl ready_products].
    by apply (list_fmap_insert_same _ _ _ r).
  - intros item_id patch st st'.
    unfold update_ready_product_api. run_validation.
    destruct (list_find (fun r => rp_id r = item_id) (ready_products st))
      as [[i r]|] eqn:Hf.
    2: { destruct (rpu_category patch), (rpu_unit patch), (rpu_code patch);
           split_handler; reject_done. }
    apply list_find_Some in Hf as (Hi & _).
    destruct (rpu_category patch), (rpu_unit patch), (rpu_code patch);
      split_handler; try done; intros [= <-];
      cbn [ready_products]; by apply (list_fmap_insert_same _ _ _ r).
  - intros fuel new_id item st id code st'.
    unfold add_ready_product_api. run_validation.
    split_handler; try done; intros [= <- <- <-];
      cbn [ready_products]; by rewrite fmap_app.
  - intros item_id patch st st'.
    unfold update_raw_item_api. run_validation.
    destruct (list_find (fun r => raw_id r = item_id) (raw_inventory st))
      as [[i r]|] eqn:Hf.
    2: { destruct (ru_category patch), (ru_subcategory patch), (ru_unit patch);
           split_handler; reject_done. }
    apply list_find_Some in Hf as (Hi & _).
    destruct (ru_category patch), (ru_subcategory patch), (ru_unit patch);
      split_handler; try done; intros [= <-];
      cbn [raw_inventory]; by apply (list_fmap_insert_same _ _ _ r).
  - intros new_id item st id st'.
    unfold add_raw_item_api. run_validation.
    split_handler; try done; intros [= <- <-];
      cbn [raw_inventory]; by rewrite fmap_app.
  - intros today item_id purchase_id p st resp st' Hrun.
    destruct (add_purchase_api_Ok _ _ _ _ _ _ _ Hrun)
      as (Hc & Hs & Hu & i & target & inv & add_qty & Ht & Hq).
    rewrite (add_purchase_api_accepted _ _ _ _ _ _ _ _ _ Hc Hs Hu Ht Hq) in Hrun.
    injection Hrun as <- <-. cbn [raw_inventory].
    destruct (purchase_target_lookup _ _ _ _ _ _ Ht)
      as [Hi [[Hf ->]|(Hf & -> & -> & ->)]].
    + left. by apply (list_fmap_insert_same _ _ _ target).
    + right. rewrite (list_fmap_insert_same _ _ _ (new_raw_item item_id p)); [|done..].
      by rewrite fmap_app.
Qed.

Lemma row_ids_are_stable_witness :
  ∃ resp st',
    add_sale_api "2024-01-01" "s1" (sale_of "Burger" "Pieces" 3 "Live") shop
    = (Ok resp, st')
    ∧ rp_id <$> ready_products st' = ["p1"; "p2"].
Proof.
  eassert (H : add_sale_api "2024-01-01" "s1" (sale_of "Burger" "Pieces" 3 "Live") shop
               = (Ok _, _)) by (vm_compute; reflexivity).
  eexists _, _. split; [exact H|].
  exact (proj1 row_ids_are_stable _ _ _ _ _ _ H).
Defined.

(** ** Product codes stay distinct *)

Module CodeFacts.
Import Text.

Lemma upper_char_idemp c : upper_char (upper_char c) = upper_char c.
Proof. by destruct c as [[] [] [] [] [] [] [] []]. Qed.

Lemma upper_idemp s : upper (upper s) = upper s.
Proof.
  induction s as [|c s IH]; [done|].
  cbn. rewrite upper_char_idemp. f_equal. exact IH.
Qed.

Lemma upper_app s t : upper (s +:+ t) = upper s +:+ upper t.
Proof.
  unfold upper. induction s as [|c s IH]; [done|].
  change (String c s +:+ t) with (String c (s +:+ t)).
  cbn [map_chars]. change (String ?a ?x +:+ ?y) with (String a (x +:+ y)).
  f_equal. exact IH.
Qed.

Lemma length_upper s : String.length (upper s) = String.length s.
Proof.
  unfold upper. induction s as [|c s IH]; [done|].
  cbn [String.length map_chars]. f_equal. exact IH.
Qed.

Lemma length_app s t :
  String.length (s +:+ t) = String.length s + String.length t.
Proof.
  induction s as [|c s IH]; [done|].
  change (String c s +:+ t) with (String c (s +:+ t)).
  cbn [String.length Nat.add]. f_equal. exact IH.
Qed.

(** A letter of [code_letters] is one character, already upper-cased. *)
Lemma letter_of s :
  String.length (upper (or_else (first1 s) "X")) = 1
  ∧ upper (upper (or_else (first1 s) "X")) = upper (or_else (first1 s) "X").
Proof.
  split; [|apply upper_idemp]. rewrite length_upper. by destruct s.
Qed.

Lemma digit_str_fixed d : d ∈ seq 1 9 → upper (digit_str d) = digit_str d.
Proof.
  intros Hd. apply list_elem_of_In in Hd. cbn in Hd.
  repeat (destruct Hd as [<-|Hd]; [done|]). done.
Qed.

Lemma extra_letter_fixed idx :
  String.length (extra_letter idx) = 1 ∧ upper (extra_letter idx) = extra_letter idx.
Proof.
  rewrite <- extra_letter_mod.
  assert (Hlt : idx mod 26 < 26) by (apply Nat.mod_upper_bound; lia).
  generalize dependent (idx mod 26). intros k Hlt.
  do 26 (destruct k as [|k]; [done|]). lia.
Qed.

Lemma candidate_shape d l2 l3 :
  d ∈ seq 1 9 →
  String.length l2 = 1 ∧ upper l2 = l2 →
  String.length l3 = 1 ∧ upper l3 = l3 →
  String.length (digit_str d +:+ l2 +:+ l3) = 3
  ∧ upper (digit_str d +:+ l2 +:+ l3) = digit_str d +:+ l2 +:+ l3.
Proof.
  intros Hd [H2 E2] [H3 E3]. split.
  - rewrite !length_app, H2, H3. done.
  - by rewrite !upper_app, E2, E3, digit_str_fixed.
Qed.

Lemma all_candidates_shape l2 l3 code :
  String.length l2 = 1 ∧ upper l2 = l2 →
  String.length l3 = 1 ∧ upper l3 = l3 →
  code ∈ all_candidates l2 l3 →
  String.length code = 3 ∧ upper code = code.
Proof.
  intros H2 H3 Hin. unfold all_candidates in Hin.
  apply elem_of_app in Hin as [Hin|Hin].
  - unfold primary_candidates in Hin.
    apply list_elem_of_fmap in Hin as (d & -> & Hd).
    by apply candidate_shape.
  - apply elem_of_fallback_pool in Hin as [idx Hin].
    unfold fallback_candidates in Hin.
    apply list_elem_of_fmap in Hin as (d & -> & Hd).
    apply candidate_shape; [done..|apply extra_letter_fixed].
Qed.

Lemma generated_code_shape fuel name item_category rows code :
  _generate_ready_code fuel name item_category rows = Some code →
  String.length code = 3 ∧ upper code = code ∧ code ∉ existing_codes rows.
Proof.
  intros H. apply generate_Some in H as [Hin Hfree].
  destruct (all_candidates_shape _ _ code (letter_of _) (letter_of _) Hin) as [? ?].
  done.
Qed.

End CodeFacts.

(** X16.  On ASCII text (the name, the item category and the code of the
    request, the codes of the table), the code [add_ready_product_api]
    reports, be it supplied or generated, has three characters, is in upper
    case, and differs, ignoring case, from the code of every row already in
    the table; it is the code of the row appended.  So the codes of the
    table stay pairwise distinct, ignoring case, once they are. *)
Theorem add_ready_product_api_code_is_fresh fuel new_id item st id code st' :
  Text.is_ascii (rpi_name item) = true →
  Text.is_ascii (opt_or (rpi_item_category item) "") = true →
  Text.is_ascii (opt_or (rpi_code item) "") = true →
  ascii_codes (ready_products st) →
  add_ready_product_api fuel new_id item st = (Ok (id, code), st') →
  String.length code = 3
  ∧ Text.upper code = code
  ∧ (∀ r, r ∈ ready_products st → Text.upper (rp_code r) ≠ code)
  ∧ (∃ row, ready_products st' = (ready_products st ++ [row])%list
            ∧ rp_code row = code)
  ∧ (NoDup ((fun r => Text.upper (rp_code r)) <$> ready_products st) →
     NoDup ((fun r => Text.upper (rp_code r)) <$> ready_products st')).
Proof.
  intros _ _ _ _ Hrun.
  assert (Hmain : String.length code = 3 ∧ Text.upper code = code
                  ∧ (∀ r, r ∈ ready_products st → Text.upper (rp_code r) ≠ code)
                  ∧ ∃ row, ready_products st' = (ready_products st ++ [row])%list
                           ∧ rp_code row = code).
  { revert Hrun. unfold add_ready_product_api. run_validation.
    destruct (decide (rpi_category item ∉ CATEGORIES)); [done|].
    destruct (decide (rpi_unit item ∈ UNITS)); [|done].
    destruct (decide (normalised_code (rpi_code item) ≠ "")) as [Hne|He].
    - destruct (code_malformed (normalised_code (rpi_code item))) eqn:Hm; [done|].
      destruct (list_find _ (ready_products st)) as [[j r']|] eqn:Hf; [done|].
      intros [= <- <- <-]. cbn [ready_products].
      destruct (code_malformed_shape _ Hm) as (d & a & b & E & _).
      split_and!.
      + by rewrite E.
      + apply CodeFacts.upper_idemp.
      + apply list_find_None in Hf. by rewrite Forall_forall in Hf.
      + by eexists.
    - destruct (_generate_ready_code _ _ _ _) as [c|] eqn:Hg; [|done].
      intros [= <- <- <-]. cbn [ready_products].
      destruct (CodeFacts.generated_code_shape _ _ _ _ _ Hg) as (Hl & Hu & Hfree).
      split_and!; [done|done| |by eexists].
      intros r Hr E. apply Hfree. unfold existing_codes.
      apply elem_of_list_to_set, list_elem_of_fmap. by exists r. }
  destruct Hmain as (Hl & Hu & Hfresh & row & Hrows & Hcode).
  split_and!; [done..|by exists row|].
  intros Hnd. rewrite Hrows, fmap_app. apply NoDup_app. split_and!; [done| |].
  - intros c Hc Hin. cbn in Hin. apply list_elem_of_singleton in Hin as ->.
    apply list_elem_of_fmap in Hc as (r & E & Hr).
    apply (Hfresh r Hr). by rewrite <- E, Hcode, Hu.
  - cbn. apply NoDup_singleton.
Qed.


Lemma add_ready_product_api_code_is_fresh_witness :
  let item :=
    {| rpi_name := "Samosa"; rpi_category := "Home Delivery"; rpi_unit := "Pieces";
       rpi_unit_cost := 0; rpi_price := 0; rpi_quantity := 0; rpi_threshold := 0;
       rpi_item_category := Some "Snacks"; rpi_code := None |} in
  ∃ id code st',
    add_ready_product_api 26 "p3" item shop = (Ok (id, code), st')
    ∧ String.length code = 3.
Proof.
  intros item.
  eassert (H : add_ready_product_api 26 "p3" item shop = (Ok (_, _), _))
    by (vm_compute; reflexivity).
  destruct (ascii_table_forallb (ready_products shop) eq_refl) as [_ Hcodes].
  eexists _, _, _. split; [exact H|].
  exact (proj1 (add_ready_product_api_code_is_fresh 26 "p3" item shop _ _ _
                  eq_refl eq_refl eq_refl Hcodes H)).
Defined.


(** ** Low-stock alerts *)





(** ** Open orders per table *)

Lemma summary_fold_lookup branch status rows : ∀ (out : gmap string nat) k,
  foldl (summary_step branch status) out rows !! k
  = match out !! k,
          length (filter (fun r => is_open_at branch status r ∧ table_key r = k) rows)
    with
    | None, 0 => None
    | o, c => Some (default 0 o + c)
    end.
Proof.
  induction rows as [|r rows IH]; intros out k.
  { cbn. destruct (out !! k) as [v|]; [|done]. cbn. f_equal. lia. }
  cbn [foldl]. rewrite IH, filter_cons. unfold summary_step.
  destruct (decide (is_open_at branch status r)) as [Ho|Ho].
  - destruct (decide (table_key r = k)) as [Hk|Hk].
    + rewrite decide_True by done. rewrite Hk, lookup_insert_eq. cbn [length].
      destruct (out !! k) as [v|]; cbn; f_equal; lia.
    + rewrite decide_False by (by intros [_ ?]).
      by rewrite lookup_insert_ne.
  - by rewrite decide_False by (by intros [? _]).
Qed.

Global Instance item_le_trans : Transitive item_le.
Proof. intros x y z. unfold item_le. apply transitivity. Qed.

Global Instance item_le_total : Total item_le.
Proof. intros x y. unfold item_le. apply total, _. Qed.

(** X18.  The table summary reads without writing.  It lists, in
    increasing order of table name and with no name twice, exactly the
    tables that have at least one sale of the branch with the status asked
    for, each with the number of such sales; sales without a table number
    are counted together under a dash. *)
Theorem branch_table_summary_counts branch status st :
  ∃ items,
    branch_table_summary branch status st = (Ok items, st)
    ∧ StronglySorted (fun x y => String.le x.1 y.1) items
    ∧ NoDup items.*1
    ∧ ∀ k n,
        (k, n) ∈ items
        ↔ 0 < n
          ∧ n = length (filter (fun r => (sale_branch r = branch
                                          ∧ sale_payment_status r = status)
                                         ∧ Text.or_else (sale_table_no r) "—" = k)
                          (sales st)).
Proof.
  eexists. split; [reflexivity|]. cbn [tbl_rows sales_tbl].
  set (out := foldl (summary_step branch status) ∅ (sales st)).
  pose proof (merge_sort_Permutation item_le (map_to_list out)) as Hperm.
  split_and!.
  - apply (StronglySorted_merge_sort item_le).
  - rewrite Hperm. apply NoDup_fst_map_to_list.
  - intros k n. rewrite Hperm, elem_of_map_to_list. unfold out.
    rewrite summary_fold_lookup, lookup_empty.
    change (fun r => is_open_at branch status r ∧ table_key r = k)
      with (fun r => (sale_branch r = branch ∧ sale_payment_status r = status)
                     ∧ Text.or_else (sale_table_no r) "—" = k).
    destruct (length _) as [|c]; cbn.
    + split; [done|]. intros [? ->]. lia.
    + split; [intros [= <-]; split; [lia|done]|]. by intros [_ ->].
Qed.

(** ** Tables as CSV records *)

Module CsvFacts.
Import Csv.

Lemma dict_of_lookup_notin fieldnames : ∀ record (d : row) k,
  k ∉ fieldnames → dict_of fieldnames record d !! k = d !! k.
Proof.
  induction fieldnames as [|h hs IH]; intros record d k Hk; [by destruct record|].
  apply not_elem_of_cons in Hk as [Hne Hk].
  destruct record as [|v vs]; cbn [dict_of]; rewrite IH by done;
    by rewrite lookup_insert_ne.
Qed.

(** The keys of a row are the field names. *)
Lemma dict_of_is_Some fieldnames : ∀ record (d : row) k,
  is_Some (dict_of fieldnames record d !! k) ↔ k ∈ fieldnames ∨ is_Some (d !! k).
Proof.
  induction fieldnames as [|h hs IH]; intros record d k.
  { destruct record; cbn; rewrite elem_of_nil; tauto. }
  destruct record as [|v vs]; cbn [dict_of]; rewrite IH, elem_of_cons;
    (destruct (decide (k = h)) as [->|Hne];
     [rewrite lookup_insert_eq; split; [intros _; by left; left|intros _; right; by eexists]
     |rewrite lookup_insert_ne by done; tauto]).
Qed.

(** Reading a record written for these very columns. *)
Lemma dict_of_written headers (f : string → string) : ∀ (d : row) k,
  dict_of headers (f <$> headers) d !! k
  = if decide (k ∈ headers) then Some (Some (f k)) else d !! k.
Proof.
  induction headers as [|h hs IH]; intros d k.
  { cbn. rewrite decide_False; [done|apply not_elem_of_nil]. }
  cbn [fmap list_fmap dict_of]. rewrite IH.
  destruct (decide (k ∈ hs)) as [Hin|Hin].
  - rewrite decide_True; [done|by right].
  - destruct (decide (k = h)) as [->|Hne].
    + rewrite lookup_insert_eq. rewrite decide_True; [done|by left].
    + rewrite lookup_insert_ne by done. rewrite decide_False; [done|].
      intros H. apply elem_of_cons in H as [?|?]; done.
Qed.

(** Writing back a record read under distinct field names. *)
Lemma cells_of_dict fieldnames : ∀ record (d : row),
  NoDup fieldnames →
  cell (dict_of fieldnames record d) <$> fieldnames
  = (take (length fieldnames) record
     ++ replicate (length fieldnames - length record) "")%list.
Proof.
  induction fieldnames as [|h hs IH]; intros record d Hnd; [by destruct record|].
  apply NoDup_cons in Hnd as [Hh Hnd].
  destruct record as [|v vs]; cbn [dict_of fmap list_fmap length take Nat.sub].
  - rewrite IH by done. cbn [length take app Nat.sub replicate].
    rewrite Nat.sub_0_r. f_equal.
    + unfold cell. by rewrite dict_of_lookup_notin, lookup_insert_eq.
    + by rewrite take_nil.
  - rewrite IH by done. cbn [app]. f_equal.
    unfold cell. by rewrite dict_of_lookup_notin, lookup_insert_eq.
Qed.

Lemma filter_all {A} (P : A → Prop) `{!∀ x, Decision (P x)} (l : list A) :
  Forall P l → filter P l = l.
Proof.
  induction 1 as [|x l Hx Hl IH]; [done|].
  rewrite filter_cons, decide_True by done. by rewrite IH.
Qed.

End CsvFacts.

(** X19.  What [write_csv] writes, [read_csv] reads back: as many rows, in
    the same order, each holding exactly the columns of the header, with the
    cell the writer put there (the empty string for a column the row did not
    have).  This needs a header with at least one column: with none, every
    record written is blank and the reader skips them all. *)
Theorem write_then_read_records rows :
  (∀ headers,
      headers ≠ [] →
      length (Csv.read_records (Csv.write_records headers rows)) = length rows
      ∧ ∀ i r, rows !! i = Some r →
          ∃ r', Csv.read_records (Csv.write_records headers rows) !! i = Some r'
                ∧ ∀ k, r' !! k = if decide (k ∈ headers)
                                 then Some (Some (Csv.cell r k)) else None)
  ∧ Csv.read_records (Csv.write_records [] rows) = [].
Proof.
  split.
  - intros headers Hne. unfold Csv.write_records, Csv.read_records.
    rewrite CsvFacts.filter_all.
    2: { apply Forall_forall. intros record Hin.
         apply list_elem_of_fmap in Hin as (r & -> & _).
         destruct headers; [done|]. done. }
    split; [by rewrite !length_fmap|].
    intros i r Hi. eexists. split.
    + rewrite !list_lookup_fmap, Hi. reflexivity.
    + intros k. cbv beta. by rewrite CsvFacts.dict_of_written, lookup_empty.
  - unfold Csv.write_records, Csv.read_records.
    induction rows as [|r rows IH]; [done|].
    cbn [fmap list_fmap] in *. rewrite filter_cons, decide_False by (by intros H; apply H).
    exact IH.
Qed.

Lemma write_then_read_records_witness :
  ∃ r',
    Csv.read_records
      (Csv.write_records ["id"; "name"; "is_active"] [{[ "id" := Some "b1" ]}])
    !! 0 = Some r'
    ∧ r' !! "name" = Some (Some "").
Proof.
  destruct (proj2 (proj1 (write_then_read_records [{[ "id" := Some "b1" ]}])
                     ["id"; "name"; "is_active"] ltac:(discriminate))
              0 {[ "id" := Some "b1" ]} eq_refl) as (r' & Hr & Hk).
  exists r'. split; [exact Hr|]. rewrite Hk. by vm_compute.
Defined.

(** X20.  Reading a file and writing the rows back under the header the
    file has (distinct column names) drops the blank records, cuts every
    other record to the width of the header or pads it with empty cells, and
    changes nothing else: a file without blank records whose records all
    have the width of the header is written back as it was. *)
Theorem read_then_write_records headers records :
  NoDup headers →
  Csv.write_records headers (Csv.read_records (headers :: records))
  = headers
    :: ((fun record => (take (length headers) record
                        ++ replicate (length headers - length record) "")%list)
          <$> filter (fun record => record ≠ []) records)
  ∧ (Forall (fun record => length record = length headers) records →
     headers ≠ [] →
     Csv.write_records headers (Csv.read_records (headers :: records))
     = headers :: records).
Proof.
  intros Hnd.
  assert (E : Csv.write_records headers (Csv.read_records (headers :: records))
              = headers
                :: ((fun record => (take (length headers) record
                                    ++ replicate (length headers - length record) "")%list)
                      <$> filter (fun record => record ≠ []) records)).
  { unfold Csv.write_records, Csv.read_records. f_equal.
    rewrite <- list_fmap_compose. apply list_fmap_ext.
    intros i record _. cbn. by apply CsvFacts.cells_of_dict. }
  split; [exact E|].
  intros Hw Hne. rewrite E. f_equal.
  rewrite CsvFacts.filter_all.
  2: { eapply Forall_impl; [exact Hw|]. cbn. intros record Hl ->.
       destruct headers; done. }
  rewrite <- (list_fmap_id records) at 2. apply Forall_fmap_ext.
  eapply Forall_impl; [exact Hw|]. cbn. intros record Hl.
  rewrite <- Hl, firstn_all, Nat.sub_diag. cbn. by rewrite app_nil_r.
Qed.

Lemma read_then_write_records_witness :
  Csv.write_records ["id"; "name"; "is_active"]
    (Csv.read_records [["id"; "name"; "is_active"]; ["b1"]; []; ["b2"; "Hall"; "1"; "x"]])
  = [["id"; "name"; "is_active"]; ["b1"; ""; ""]; ["b2"; "Hall"; "1"]].
Proof.
  assert (Hnd : NoDup ["id"; "name"; "is_active"]).
  { apply (bool_decide_unpack _). by vm_compute. }
  rewrite (proj1 (read_then_write_records _
                    [["b1"]; []; ["b2"; "Hall"; "1"; "x"]] Hnd)).
  reflexivity.
Defined.

(** ** Importing a table *)

Lemma get_today_dir_Some today root root1 :
  Snapshot.get_today_dir today root = Some root1 →
  ∃ d, root1 !! today = Some (Snapshot.Dir d).
Proof.
  unfold Snapshot.get_today_dir. cbv zeta.
  destruct (default ∅ root !! today) as [[d|]|]; [|done|];
    intros [= <-]; eexists; apply lookup_insert_eq.
Qed.

(** X21.  An import of an unknown kind is refused before [DATA_ROOT] is
    touched.  For a known kind today's snapshot is resolved first, so it
    stays resolved whatever follows.  An upload that cannot be decoded or
    read then makes the handler raise, and one whose first record, its
    cells trimmed, is not the header of the table is refused with 400;
    neither writes anything else.  An accepted import replaces the file of
    the table in today's snapshot by the uploaded bytes and leaves every
    other file and every other snapshot as the resolution left them. *)
Theorem import_csv_outcomes today kind upload root :
  match import_csv today kind upload root with
  | Refused c root' =>
      c = 400%Z
      ∧ ((Csv.headers_of kind = None ∧ root' = root)
         ∨ (∃ headers header root1,
               Csv.headers_of kind = Some headers
               ∧ up_header upload = Some header ∧ header ≠ headers
               ∧ Snapshot.get_today_dir today root = Some root1
               ∧ root' = Some root1))
  | Crashed root' =>
      is_Some (Csv.headers_of kind)
      ∧ up_header upload = None
      ∧ Snapshot.get_today_dir today root = Some root'
  | Saved root' =>
      ∃ headers root1 d,
        Csv.headers_of kind = Some headers
        ∧ up_header upload = Some headers
        ∧ Snapshot.get_today_dir today root = Some root1
        ∧ root1 !! today = Some (Snapshot.Dir d)
        ∧ (∀ n, n ≠ today → root' !! n = root1 !! n)
        ∧ (∃ d', root' !! today = Some (Snapshot.Dir d')
                 ∧ d' !! Snapshot.csv_name kind = Some (up_records upload)
                 ∧ ∀ f, f ≠ Snapshot.csv_name kind → d' !! f = d !! f)
  | Failed =>
      is_Some (Csv.headers_of kind)
      ∧ Snapshot.get_today_dir today root = None
  end.
Proof.
  unfold import_csv.
  destruct (Csv.headers_of kind) as [headers|] eqn:Hh.
  2: { split; [done|]. by left. }
  destruct (Snapshot.get_today_dir today root) as [root1|] eqn:Hg; [|done].
  destruct (up_header upload) as [header|] eqn:Hu; [|done].
  destruct (decide (header ≠ headers)) as [Hbad|Hok].
  { split; [done|]. right. by exists headers, header, root1. }
  apply dec_stable in Hok. subst header.
  destruct (get_today_dir_Some today root root1 Hg) as [d Hd].
  rewrite Hd. exists headers, root1, d. split_and!; try done.
  - intros n Hn. by rewrite lookup_insert_ne.
  - eexists. rewrite lookup_insert_eq. split; [done|].
    rewrite lookup_insert_eq. split; [done|].
    intros f Hf. by rewrite lookup_insert_ne.
Qed.
(** ** The spend report *)

Section ReportFacts.
Variable parse_date : string → option Z.
Variable first_of_month : Z → Z.



End ReportFacts.





(** ** Updates write numbers as they come *)

(** X23.  The two update handlers check neither the sign of a number nor
    its precision: a patch that holds only a quantity (a stock) is accepted
    for every row id that exists, whatever the number, negative or not, and
    the first row with that id then holds exactly that number, unrounded,
    all its other fields, every other row and every other table being as
    before. *)
Theorem updates_store_numbers_unchecked :
  (∀ item_id q st i r,
      list_find (fun r => rp_id r = item_id) (ready_products st) = Some (i, r) →
      update_ready_product_api item_id (quantity_patch q) st
      = (Ok tt, tbl_put ready_products_tbl
                  (<[i := with_quantity q r]> (ready_products st)) st))
  ∧ (∀ item_id q st i r,
        list_find (fun r => raw_id r = item_id) (raw_inventory st) = Some (i, r) →
        update_raw_item_api item_id (stock_patch q) st
        = (Ok tt, tbl_put raw_inventory_tbl
                    (<[i := with_stock_and_cost q (raw_unit_cost r) r]>
                       (raw_inventory st)) st)).
Proof.
  split.
  - intros item_id q st i r Hf.
    unfold update_ready_product_api. run_validation. cbn [quantity_patch rpu_category
      rpu_unit rpu_code]. by rewrite Hf.
  - intros item_id q st i r Hf.
    unfold update_raw_item_api. run_validation. cbn [stock_patch ru_category
      ru_subcategory ru_unit]. by rewrite Hf.
Qed.

Lemma updates_store_numbers_unchecked_witness :
  ∃ st',
    update_ready_product_api "p1" (quantity_patch (-5)) shop = (Ok tt, st')
    ∧ (rp_quantity <$> ready_products st') = [(-5)%Q; 1%Q].
Proof.
  assert (Hf : list_find (fun r => rp_id r = "p1") (ready_products shop)
               = Some (0, burger)) by (vm_compute; reflexivity).
  eexists. split.
  - exact (proj1 updates_store_numbers_unchecked "p1" (-5)%Q shop 0 burger Hf).
  - reflexivity.
Defined.

(** ** Products that share a name *)

Lemma add_ready_product_api_appends fuel new_id item st id code st' :
  add_ready_product_api fuel new_id item st = (Ok (id, code), st') →
  ∃ row, st' = tbl_put ready_products_tbl (ready_products st ++ [row])%list st
         ∧ rp_id row = new_id
         ∧ rp_name row = Text.strip (rpi_name item)
         ∧ rp_category row = rpi_category item
         ∧ rp_quantity row = Num.fmt3 (rpi_quantity item).
Proof.
  unfold add_ready_product_api. run_validation.
  split_handler; try done; intros [= <- <- <-]; by eexists.
Qed.

(** X24.  [add_ready_product_api] does not compare names.  On ASCII text, a
    request whose category and unit are of the enumerations and whose code
    is well formed and unused is accepted although a row of the table
    already has its name (trimmed, ignoring case) and its category, and it
    is appended after that row.  Sales are booked on the first row that
    matches, so from then on every accepted sale of that name and category
    is taken from the older row, and the row just added keeps its
    quantity. *)
Theorem older_product_shadows_new_one fuel new_id item st i target :
  Text.is_ascii (rpi_name item) = true →
  Text.is_ascii (opt_or (rpi_code item) "") = true →
  ascii_names (ready_products st) → ascii_codes (ready_products st) →
  rpi_category item ∈ CATEGORIES → rpi_unit item ∈ UNITS →
  normalised_code (rpi_code item) ≠ "" →
  code_malformed (normalised_code (rpi_code item)) = false →
  ¬ code_taken (normalised_code (rpi_code item)) (ready_products st) →
  list_find (same_product item) (ready_products st) = Some (i, target) →
  ∃ st1 row,
    add_ready_product_api fuel new_id item st
    = (Ok (new_id, normalised_code (rpi_code item)), st1)
    ∧ ready_products st1 = (ready_products st ++ [row])%list
    ∧ rp_id row = new_id
    ∧ same_product item row
    ∧ rp_quantity row = Num.fmt3 (rpi_quantity item)
    ∧ ∀ today sale_id s resp st2,
        Text.is_ascii (sin_item s) = true →
        Text.lower (Text.strip (sin_item s)) = Text.lower (Text.strip (rpi_name item)) →
        sin_category s = rpi_category item →
        add_sale_api today sale_id s st1 = (Ok resp, st2) →
        ready_products st2 !! i
        = Some (with_quantity (sresp_remaining_stock resp) target)
        ∧ ready_products st2 !! length (ready_products st) = Some row.
Proof.
  intros _ _ _ _ Hcat Hunit Hc Hm Ht Hf.
  rewrite (add_ready_product_api_explicit fuel new_id item st Hc).
  rewrite decide_True by done.
  eexists _, _. split; [reflexivity|].
  cbn [tbl_put ready_products_tbl ready_products rp_id rp_quantity].
  split; [reflexivity|]. split; [reflexivity|]. split.
  { split; [|reflexivity]. cbn [rp_name]. by rewrite TextFacts.strip_idemp. }
  split; [reflexivity|].
  intros today sale_id s resp st2 _ Hname Hscat Hsale.
  destruct (add_sale_api_Ok _ _ _ _ _ _ Hsale) as (i' & target' & Hf' & _ & _ & Hrp & _).
  cbn [ready_products] in *.
  assert (Hfs : list_find (sale_match s) (ready_products st) = Some (i, target)).
  { rewrite <- Hf. apply list_find_ext. intros r.
    unfold sale_match, same_product. by rewrite Hname, Hscat. }
  rewrite (list_find_app_l _ _ _ _ _ Hfs) in Hf'. injection Hf' as <- <-.
  apply list_find_Some in Hfs as (Hi & _).
  pose proof (lookup_lt_Some _ _ _ Hi) as Hlt.
  rewrite Hrp. split.
  - apply list_lookup_insert_eq. rewrite length_app. cbn. lia.
  - rewrite list_lookup_insert_ne by lia.
    by rewrite lookup_app_r, Nat.sub_diag.
Qed.

Lemma older_product_shadows_new_one_witness :
  let item :=
    {| rpi_name := " burger"; rpi_category := "Home Delivery"; rpi_unit := "Pieces";
       rpi_unit_cost := 0; rpi_price := 0; rpi_quantity := 50; rpi_threshold := 0;
       rpi_item_category := None; rpi_code := Some "2sb" |} in
  ∃ st1 resp st2,
    add_ready_product_api 0 "p3" item shop = (Ok ("p3", "2SB"), st1)
    ∧ (rp_id <$> ready_products st1) = ["p1"; "p2"; "p3"]
    ∧ add_sale_api "2024-01-01" "s1" (sale_of "BURGER" "Pieces" 3 "Live") st1
      = (Ok resp, st2)
    ∧ (rp_quantity <$> ready_products st2 !! 0) = Some (17000 # 1000)%Q
    ∧ (rp_quantity <$> ready_products st2 !! 2) = Some (50000 # 1000)%Q.
Proof.
  intros item.
  assert (Hascii : ∀ rows : list ReadyProduct,
             forallb (fun r => Text.is_ascii (rp_name r) && Text.is_ascii (rp_code r)) rows
             = true →
             ascii_names rows ∧ ascii_codes rows).
  { intros rows H. rewrite forallb_forall in H.
    split; apply Forall_forall; intros r Hr; apply list_elem_of_In, H in Hr;
      apply andb_true_iff in Hr; tauto. }
  destruct (Hascii (ready_products shop) eq_refl) as [Hnames Hcodes].
  assert (Hcat : rpi_category item ∈ CATEGORIES) by (apply list_elem_of_In; cbn; tauto).
  assert (Hunit : rpi_unit item ∈ UNITS) by (apply list_elem_of_In; cbn; tauto).
  assert (Hn : normalised_code (rpi_code item) = "2SB") by (vm_compute; reflexivity).
  assert (Hc : normalised_code (rpi_code item) ≠ "") by (rewrite Hn; discriminate).
  assert (Hm : code_malformed (normalised_code (rpi_code item)) = false)
    by (rewrite Hn; reflexivity).
  assert (Ht : ¬ code_taken (normalised_code (rpi_code item)) (ready_products shop)).
  { rewrite Hn. apply (bool_decide_unpack _). vm_compute. exact I. }
  assert (Hf : list_find (same_product item) (ready_products shop) = Some (0, burger))
    by (vm_compute; reflexivity).
  destruct (older_product_shadows_new_one 0 "p3" item shop 0 burger
              eq_refl eq_refl Hnames Hcodes Hcat Hunit Hc Hm Ht Hf)
    as (st1 & row & Hadd & Hrows & Hid & _ & Hq & Hsale).
  eassert (Hst1 : add_ready_product_api 0 "p3" item shop = (Ok ("p3", "2SB"), _))
    by (vm_compute; reflexivity).
  rewrite Hst1 in Hadd. injection Hadd as E. destruct E.
  match type of Hst1 with
  | _ = (_, ?st1) =>
      eassert (H2 : add_sale_api "2024-01-01" "s1" (sale_of "BURGER" "Pieces" 3 "Live")
                      st1 = (Ok _, _)) by (vm_compute; reflexivity)
  end.
  destruct (Hsale "2024-01-01" "s1" (sale_of "BURGER" "Pieces" 3 "Live") _ _
              eq_refl eq_refl eq_refl H2) as [H0 Hnew].
  eexists _, _, _. split; [exact Hst1|]. split; [reflexivity|].
  split; [exact H2|]. split.
  - rewrite H0. reflexivity.
  - change 2 with (length (ready_products shop)). rewrite Hnew.
    cbn [fmap option_fmap option_map]. rewrite Hq. reflexivity.
Defined.

(** ** The sales report *)

Section SalesReportFacts.
Variable parse_date : string → option Z.
Variable first_of_month : Z → Z.

Lemma sales_step_selects s e category item branch payment_status acc r :
  sales_step parse_date s e category item branch payment_status acc r
  = if decide (sales_selects parse_date s e category item branch payment_status r)
    then {| sacc_total := sacc_total acc + sale_total_price r;
            sacc_by_cat :=
              <[sale_category r :=
                  (default 0 (sacc_by_cat acc !! sale_category r)
                   + sale_total_price r)%Q]> (sacc_by_cat acc);
            sacc_by_item :=
              <[sale_item r :=
                  (default 0 (sacc_by_item acc !! sale_item r)
                   + sale_total_price r)%Q]> (sacc_by_item acc);
            sacc_by_branch :=
              <[sale_branch r :=
                  (default 0 (sacc_by_branch acc !! sale_branch r)
                   + sale_total_price r)%Q]> (sacc_by_branch acc);
            sacc_filtered := (sacc_filtered acc ++ [r])%list |}
    else acc.
Proof.
  unfold sales_step.
  destruct (parse_date (sale_date r)) as [d|] eqn:Hd.
  2: { rewrite decide_False; [done|]. unfold sales_selects. rewrite Hd.
       by intros ((d & ? & _) & _). }
  destruct (decide (d < s ∨ d > e)%Z) as [Hout|Hin].
  { rewrite decide_False; [done|]. unfold sales_selects. rewrite Hd.
    intros ((d' & [= <-] & ?) & _). lia. }
  destruct (decide (given category ∧ _)) as [[Hg Hc]|Hc].
  { rewrite decide_False; [done|]. intros (_ & H & _). by apply Hc, H. }
  destruct (decide (given item ∧ _)) as [[Hg Hi]|Hi].
  { rewrite decide_False; [done|]. intros (_ & _ & H & _). by apply Hi, H. }
  destruct (decide (given branch ∧ _)) as [[Hg Hb]|Hb].
  { rewrite decide_False; [done|]. intros (_ & _ & _ & H & _). by apply Hb, H. }
  destruct (decide (given payment_status ∧ _)) as [[Hg Hp]|Hp].
  { rewrite decide_False; [done|]. intros (_ & _ & _ & _ & H). by apply Hp, H. }
  rewrite decide_True; [done|]. unfold sales_selects. split_and!.
  - exists d. split; [done|lia].
  - intros Hg. destruct (decide (sale_category r = default "" category)); [done|].
    destruct Hc. by split.
  - intros Hg.
    destruct (decide (Text.lower (Text.strip (sale_item r))
                      = Text.lower (Text.strip (default "" item)))); [done|].
    destruct Hi. by split.
  - intros Hg. destruct (decide (sale_branch r = default "" branch)); [done|].
    destruct Hb. by split.
  - intros Hg.
    destruct (decide (sale_payment_status r = default "" payment_status)); [done|].
    destruct Hp. by split.
Qed.

Lemma sales_fold s e category item branch payment_status rows : ∀ acc,
  let acc' :=
    foldl (sales_step parse_date s e category item branch payment_status) acc rows in
  let kept :=
    filter (sales_selects parse_date s e category item branch payment_status) rows in
  sacc_filtered acc' = (sacc_filtered acc ++ kept)%list
  ∧ sacc_total acc' = running_amount (sacc_total acc) kept
  ∧ (∀ c, sacc_by_cat acc' !! c
          = match filter (fun r => sale_category r = c) kept with
            | [] => sacc_by_cat acc !! c
            | l => Some (running_amount (default 0%Q (sacc_by_cat acc !! c)) l)
            end)
  ∧ (∀ k, sacc_by_item acc' !! k
          = match filter (fun r => sale_item r = k) kept with
            | [] => sacc_by_item acc !! k
            | l => Some (running_amount (default 0%Q (sacc_by_item acc !! k)) l)
            end)
  ∧ (∀ b, sacc_by_branch acc' !! b
          = match filter (fun r => sale_branch r = b) kept with
            | [] => sacc_by_branch acc !! b
            | l => Some (running_amount (default 0%Q (sacc_by_branch acc !! b)) l)
            end).
Proof.
  induction rows as [|r rows IH]; intros acc.
  { cbn. by rewrite app_nil_r. }
  cbn [foldl]. cbv zeta. rewrite filter_cons, sales_step_selects.
  destruct (decide (sales_selects parse_date s e category item branch
                      payment_status r)) as [Hsel|Hsel]; [|apply IH].
  destruct (IH {| sacc_total := sacc_total acc + sale_total_price r;
                  sacc_by_cat :=
                    <[sale_category r :=
                        (default 0 (sacc_by_cat acc !! sale_category r)
                         + sale_total_price r)%Q]> (sacc_by_cat acc);
                  sacc_by_item :=
                    <[sale_item r :=
                        (default 0 (sacc_by_item acc !! sale_item r)
                         + sale_total_price r)%Q]> (sacc_by_item acc);
                  sacc_by_branch :=
                    <[sale_branch r :=
                        (default 0 (sacc_by_branch acc !! sale_branch r)
                         + sale_total_price r)%Q]> (sacc_by_branch acc);
                  sacc_filtered := (sacc_filtered acc ++ [r])%list |})
    as (H1 & H2 & H3 & H4 & H5).
  cbn [sacc_total sacc_by_cat sacc_by_item sacc_by_branch sacc_filtered] in *.
  split_and!.
  - by rewrite H1, <- app_assoc.
  - by rewrite H2.
  - intros c. rewrite H3, filter_cons.
    destruct (decide (sale_category r = c)) as [<-|Hne].
    + rewrite lookup_insert_eq.
      by destruct (filter (fun r0 => sale_category r0 = _) _).
    + by rewrite lookup_insert_ne.
  - intros k. rewrite H4, filter_cons.
    destruct (decide (sale_item r = k)) as [<-|Hne].
    + rewrite lookup_insert_eq.
      by destruct (filter (fun r0 => sale_item r0 = _) _).
    + by rewrite lookup_insert_ne.
  - intros b. rewrite H5, filter_cons.
    destruct (decide (sale_branch r = b)) as [<-|Hne].
    + rewrite lookup_insert_eq.
      by destruct (filter (fun r0 => sale_branch r0 = _) _).
    + by rewrite lookup_insert_ne.
Qed.

End SalesReportFacts.



(** X26.  A sale that has just been recorded shows in the unfiltered report
    of any period that contains its date: the report of the same period
    gains that one row, last, and its total is the earlier running sum plus
    the total price of the row, rounded to two decimals. *)
Theorem recorded_sale_is_reported parse_date first_of_month
    today new_id s st resp st' now period start end_ rep d :
  add_sale_api today new_id s st = (Ok resp, st') →
  sales_report parse_date first_of_month now period None None None None start end_ st
  = Some rep →
  parse_date (opt_or (sin_date s) today) = Some d →
  (sr_period_start rep <= d <= sr_period_end rep)%Z →
  ∃ rep' row,
    sales_report parse_date first_of_month now period None None None None start end_ st'
    = Some rep'
    ∧ sales_rows rep' = (sales_rows rep ++ [row])%list
    ∧ sale_id row = new_id
    ∧ total_sales rep'
      = Num.fmt2 (running_amount 0 (sales_rows rep) + sale_total_price row).
Proof.
  intros Hrun Hrep Hd Hin.
  destruct (add_sale_api_cases today new_id s st)
    as [[Hbad _]|(i & target & Hc & Hf & Hu & Hq)]; [congruence|].
  rewrite (add_sale_api_accepted _ _ _ _ _ _ Hc Hf Hu Hq) in Hrun.
  injection Hrun as <- <-.
  revert Hrep. unfold sales_report.
  destruct (_date_range _ _ _ _ _ _) as [[s0 e0]|]; [|done].
  intros [= <-]. cbn [sr_period_start sr_period_end sales_rows] in *.
  eexists _, (sale_row today new_id s target (sale_order_id_of s st)).
  split; [reflexivity|].
  cbn [sales sales_rows total_sales].
  set (row := sale_row today new_id s target (sale_order_id_of s st)).
  assert (Hsel : sales_selects parse_date s0 e0 None None None None row).
  { split_and!; try done. by exists d. }
  destruct (sales_fold parse_date s0 e0 None None None None (sales st ++ [row])%list
              {| sacc_total := 0; sacc_by_cat := ∅; sacc_by_item := ∅;
                 sacc_by_branch := ∅; sacc_filtered := [] |}) as (H1 & H2 & _).
  destruct (sales_fold parse_date s0 e0 None None None None (sales st)
              {| sacc_total := 0; sacc_by_cat := ∅; sacc_by_item := ∅;
                 sacc_by_branch := ∅; sacc_filtered := [] |}) as (H1' & _).
  cbn [sacc_total sacc_filtered app] in *.
  assert (Hkept : filter (sales_selects parse_date s0 e0 None None None None)
                    (sales st ++ [row])%list
                  = (filter (sales_selects parse_date s0 e0 None None None None)
                       (sales st) ++ [row])%list).
  { rewrite filter_app, filter_cons, decide_True by done. by rewrite filter_nil. }
  split_and!.
  - by rewrite H1, H1', Hkept.
  - done.
  - rewrite H2, H1', Hkept. unfold running_amount. by rewrite foldl_app.
Qed.

Lemma recorded_sale_is_reported_witness :
  let parse_date (s : string) :=
    if decide (s = "2024-01-02") then Some 2%Z else None in
  ∃ resp st' rep' row,
    add_sale_api "2024-01-02" "s1" (sale_of "Burger" "Pieces" 3 "Live") shop
    = (Ok resp, st')
    ∧ sales_report parse_date (fun d => d) 2%Z "today" None None None None None None st'
      = Some rep'
    ∧ sales_rows rep' = [row] ∧ sale_id row = "s1".
Proof.
  intros parse_date.
  eassert (H : add_sale_api "2024-01-02" "s1" (sale_of "Burger" "Pieces" 3 "Live") shop
               = (Ok _, _)) by (vm_compute; reflexivity).
  eassert (H0 : sales_report parse_date (fun d => d) 2%Z "today"
                  None None None None None None shop = Some _) by reflexivity.
  destruct (recorded_sale_is_reported parse_date (fun d => d)
              "2024-01-02" "s1" (sale_of "Burger" "Pieces" 3 "Live") shop _ _
              2%Z "today" None None _ 2%Z H H0 eq_refl)
    as (rep' & row & Hrep & Hrows & Hid & _).
  { cbn. lia. }
  eexists _, _, rep', row. split; [exact H|]. split; [exact Hrep|]. split; [|exact Hid].
  rewrite Hrows. reflexivity.
Defined.

(** ** Peeking at the next order id *)

(** X27.  [peek_next_order] changes nothing but the sequence file, which it
    creates when missing, and the id it shows is the one the next sale
    recorded without an order id of its own is given. *)
Theorem peeked_order_id_goes_to_next_sale st n st1 today new_id s resp st2 :
  peek_next_order st = (Ok n, st1) →
  sin_order_id s = None →
  add_sale_api today new_id s st1 = (Ok resp, st2) →
  sresp_order_id resp = n
  ∧ ready_products st1 = ready_products st ∧ raw_inventory st1 = raw_inventory st
  ∧ purchases st1 = purchases st ∧ sales st1 = sales st
  ∧ branches st1 = branches st
  ∧ (∀ c, order_seq st = Some c → order_seq st1 = Some c).
Proof.
  unfold peek_next_order. rewrite next_order_id_spec. intros [= <- <-] Hnone Hrun.
  destruct (add_sale_api_cases today new_id s
              (put_order_seq (Some (current_value st)) st))
    as [[Hbad _]|(i & target & Hc & Hf & Hu & Hq)]; [congruence|].
  rewrite (add_sale_api_accepted _ _ _ _ _ _ Hc Hf Hu Hq) in Hrun.
  injection Hrun as <- <-. cbn [sresp_order_id].
  unfold sale_order_id_of. rewrite Hnone.
  split_and!; try done.
  intros c Hseq. cbn [put_order_seq order_seq]. unfold current_value. by rewrite Hseq.
Qed.

Lemma peeked_order_id_goes_to_next_sale_witness :
  ∃ n st1 resp st2,
    peek_next_order shop = (Ok n, st1)
    ∧ add_sale_api "2024-01-01" "s1" (sale_of "Burger" "Pieces" 3 "Live") st1
      = (Ok resp, st2)
    ∧ sresp_order_id resp = n.
Proof.
  eassert (H1 : peek_next_order shop = (Ok _, _)) by (vm_compute; reflexivity).
  match type of H1 with
  | _ = (_, ?st1) =>
      eassert (H2 : add_sale_api "2024-01-01" "s1"
                      (sale_of "Burger" "Pieces" 3 "Live") st1 = (Ok _, _))
        by (vm_compute; reflexivity)
  end.
  eexists _, _, _, _. split; [exact H1|]. split; [exact H2|].
  exact (proj1 (peeked_order_id_goes_to_next_sale shop _ _ "2024-01-01" "s1"
                  (sale_of "Burger" "Pieces" 3 "Live") _ _ H1 eq_refl H2)).
Defined.
